(** * ANLEd: gap buffer, key decoder and editor controller

    A shallow embedding of [anled.py] (classes [GapBuffer], [KeyDecoder] and
    [Editor]) together with the properties stated about them.

    Conventions.
    - A Python [str] is a list of code points ([pystr]); a [bytearray] is a
      list of byte values; Python integers are [Z].
    - Python's sequence primitives (slicing, slice assignment, indexing with
      negative indices, [list.insert], [list.pop]) are written out once in
      the first part and used by every operation, so that out-of-range and
      negative arguments behave as they do in the interpreter.
    - An operation that may raise returns [option]; [None] stands for "does
      not return normally". *)

From Stdlib Require Import String Ascii DecimalString.
From Stdlib Require Import ZArith List Lia Bool.
Import ListNotations.
Open Scope Z_scope.

(* ================================================================= *)
(** ** Python sequences *)

Definition pystr := list Z.

(** A literal: the code points of an ASCII string. *)
Definition py (s : string) : pystr :=
  map (fun a => Z.of_N (N_of_ascii a)) (list_ascii_of_string s).

Definition zlen {A} (l : list A) : Z := Z.of_nat (length l).

(** Index adjustment of a slice bound (step 1): a negative bound counts from
    the end, and the result is clamped to [0, len]. *)
Definition adjust_index (len i : Z) : Z :=
  if i <? 0 then Z.max 0 (i + len) else Z.min i len.

Definition slice_bound (len dflt : Z) (o : option Z) : Z :=
  match o with
  | None => dflt
  | Some i => adjust_index len i
  end.

(** [l[start:stop]] *)
Definition py_slice {A} (l : list A) (start stop : option Z) : list A :=
  let n := zlen l in
  let i := slice_bound n 0 start in
  let j := slice_bound n n stop in
  firstn (Z.to_nat (j - i)) (skipn (Z.to_nat i) l).

(** [l[start:stop] = x]: the slice is replaced by [x], whatever its length. *)
Definition py_slice_assign {A} (l : list A) (start stop : option Z)
    (x : list A) : list A :=
  let n := zlen l in
  let i := slice_bound n 0 start in
  let j := Z.max i (slice_bound n n stop) in
  firstn (Z.to_nat i) l ++ x ++ skipn (Z.to_nat j) l.

(** [del l[start:stop]] *)
Definition py_del_slice {A} (l : list A) (start stop : option Z) : list A :=
  py_slice_assign l start stop [].

(** The position designated by an index, or [None] for [IndexError]. *)
Definition py_index {A} (l : list A) (i : Z) : option nat :=
  let n := zlen l in
  let k := if i <? 0 then i + n else i in
  if (0 <=? k) && (k <? n) then Some (Z.to_nat k) else None.

(** [l[i]] *)
Definition py_get {A} (l : list A) (i : Z) : option A :=
  match py_index l i with
  | Some k => nth_error l k
  | None => None
  end.

(** [l[i] = v] *)
Definition py_set {A} (l : list A) (i : Z) (v : A) : option (list A) :=
  match py_index l i with
  | Some k => Some (firstn k l ++ v :: skipn (S k) l)
  | None => None
  end.

(** [l.pop(i)] *)
Definition py_pop {A} (l : list A) (i : Z) : option (A * list A) :=
  match py_index l i with
  | Some k =>
      match nth_error l k with
      | Some v => Some (v, firstn k l ++ skipn (S k) l)
      | None => None
      end
  | None => None
  end.

(** [l.insert(i, v)]: the index is clamped like a slice bound. *)
Definition py_list_insert {A} (l : list A) (i : Z) (v : A) : list A :=
  let k := Z.to_nat (adjust_index (zlen l) i) in
  firstn k l ++ v :: skipn k l.

(** [range(a, b)] *)
Definition py_range (a b : Z) : list Z :=
  map (fun k => a + Z.of_nat k) (seq 0 (Z.to_nat (b - a))).

(** [sep.join(parts)] *)
Fixpoint py_join (sep : pystr) (parts : list pystr) : pystr :=
  match parts with
  | [] => []
  | [p] => p
  | p :: rest => p ++ sep ++ py_join sep rest
  end.

(** [s.split(chr(sep))]: the accumulator [cur] holds the current segment in
    reverse. The result always has at least one segment. *)
Fixpoint split_acc (sep : Z) (cur : pystr) (s : pystr) : list pystr :=
  match s with
  | [] => [rev cur]
  | c :: r =>
      if c =? sep then rev cur :: split_acc sep [] r
      else split_acc sep (c :: cur) r
  end.

Definition py_split (sep : Z) (s : pystr) : list pystr := split_acc sep [] s.

(** [s.rstrip(chr(c))] *)
Fixpoint rstrip_rev (c : Z) (r : pystr) : pystr :=
  match r with
  | x :: r' => if x =? c then rstrip_rev c r' else r
  | [] => []
  end.

Definition py_rstrip (c : Z) (s : pystr) : pystr := rev (rstrip_rev c (rev s)).

(** [str(n)] for an integer. *)
Definition py_str_of_int (n : Z) : pystr :=
  py (NilZero.string_of_int (Z.to_int n)).

(** Sequencing of operations that may raise. *)
Notation "x <- a ;; b" :=
  (match a with Some x => b | None => None end)
  (at level 61, a at next level, right associativity).
Notation "' p <- a ;; b" :=
  (match a with Some p => b | None => None end)
  (at level 61, p pattern, a at next level, right associativity).

(* ================================================================= *)
(** ** UTF-8, as [str.encode('utf-8')] and [bytes.decode('utf-8', 'replace')] *)

(** The code points [str.encode] accepts: Unicode scalar values. A lone
    surrogate makes it raise [UnicodeEncodeError]. *)
Definition is_scalar (c : Z) : bool :=
  ((0 <=? c) && (c <? 0xD800)) || ((0xDFFF <? c) && (c <=? 0x10FFFF)).

Definition encode_char (c : Z) : option (list Z) :=
  if negb (is_scalar c) then None
  else if c <? 0x80 then Some [c]
  else if c <? 0x800 then Some [0xC0 + c / 64; 0x80 + c mod 64]
  else if c <? 0x10000 then
    Some [0xE0 + c / 4096; 0x80 + (c / 64) mod 64; 0x80 + c mod 64]
  else
    Some [0xF0 + c / 262144; 0x80 + (c / 4096) mod 64;
          0x80 + (c / 64) mod 64; 0x80 + c mod 64].

Fixpoint utf8_encode (s : pystr) : option (list Z) :=
  match s with
  | [] => Some []
  | c :: r =>
      match encode_char c, utf8_encode r with
      | Some a, Some b => Some (a ++ b)
      | _, _ => None
      end
  end.

Definition REPLACEMENT : Z := 0xFFFD.

Definition is_cont (b : Z) : bool := (0x80 <=? b) && (b <=? 0xBF).

(** Admissible range of the second byte after a three- or four-byte lead. *)
Definition second_ok (b0 b1 : Z) : bool :=
  if b0 =? 0xE0 then (0xA0 <=? b1) && (b1 <=? 0xBF)
  else if b0 =? 0xED then (0x80 <=? b1) && (b1 <=? 0x9F)
  else if b0 =? 0xF0 then (0x90 <=? b1) && (b1 <=? 0xBF)
  else if b0 =? 0xF4 then (0x80 <=? b1) && (b1 <=? 0x8F)
  else is_cont b1.

(** The decoder with the ['replace'] handler: an ill-formed or truncated
    sequence yields one U+FFFD for its longest well-formed prefix (at least
    one byte), and decoding resumes right after that prefix. *)
Fixpoint utf8_decode (bs : list Z) : pystr :=
  match bs with
  | [] => []
  | b0 :: r0 =>
      if (0 <=? b0) && (b0 <? 0x80) then b0 :: utf8_decode r0
      else if (0xC2 <=? b0) && (b0 <=? 0xDF) then
        match r0 with
        | b1 :: r1 =>
            if is_cont b1
            then ((b0 - 0xC0) * 64 + (b1 - 0x80)) :: utf8_decode r1
            else REPLACEMENT :: utf8_decode r0
        | [] => [REPLACEMENT]
        end
      else if (0xE0 <=? b0) && (b0 <=? 0xEF) then
        match r0 with
        | b1 :: r1 =>
            if second_ok b0 b1 then
              match r1 with
              | b2 :: r2 =>
                  if is_cont b2
                  then ((b0 - 0xE0) * 4096 + (b1 - 0x80) * 64 + (b2 - 0x80))
                         :: utf8_decode r2
                  else REPLACEMENT :: utf8_decode r1
              | [] => [REPLACEMENT]
              end
            else REPLACEMENT :: utf8_decode r0
        | [] => [REPLACEMENT]
        end
      else if (0xF0 <=? b0) && (b0 <=? 0xF4) then
        match r0 with
        | b1 :: r1 =>
            if second_ok b0 b1 then
              match r1 with
              | b2 :: r2 =>
                  if is_cont b2 then
                    match r2 with
                    | b3 :: r3 =>
                        if is_cont b3
                        then ((b0 - 0xF0) * 262144 + (b1 - 0x80) * 4096
                              + (b2 - 0x80) * 64 + (b3 - 0x80))
                               :: utf8_decode r3
                        else REPLACEMENT :: utf8_decode r2
                    | [] => [REPLACEMENT]
                    end
                  else REPLACEMENT :: utf8_decode r1
              | [] => [REPLACEMENT]
              end
            else REPLACEMENT :: utf8_decode r0
        | [] => [REPLACEMENT]
        end
      else REPLACEMENT :: utf8_decode r0
  end.

(* ================================================================= *)
(** ** class GapBuffer *)

Module GapBuffer.

Record t := mk { buffer : list Z; gap_start : Z; gap_end : Z }.

Definition MIN_GAP_SIZE : Z := 16.

(** [bytearray(n)]: [n] zero bytes. Every call site passes a size that is
    at least [MIN_GAP_SIZE]. *)
Definition bytearray (n : Z) : list Z := repeat 0 (Z.to_nat n).

(** [__init__] *)
Definition init (text : pystr) : option t :=
  encoded_text <- utf8_encode text ;;
  let initial_gap := Z.max MIN_GAP_SIZE (zlen encoded_text / 2) in
  let buf := bytearray (zlen encoded_text + initial_gap) in
  let buf := py_slice_assign buf None (Some (zlen encoded_text)) encoded_text in
  Some (mk buf (zlen encoded_text) (zlen buf)).

(** The bytes outside the gap. *)
Definition content (g : t) : list Z :=
  py_slice (buffer g) None (Some (gap_start g))
  ++ py_slice (buffer g) (Some (gap_end g)) None.

Definition to_string (g : t) : pystr := utf8_decode (content g).

(** [__len__]: the number of characters, not of bytes. *)
Definition len (g : t) : Z := zlen (to_string g).

Definition _get_byte_pos (g : t) (char_pos : Z) : option Z :=
  enc <- utf8_encode (py_slice (to_string g) None (Some char_pos)) ;;
  Some (zlen enc).

Definition _resize_if_needed (g : t) (text_len : Z) : t :=
  if gap_end g - gap_start g <? text_len then
    let new_gap_size := Z.max (Z.max MIN_GAP_SIZE text_len) (len g / 2) in
    let new_buffer_size := len g + new_gap_size in
    let new_buffer := bytearray new_buffer_size in
    let new_buffer :=
      py_slice_assign new_buffer None (Some (gap_start g))
        (py_slice (buffer g) None (Some (gap_start g))) in
    let content_after_len := zlen (buffer g) - gap_end g in
    let new_buffer :=
      py_slice_assign new_buffer (Some (new_buffer_size - content_after_len))
        None (py_slice (buffer g) (Some (gap_end g)) None) in
    mk new_buffer (gap_start g) (new_buffer_size - content_after_len)
  else g.

Definition _move_gap (g : t) (char_pos : Z) : option t :=
  byte_pos <- _get_byte_pos g char_pos ;;
  if byte_pos =? gap_start g then Some g
  else
    let gap_size := gap_end g - gap_start g in
    if byte_pos <? gap_start g then
      let move_len := gap_start g - byte_pos in
      let src := py_slice (buffer g) (Some byte_pos) (Some (gap_start g)) in
      let buf :=
        py_slice_assign (buffer g) (Some (gap_end g - move_len))
          (Some (gap_end g)) src in
      Some (mk buf byte_pos (byte_pos + gap_size))
    else
      let move_len := byte_pos - gap_start g in
      let src :=
        py_slice (buffer g) (Some (gap_end g))
          (Some (gap_end g + move_len)) in
      let buf :=
        py_slice_assign (buffer g) (Some (gap_start g))
          (Some (gap_start g + move_len)) src in
      Some (mk buf (gap_start g + move_len) (gap_end g + move_len)).

Definition insert (g : t) (text : pystr) (char_pos : Z) : option t :=
  g1 <- _move_gap g char_pos ;;
  encoded_text <- utf8_encode text ;;
  let text_len := zlen encoded_text in
  let g2 := _resize_if_needed g1 text_len in
  let buf :=
    py_slice_assign (buffer g2) (Some (gap_start g2))
      (Some (gap_start g2 + text_len)) encoded_text in
  Some (mk buf (gap_start g2 + text_len) (gap_end g2)).

Definition delete (g : t) (char_pos char_len : Z) : option t :=
  if char_len <=? 0 then Some g
  else
    start_byte_pos <- _get_byte_pos g char_pos ;;
    end_byte_pos <- _get_byte_pos g (char_pos + char_len) ;;
    g1 <- _move_gap g char_pos ;;
    Some (mk (buffer g1) (gap_start g1)
            (gap_end g1 + (end_byte_pos - start_byte_pos))).

Definition get_slice (g : t) (start_char end_char : option Z) : pystr :=
  py_slice (to_string g) start_char end_char.

End GapBuffer.

(* ================================================================= *)
(** ** class Key and class KeyDecoder *)

Inductive Key :=
| CTRL_A | CTRL_C | CTRL_D | CTRL_E | CTRL_F | CTRL_G | CTRL_H | CTRL_L
| CTRL_N | CTRL_P | CTRL_Q | CTRL_S | CTRL_V | CTRL_X | CTRL_Y
| ENTER | ESCAPE | BACKSPACE | TAB
| UP | DOWN | LEFT | RIGHT | HOME | END | DELETE | PAGE_UP | PAGE_DOWN
| INSERT
| SHIFT_UP | SHIFT_DOWN | SHIFT_LEFT | SHIFT_RIGHT | SHIFT_HOME | SHIFT_END
| SHIFT_PAGE_UP | SHIFT_PAGE_DOWN | SHIFT_INSERT | SHIFT_DELETE
| CTRL_LEFT | CTRL_RIGHT | CTRL_HOME | CTRL_END | CTRL_UP | CTRL_DOWN
| CTRL_INSERT | CTRL_DELETE
| CTRL_SHIFT_LEFT | CTRL_SHIFT_RIGHT | CTRL_SHIFT_HOME | CTRL_SHIFT_END
| CTRL_SHIFT_UP | CTRL_SHIFT_DOWN | CTRL_SHIFT_INSERT | CTRL_SHIFT_DELETE
| CTRL_0 | CTRL_1 | CTRL_2 | CTRL_3 | CTRL_4 | CTRL_5 | CTRL_6 | CTRL_7
| CTRL_8 | CTRL_9
| F1 | F2
| UNKNOWN
| CHAR.

(** The value of each member of the enumeration. *)
Definition Key_value (k : Key) : Z :=
  match k with
  | CTRL_A => 0 | CTRL_C => 1 | CTRL_D => 2 | CTRL_E => 3 | CTRL_F => 4
  | CTRL_G => 5 | CTRL_H => 6 | CTRL_L => 7 | CTRL_N => 8 | CTRL_P => 9
  | CTRL_Q => 10 | CTRL_S => 11 | CTRL_V => 12 | CTRL_X => 13 | CTRL_Y => 14
  | ENTER => 15 | ESCAPE => 16 | BACKSPACE => 17 | TAB => 18
  | UP => 19 | DOWN => 20 | LEFT => 21 | RIGHT => 22 | HOME => 23
  | END => 24 | DELETE => 25 | PAGE_UP => 26 | PAGE_DOWN => 27 | INSERT => 28
  | SHIFT_UP => 29 | SHIFT_DOWN => 30 | SHIFT_LEFT => 31 | SHIFT_RIGHT => 32
  | SHIFT_HOME => 33 | SHIFT_END => 34 | SHIFT_PAGE_UP => 35
  | SHIFT_PAGE_DOWN => 36 | SHIFT_INSERT => 37 | SHIFT_DELETE => 38
  | CTRL_LEFT => 39 | CTRL_RIGHT => 40 | CTRL_HOME => 41 | CTRL_END => 42
  | CTRL_UP => 43 | CTRL_DOWN => 44 | CTRL_INSERT => 45 | CTRL_DELETE => 46
  | CTRL_SHIFT_LEFT => 47 | CTRL_SHIFT_RIGHT => 48 | CTRL_SHIFT_HOME => 49
  | CTRL_SHIFT_END => 50 | CTRL_SHIFT_UP => 51 | CTRL_SHIFT_DOWN => 52
  | CTRL_SHIFT_INSERT => 53 | CTRL_SHIFT_DELETE => 54
  | CTRL_0 => 55 | CTRL_1 => 56 | CTRL_2 => 57 | CTRL_3 => 58 | CTRL_4 => 59
  | CTRL_5 => 60 | CTRL_6 => 61 | CTRL_7 => 62 | CTRL_8 => 63 | CTRL_9 => 64
  | F1 => 65 | F2 => 66
  | UNKNOWN => 67
  | CHAR => 68
  end.

Definition Key_eqb (a b : Key) : bool := Key_value a =? Key_value b.

(** ['SHIFT' in k.name] *)
Definition name_has_SHIFT (k : Key) : bool :=
  match k with
  | SHIFT_UP | SHIFT_DOWN | SHIFT_LEFT | SHIFT_RIGHT | SHIFT_HOME | SHIFT_END
  | SHIFT_PAGE_UP | SHIFT_PAGE_DOWN | SHIFT_INSERT | SHIFT_DELETE
  | CTRL_SHIFT_LEFT | CTRL_SHIFT_RIGHT | CTRL_SHIFT_HOME | CTRL_SHIFT_END
  | CTRL_SHIFT_UP | CTRL_SHIFT_DOWN | CTRL_SHIFT_INSERT | CTRL_SHIFT_DELETE
      => true
  | _ => false
  end.

Fixpoint pystr_eqb (a b : pystr) : bool :=
  match a, b with
  | [], [] => true
  | x :: a', y :: b' => (x =? y) && pystr_eqb a' b'
  | _, _ => false
  end.

(** Lookup in a dict written as a literal: of two entries with equal keys
    the later one stands. *)
Fixpoint dict_get {V} (d : list (pystr * V)) (k : pystr) : option V :=
  match d with
  | [] => None
  | (k0, v0) :: rest =>
      match dict_get rest k with
      | Some v => Some v
      | None => if pystr_eqb k0 k then Some v0 else None
      end
  end.

Module KeyDecoder.

Definition ESC : Z := 27.

(** An escape sequence: ESC followed by the given ASCII text. *)
Definition esc (s : string) : pystr := ESC :: py s.

Definition key_map : list (pystr * Key) :=
  [ (esc "[A", UP); (esc "[B", DOWN); (esc "[C", RIGHT); (esc "[D", LEFT);
    (esc "[H", HOME); (esc "[F", END); (esc "[2~", INSERT);
    (esc "[3~", DELETE);
    (esc "[5~", PAGE_UP); (esc "[6~", PAGE_DOWN);
    (esc "[11~", F1); (esc "OP", F1);
    (esc "[12~", F2); (esc "OQ", F2);
    (esc "[1;2A", SHIFT_UP); (esc "[1;2B", SHIFT_DOWN);
    (esc "[1;2C", SHIFT_RIGHT); (esc "[1;2D", SHIFT_LEFT);
    (esc "[1;2H", SHIFT_HOME); (esc "[1;2F", SHIFT_END);
    (esc "[2;2~", SHIFT_INSERT); (esc "[3;2~", SHIFT_DELETE);
    (esc "[1;5A", CTRL_UP); (esc "[1;5B", CTRL_DOWN);
    (esc "[1;5C", CTRL_RIGHT); (esc "[1;5D", CTRL_LEFT);
    (esc "[1;5H", CTRL_HOME); (esc "[1;5F", CTRL_END);
    (esc "[2;5~", CTRL_INSERT); (esc "[3;5~", CTRL_DELETE);
    (esc "[1;6A", CTRL_SHIFT_UP); (esc "[1;6B", CTRL_SHIFT_DOWN);
    (esc "[1;6C", CTRL_SHIFT_RIGHT); (esc "[1;6D", CTRL_SHIFT_LEFT);
    (esc "[1;6H", CTRL_SHIFT_HOME); (esc "[1;6F", CTRL_SHIFT_END);
    (esc "[2;6~", CTRL_SHIFT_INSERT); (esc "[3;6~", CTRL_SHIFT_DELETE) ].

(** The table of [_map_single_char], in the order of the source: the keys
    ['\b'] and ['\x08'] are the same character, the later entry stands. *)
Definition single_char_map : list (pystr * Key) :=
  [ ([13], ENTER); ([10], ENTER);
    ([127], BACKSPACE); ([8], BACKSPACE);
    ([9], TAB); ([27], ESCAPE);
    ([1], CTRL_A); ([3], CTRL_C); ([4], CTRL_D);
    ([5], CTRL_E); ([6], CTRL_F); ([7], CTRL_G); ([8], CTRL_H);
    ([12], CTRL_L); ([14], CTRL_N); ([16], CTRL_P);
    ([17], CTRL_Q); ([19], CTRL_S); ([22], CTRL_V);
    ([24], CTRL_X); ([25], CTRL_Y) ].

(** The outcome of the non-blocking [sys.stdin.read(5)]: some text (possibly
    none at all), or [BlockingIOError] / [InterruptedError]. *)
Inductive lookahead :=
| ReadText (rest_of_seq : pystr)
| ReadInterrupted.

Section Unix.

(** [str.isprintable], a property of the Unicode character database. *)
Variable isprintable : pystr -> bool.

Definition _map_single_char (char : pystr) : Key * option pystr :=
  match dict_get single_char_map char with
  | Some k => (k, None)
  | None => if isprintable char then (CHAR, Some char) else (UNKNOWN, None)
  end.

(** [char] is what the blocking [sys.stdin.read(1)] returned and [ahead] the
    outcome of the look-ahead read, which only takes place after ESC. *)
Definition _get_key_unix (char : pystr) (ahead : lookahead)
    : Key * option pystr :=
  if negb (pystr_eqb char [ESC]) then _map_single_char char
  else
    let seq :=
      match ahead with
      | ReadText rest_of_seq =>
          match rest_of_seq with
          | [] => char
          | _ => char ++ rest_of_seq
          end
      | ReadInterrupted => char
      end in
    if pystr_eqb seq [ESC] then (ESCAPE, None)
    else
      (match dict_get key_map seq with Some k => k | None => UNKNOWN end,
       None).

(** [get_key] on a host where [IS_UNIX] holds. *)
Definition get_key := _get_key_unix.

End Unix.

End KeyDecoder.

(* ================================================================= *)
(** ** class Editor *)

(** [c.isspace()] for one character: the white-space table of the
    interpreter's Unicode database. *)
Definition isspace (c : Z) : bool :=
  ((0x09 <=? c) && (c <=? 0x0D)) || ((0x1C <=? c) && (c <=? 0x20))
  || (c =? 0x85) || (c =? 0xA0) || (c =? 0x1680)
  || ((0x2000 <=? c) && (c <=? 0x200A))
  || (c =? 0x2028) || (c =? 0x2029) || (c =? 0x202F) || (c =? 0x205F)
  || (c =? 0x3000).

(** [s.lower() == 'y']: the only strings whose lower-casing is ["y"] are
    ["y"] and ["Y"]. *)
Definition lower_is_y (s : pystr) : bool :=
  pystr_eqb s (py "y") || pystr_eqb s (py "Y").

Definition lower_is_n (s : pystr) : bool :=
  pystr_eqb s (py "n") || pystr_eqb s (py "N").

(** [s.lower().startswith('y')] *)
Definition lower_startswith_y (s : pystr) : bool :=
  match s with
  | c :: _ => (c =? 121) || (c =? 89)
  | [] => false
  end.

(** A loop [while cond(x): x = step(x)] whose number of iterations is
    bounded by [fuel]; [cond] may raise. *)
Fixpoint while_loop (fuel : nat) (cond : Z -> option bool) (step : Z -> Z)
    (x : Z) : option Z :=
  match fuel with
  | O => None
  | S fuel' =>
      c <- cond x ;;
      if c then while_loop fuel' cond step (step x) else Some x
  end.

(** [[f(x) for x in l]] where [f] may raise. *)
Fixpoint map_opt {A B} (f : A -> option B) (l : list A) : option (list B) :=
  match l with
  | [] => Some []
  | x :: r => y <- f x ;; ys <- map_opt f r ;; Some (y :: ys)
  end.

Module Editor.

Inductive Action :=
| quit | save | toggle_help | copy | cut | paste
| move_up | move_down | move_left | move_right | move_home | move_end
| move_page_up | move_page_down | move_prev_word | move_next_word
| move_doc_start | move_doc_end
| delete_back | delete_forward | insert_newline | insert_char.

Definition Action_eqb (a b : Action) : bool :=
  match a, b with
  | quit, quit | save, save | toggle_help, toggle_help | copy, copy
  | cut, cut | paste, paste | move_up, move_up | move_down, move_down
  | move_left, move_left | move_right, move_right | move_home, move_home
  | move_end, move_end | move_page_up, move_page_up
  | move_page_down, move_page_down | move_prev_word, move_prev_word
  | move_next_word, move_next_word | move_doc_start, move_doc_start
  | move_doc_end, move_doc_end | delete_back, delete_back
  | delete_forward, delete_forward | insert_newline, insert_newline
  | insert_char, insert_char => true
  | _, _ => false
  end.

Definition DEFAULT_KEY_BINDINGS : list (Action * list Key) :=
  [ (quit, [CTRL_Q; ESCAPE]);
    (save, [CTRL_S; F2]);
    (toggle_help, [F1; CTRL_H]);
    (copy, [CTRL_C; CTRL_INSERT]);
    (cut, [CTRL_X; SHIFT_DELETE]);
    (paste, [CTRL_V; SHIFT_INSERT]);
    (move_up, [UP; SHIFT_UP; CTRL_UP; CTRL_SHIFT_UP]);
    (move_down, [DOWN; SHIFT_DOWN; CTRL_DOWN; CTRL_SHIFT_DOWN]);
    (move_left, [LEFT; SHIFT_LEFT]);
    (move_right, [RIGHT; SHIFT_RIGHT]);
    (move_home, [HOME; SHIFT_HOME]);
    (move_end, [END; SHIFT_END]);
    (move_page_up, [PAGE_UP; SHIFT_PAGE_UP]);
    (move_page_down, [PAGE_DOWN; SHIFT_PAGE_DOWN]);
    (move_prev_word, [CTRL_LEFT; CTRL_SHIFT_LEFT]);
    (move_next_word, [CTRL_RIGHT; CTRL_SHIFT_RIGHT]);
    (move_doc_start, [CTRL_HOME; CTRL_SHIFT_HOME]);
    (move_doc_end, [CTRL_END; CTRL_SHIFT_END]);
    (delete_back, [BACKSPACE]);
    (delete_forward, [DELETE]);
    (insert_newline, [ENTER]);
    (insert_char, [CHAR]) ].

(** The editor is run with the default bindings ([key_bindings=None]). *)
Definition key_bindings := DEFAULT_KEY_BINDINGS.

(** [{k: action for action, keys in key_bindings.items() for k in keys}]:
    a key bound twice keeps the later action. *)
Definition action_map (k : Key) : option Action :=
  fold_left
    (fun acc (b : Action * list Key) =>
       if existsb (Key_eqb k) (snd b) then Some (fst b) else acc)
    key_bindings None.

Definition movement_actions : list Action :=
  [ move_up; move_down; move_left; move_right; move_home; move_end;
    move_page_up; move_page_down; move_prev_word; move_next_word;
    move_doc_start; move_doc_end ].

(** [key_bindings.get(action, [])] *)
Definition bindings_get (a : Action) : list Key :=
  match find (fun b : Action * list Key => Action_eqb (fst b) a)
          key_bindings with
  | Some b => snd b
  | None => []
  end.

Definition _plain_movement_keys : list Key :=
  filter (fun k => negb (name_has_SHIFT k))
    (flat_map bindings_get movement_actions).

Definition _shift_movement_keys : list Key :=
  filter name_has_SHIFT (flat_map bindings_get movement_actions).

Definition key_in (k : Key) (ks : list Key) : bool := existsb (Key_eqb k) ks.

Definition editing_actions : list Action :=
  [ delete_back; delete_forward; insert_newline; insert_char ].

Definition action_in (a : option Action) (l : list Action) : bool :=
  match a with
  | Some a => existsb (Action_eqb a) l
  | None => false
  end.

(** The editor's attributes. Left out: [top_line] and [col_offset], which
    only [render] reads and writes, and the tables derived from the key
    bindings, which are the constants above. *)
Record t := mk {
  filename : option pystr;
  in_memory : bool;
  buffer : list GapBuffer.t;
  cursor_x : Z;
  cursor_y : Z;
  running : bool;
  is_dirty : bool;
  status_message : pystr;
  help_mode : bool;
  selection_start_x : Z;
  selection_start_y : Z;
  is_selecting : bool;
  clipboard : pystr
}.

Definition set_filename v s :=
  mk v (in_memory s) (buffer s) (cursor_x s) (cursor_y s) (running s)
     (is_dirty s) (status_message s) (help_mode s) (selection_start_x s)
     (selection_start_y s) (is_selecting s) (clipboard s).
Definition set_buffer v s :=
  mk (filename s) (in_memory s) v (cursor_x s) (cursor_y s) (running s)
     (is_dirty s) (status_message s) (help_mode s) (selection_start_x s)
     (selection_start_y s) (is_selecting s) (clipboard s).
Definition set_cursor_x v s :=
  mk (filename s) (in_memory s) (buffer s) v (cursor_y s) (running s)
     (is_dirty s) (status_message s) (help_mode s) (selection_start_x s)
     (selection_start_y s) (is_selecting s) (clipboard s).
Definition set_cursor_y v s :=
  mk (filename s) (in_memory s) (buffer s) (cursor_x s) v (running s)
     (is_dirty s) (status_message s) (help_mode s) (selection_start_x s)
     (selection_start_y s) (is_selecting s) (clipboard s).
Definition set_running v s :=
  mk (filename s) (in_memory s) (buffer s) (cursor_x s) (cursor_y s) v
     (is_dirty s) (status_message s) (help_mode s) (selection_start_x s)
     (selection_start_y s) (is_selecting s) (clipboard s).
Definition set_is_dirty v s :=
  mk (filename s) (in_memory s) (buffer s) (cursor_x s) (cursor_y s)
     (running s) v (status_message s) (help_mode s) (selection_start_x s)
     (selection_start_y s) (is_selecting s) (clipboard s).
Definition set_status_message v s :=
  mk (filename s) (in_memory s) (buffer s) (cursor_x s) (cursor_y s)
     (running s) (is_dirty s) v (help_mode s) (selection_start_x s)
     (selection_start_y s) (is_selecting s) (clipboard s).
Definition set_help_mode v s :=
  mk (filename s) (in_memory s) (buffer s) (cursor_x s) (cursor_y s)
     (running s) (is_dirty s) (status_message s) v (selection_start_x s)
     (selection_start_y s) (is_selecting s) (clipboard s).
Definition set_selection_start vx vy s :=
  mk (filename s) (in_memory s) (buffer s) (cursor_x s) (cursor_y s)
     (running s) (is_dirty s) (status_message s) (help_mode s) vx vy
     (is_selecting s) (clipboard s).
Definition set_is_selecting v s :=
  mk (filename s) (in_memory s) (buffer s) (cursor_x s) (cursor_y s)
     (running s) (is_dirty s) (status_message s) (help_mode s)
     (selection_start_x s) (selection_start_y s) v (clipboard s).
Definition set_clipboard v s :=
  mk (filename s) (in_memory s) (buffer s) (cursor_x s) (cursor_y s)
     (running s) (is_dirty s) (status_message s) (help_mode s)
     (selection_start_x s) (selection_start_y s) (is_selecting s) v.

(** What writing the file may do. *)
Inductive write_outcome :=
| Written
| OSError (e : pystr)
| OtherError.

(** The host the editor runs on: the platform, the terminal, the platform
    clipboard and the file system. *)
Record Host := {
  IS_UNIX : bool;
  terminal_height : Z;
  get_clip_text_ps : option pystr;
  set_clip_text_ps : pystr -> bool;
  path_exists : pystr -> bool;
  read_lines : pystr -> option (list pystr);
  write_file : pystr -> pystr -> write_outcome
}.

(** The keys still to be delivered by [key_decoder.get_key()]. *)
Definition keys := list (Key * option pystr).

Definition HELP_STATUS : pystr :=
  py "HELP: Ctrl-S save | Ctrl-Q quit | F1/Ctrl-H help".

Definition NEWLINE : Z := 10.
Definition QUOTE : Z := 34.

(** [__init__(filename)] with the default bindings. *)
Definition init (h : Host) (fname : option pystr) (in_mem : bool)
    : option t :=
  lines <-
    (match fname with
     | Some (c :: f) =>
         if path_exists h (c :: f) && negb in_mem then
           ls <- read_lines h (c :: f) ;;
           map_opt (fun line => GapBuffer.init (py_rstrip NEWLINE line)) ls
         else Some []
     | _ => Some []
     end) ;;
  lines <-
    (match lines with
     | [] => g <- GapBuffer.init [] ;; Some [g]
     | _ => Some lines
     end) ;;
  Some (mk fname in_mem lines 0 0 true false HELP_STATUS false (-1) (-1)
          false []).

(** [str(self.buffer[y])] *)
Definition line_str (s : t) (y : Z) : option pystr :=
  g <- py_get (buffer s) y ;; Some (GapBuffer.to_string g).

Definition clamp_cursor (s : t) : option t :=
  let s := set_cursor_y
             (Z.max 0 (Z.min (cursor_y s) (zlen (buffer s) - 1))) s in
  line <- line_str s (cursor_y s) ;;
  Some (set_cursor_x (Z.max 0 (Z.min (cursor_x s) (zlen line))) s).

(** [render] writes the frame and adjusts the viewport; of the attributes
    kept here it changes none, and it reads the cursor's line. *)
Definition render (s : t) : option t :=
  _ <- line_str s (cursor_y s) ;; Some s.

Fixpoint prompt (s : t) (prompt_msg user_input : pystr) (ks : keys)
    : option (t * option pystr * keys) :=
  match ks with
  | [] => None
  | (key, char) :: ks' =>
      s <- render (set_status_message (prompt_msg ++ user_input) s) ;;
      match key with
      | ENTER =>
          Some (set_status_message [] s,
                match user_input with [] => None | _ => Some user_input end,
                ks')
      | BACKSPACE =>
          prompt s prompt_msg (py_slice user_input None (Some (-1))) ks'
      | ESCAPE => Some (set_status_message [] s, None, ks')
      | CHAR =>
          c <- char ;; prompt s prompt_msg (user_input ++ c) ks'
      | _ => prompt s prompt_msg user_input ks'
      end
  end.

Definition get_selection (s : t) : option (Z * Z * Z * Z) :=
  if negb (is_selecting s) || (selection_start_y s =? -1) then None
  else
    let start_y := Z.min (selection_start_y s) (cursor_y s) in
    let end_y := Z.max (selection_start_y s) (cursor_y s) in
    let '(start_x, end_x) :=
      if selection_start_y s =? cursor_y s then
        (Z.min (selection_start_x s) (cursor_x s),
         Z.max (selection_start_x s) (cursor_x s))
      else if selection_start_y s <? cursor_y s then
        (selection_start_x s, cursor_x s)
      else (cursor_x s, selection_start_x s) in
    Some (start_y, start_x, end_y, end_x).

Definition _find_next_word (s : t) : option t :=
  let y := cursor_y s in
  line <- line_str s y ;;
  let n := zlen line in
  let fuel := S (Z.to_nat (n - cursor_x s)) in
  x <- while_loop fuel
         (fun x => if x <? n
                   then c <- py_get line x ;; Some (negb (isspace c))
                   else Some false)
         (fun x => x + 1) (cursor_x s) ;;
  x <- while_loop fuel
         (fun x => if x <? n
                   then c <- py_get line x ;; Some (isspace c)
                   else Some false)
         (fun x => x + 1) x ;;
  if n <=? x then
    if y <? zlen (buffer s) - 1
    then Some (set_cursor_x 0 (set_cursor_y (cursor_y s + 1) s))
    else Some (set_cursor_x n s)
  else Some (set_cursor_x x s).

Definition _find_prev_word (s : t) : option t :=
  let x := cursor_x s in
  let y := cursor_y s in
  if (x =? 0) && (0 <? y) then
    let s := set_cursor_y (cursor_y s - 1) s in
    line <- line_str s (cursor_y s) ;;
    Some (set_cursor_x (zlen line) s)
  else
    let x := x - 1 in
    line <- line_str s y ;;
    let fuel := S (Z.to_nat x) in
    x <- while_loop fuel
           (fun x => if 0 <? x
                     then c <- py_get line (x - 1) ;; Some (isspace c)
                     else Some false)
           (fun x => x - 1) x ;;
    x <- while_loop fuel
           (fun x => if 0 <? x
                     then c <- py_get line (x - 1) ;; Some (negb (isspace c))
                     else Some false)
           (fun x => x - 1) x ;;
    Some (set_cursor_x x s).

Definition copy_selection (h : Host) (s : t) : option t :=
  match get_selection s with
  | None => Some s
  | Some (start_y, start_x, end_y, end_x) =>
      text <-
        (if start_y =? end_y then
           g <- py_get (buffer s) start_y ;;
           Some (GapBuffer.get_slice g (Some start_x) (Some end_x))
         else
           g <- py_get (buffer s) start_y ;;
           let first := GapBuffer.get_slice g (Some start_x) None in
           middle <- map_opt (line_str s) (py_range (start_y + 1) end_y) ;;
           g <- py_get (buffer s) end_y ;;
           let last := GapBuffer.get_slice g (Some 0) (Some end_x) in
           Some (py_join [NEWLINE] ((first :: middle) ++ [last]))) ;;
      let s := set_clipboard text s in
      if negb (IS_UNIX h) && negb (set_clip_text_ps h text) then None
      else Some (set_status_message (py "Copied to clipboard.") s)
  end.

Definition delete_selection (s : t) : option t :=
  match get_selection s with
  | None => Some s
  | Some (start_y, start_x, end_y, end_x) =>
      s <-
        (if start_y =? end_y then
           g <- py_get (buffer s) start_y ;;
           g <- GapBuffer.delete g start_x (end_x - start_x) ;;
           b <- py_set (buffer s) start_y g ;;
           Some (set_cursor_x start_x (set_buffer b s))
         else
           g <- py_get (buffer s) start_y ;;
           let first_line_slice :=
             GapBuffer.get_slice g (Some 0) (Some start_x) in
           g <- py_get (buffer s) end_y ;;
           let last_line_slice := GapBuffer.get_slice g (Some end_x) None in
           g <- GapBuffer.init (first_line_slice ++ last_line_slice) ;;
           b <- py_set (buffer s) start_y g ;;
           let b := py_del_slice b (Some (start_y + 1)) (Some (end_y + 1)) in
           Some (set_cursor_x start_x (set_buffer b s))) ;;
      Some (set_is_selecting false (set_is_dirty true (set_cursor_y start_y s)))
  end.

(** ['\n'.join(str(gb) for gb in self.buffer)] *)
Definition document_text (s : t) : pystr :=
  py_join [NEWLINE] (map GapBuffer.to_string (buffer s)).

(** The question asked before an existing file is overwritten. *)
Definition overwrite_prompt (fname : pystr) : pystr :=
  py "File " ++ [QUOTE] ++ fname ++ [QUOTE]
  ++ py " already exists. Overwrite? (y/N): ".

(** [save_file], first step: the file name, asked for when none is set.
    The flag tells whether saving goes on. *)
Definition save_ask_name (s : t) (ks : keys) : option (t * bool * keys) :=
  match filename s with
  | Some (_ :: _) => Some (s, true, ks)
  | _ =>
      '(s, new_filename, ks) <- prompt s (py "Save as: ") [] ks ;;
      match new_filename with
      | None => Some (set_status_message (py "Save cancelled.") s, false, ks)
      | Some f => Some (set_filename (Some f) s, true, ks)
      end
  end.

(** Second step: the confirmation asked for when the file exists. *)
Definition save_confirm (h : Host) (s : t) (fname : pystr) (ks : keys)
    : option (t * bool * keys) :=
  if path_exists h fname then
    '(s, overwrite, ks) <- prompt s (overwrite_prompt fname) [] ks ;;
    match overwrite with
    | Some o =>
        if lower_startswith_y o then Some (s, true, ks)
        else Some (set_status_message (py "Save cancelled.") s, false, ks)
    | None => Some (set_status_message (py "Save cancelled.") s, false, ks)
    end
  else Some (s, true, ks).

(** Last step: the [try] block around the write. *)
Definition save_write (h : Host) (s : t) (fname : pystr) (ks : keys)
    : option (t * bool * keys) :=
  match write_file h fname (document_text s) with
  | Written =>
      Some (set_status_message
              (py "Saved " ++ py_str_of_int (zlen (buffer s))
               ++ py " lines to " ++ [QUOTE] ++ fname ++ [QUOTE] ++ py ".")
              (set_is_dirty false s),
            true, ks)
  | OSError e =>
      Some (set_status_message (py "Error saving: " ++ e) s, false, ks)
  | OtherError => None
  end.

Definition save_file (h : Host) (s : t) (ks : keys)
    : option (t * bool * keys) :=
  if in_memory s then
    Some (set_is_dirty false
            (set_status_message (py "In-memory mode: Save not applicable.") s),
          true, ks)
  else
    '(s, proceed, ks) <- save_ask_name s ks ;;
    if negb proceed then Some (s, false, ks)
    else
      fname <- filename s ;;
      '(s, proceed, ks) <- save_confirm h s fname ks ;;
      if negb proceed then Some (s, false, ks)
      else save_write h s fname ks.

(** [lines[-1]] of a list known to be non-empty. *)
Definition last_segment (lines : list pystr) : pystr := last lines [].

(** The [paste] branch of [handle_keypress]. *)
Definition do_paste (h : Host) (s : t) : option t :=
  s <- (if negb (IS_UNIX h)
        then c <- get_clip_text_ps h ;; Some (set_clipboard c s)
        else Some s) ;;
  s <- (if is_selecting s then delete_selection s else Some s) ;;
  let lines := py_split NEWLINE (clipboard s) in
  s <-
    (match lines with
     | [only] =>
         g <- py_get (buffer s) (cursor_y s) ;;
         g <- GapBuffer.insert g only (cursor_x s) ;;
         b <- py_set (buffer s) (cursor_y s) g ;;
         Some (set_cursor_x (cursor_x s + zlen only) (set_buffer b s))
     | _ =>
         current_line <- py_get (buffer s) (cursor_y s) ;;
         let line_remainder :=
           GapBuffer.get_slice current_line (Some (cursor_x s)) None in
         g <- GapBuffer.delete current_line (cursor_x s)
                (GapBuffer.len current_line - cursor_x s) ;;
         g <- GapBuffer.insert g (hd [] lines) (cursor_x s) ;;
         b <- py_set (buffer s) (cursor_y s) g ;;
         new_lines <-
           map_opt GapBuffer.init (py_slice lines (Some 1) (Some (-1))) ;;
         last_line <- GapBuffer.init (last_segment lines ++ line_remainder) ;;
         let b :=
           fold_left
             (fun b (il : Z * GapBuffer.t) =>
                py_list_insert b (cursor_y s + fst il) (snd il))
             (combine (py_range 1 (zlen new_lines + 2))
                (new_lines ++ [last_line]))
             b in
         Some (set_cursor_x (zlen (last_segment lines))
                 (set_cursor_y (cursor_y s + (zlen lines - 1))
                    (set_buffer b s)))
     end) ;;
  Some (set_is_dirty true s).

(** The branches of [handle_keypress] other than [quit], before the final
    [clamp_cursor]. *)
Definition do_action (h : Host) (s : t) (action : option Action)
    (char : option pystr) (ks : keys) : option (t * keys) :=
  match action with
  | None | Some quit => Some (s, ks)
  | Some toggle_help => Some (set_help_mode (negb (help_mode s)) s, ks)
  | Some save => '(s, _, ks) <- save_file h s ks ;; Some (s, ks)
  | Some copy => s <- copy_selection h s ;; Some (s, ks)
  | Some cut =>
      s <- copy_selection h s ;; s <- delete_selection s ;; Some (s, ks)
  | Some paste => s <- do_paste h s ;; Some (s, ks)
  | Some move_up => Some (set_cursor_y (cursor_y s - 1) s, ks)
  | Some move_down => Some (set_cursor_y (cursor_y s + 1) s, ks)
  | Some move_left =>
      if 0 <? cursor_x s then Some (set_cursor_x (cursor_x s - 1) s, ks)
      else if 0 <? cursor_y s then
        let s := set_cursor_y (cursor_y s - 1) s in
        line <- line_str s (cursor_y s) ;;
        Some (set_cursor_x (zlen line) s, ks)
      else Some (s, ks)
  | Some move_right =>
      line <- line_str s (cursor_y s) ;;
      if cursor_x s <? zlen line
      then Some (set_cursor_x (cursor_x s + 1) s, ks)
      else if cursor_y s <? zlen (buffer s) - 1
      then Some (set_cursor_x 0 (set_cursor_y (cursor_y s + 1) s), ks)
      else Some (s, ks)
  | Some move_home => Some (set_cursor_x 0 s, ks)
  | Some move_end =>
      line <- line_str s (cursor_y s) ;;
      Some (set_cursor_x (zlen line) s, ks)
  | Some move_page_up =>
      Some (set_cursor_y (cursor_y s - (terminal_height h - 2)) s, ks)
  | Some move_page_down =>
      Some (set_cursor_y (cursor_y s + (terminal_height h - 2)) s, ks)
  | Some move_prev_word => s <- _find_prev_word s ;; Some (s, ks)
  | Some move_next_word => s <- _find_next_word s ;; Some (s, ks)
  | Some move_doc_start => Some (set_cursor_x 0 (set_cursor_y 0 s), ks)
  | Some move_doc_end =>
      let s := set_cursor_y (zlen (buffer s) - 1) s in
      line <- line_str s (cursor_y s) ;;
      Some (set_cursor_x (zlen line) s, ks)
  | Some delete_back =>
      let s := set_is_dirty true s in
      if 0 <? cursor_x s then
        g <- py_get (buffer s) (cursor_y s) ;;
        g <- GapBuffer.delete g (cursor_x s - 1) 1 ;;
        b <- py_set (buffer s) (cursor_y s) g ;;
        Some (set_cursor_x (cursor_x s - 1) (set_buffer b s), ks)
      else if 0 <? cursor_y s then
        '(popped, b) <- py_pop (buffer s) (cursor_y s) ;;
        let line_content := GapBuffer.to_string popped in
        let s := set_cursor_y (cursor_y s - 1) (set_buffer b s) in
        line <- line_str s (cursor_y s) ;;
        let s := set_cursor_x (zlen line) s in
        g <- py_get (buffer s) (cursor_y s) ;;
        g <- GapBuffer.insert g line_content (cursor_x s) ;;
        b <- py_set (buffer s) (cursor_y s) g ;;
        Some (set_buffer b s, ks)
      else Some (s, ks)
  | Some delete_forward =>
      let s := set_is_dirty true s in
      line <- line_str s (cursor_y s) ;;
      if cursor_x s <? zlen line then
        g <- py_get (buffer s) (cursor_y s) ;;
        g <- GapBuffer.delete g (cursor_x s) 1 ;;
        b <- py_set (buffer s) (cursor_y s) g ;;
        Some (set_buffer b s, ks)
      else if cursor_y s <? zlen (buffer s) - 1 then
        '(popped, b) <- py_pop (buffer s) (cursor_y s + 1) ;;
        let line_content := GapBuffer.to_string popped in
        let s := set_buffer b s in
        g <- py_get (buffer s) (cursor_y s) ;;
        g <- GapBuffer.insert g line_content (cursor_x s) ;;
        b <- py_set (buffer s) (cursor_y s) g ;;
        Some (set_buffer b s, ks)
      else Some (s, ks)
  | Some insert_newline =>
      let s := set_is_dirty true s in
      current_line <- py_get (buffer s) (cursor_y s) ;;
      let line_remainder :=
        GapBuffer.get_slice current_line (Some (cursor_x s)) None in
      g <- GapBuffer.delete current_line (cursor_x s)
             (GapBuffer.len current_line - cursor_x s) ;;
      b <- py_set (buffer s) (cursor_y s) g ;;
      new_line <- GapBuffer.init line_remainder ;;
      let b := py_list_insert b (cursor_y s + 1) new_line in
      Some (set_cursor_x 0 (set_cursor_y (cursor_y s + 1) (set_buffer b s)),
            ks)
  | Some insert_char =>
      let s := set_is_dirty true s in
      g <- py_get (buffer s) (cursor_y s) ;;
      c <- char ;;
      g <- GapBuffer.insert g c (cursor_x s) ;;
      b <- py_set (buffer s) (cursor_y s) g ;;
      Some (set_cursor_x (cursor_x s + zlen c) (set_buffer b s), ks)
  end.

(** The [quit] branch, which returns without clamping the cursor. *)
Definition do_quit (h : Host) (s : t) (ks : keys) : option (t * keys) :=
  if is_dirty s && negb (in_memory s) then
    '(s, response, ks) <-
      prompt s (py "Save changes before quitting? (y/n): ") [] ks ;;
    match response with
    | Some r =>
        if lower_is_y r then
          '(s, saved, ks) <- save_file h s ks ;;
          Some (if saved then set_running false s else s, ks)
        else if lower_is_n r then Some (set_running false s, ks)
        else Some (s, ks)
    | None => Some (s, ks)
    end
  else Some (set_running false s, ks).

Definition handle_keypress (h : Host) (s : t) (key : Key)
    (char : option pystr) (ks : keys) : option (t * keys) :=
  let s := set_status_message HELP_STATUS s in
  let s :=
    if key_in key _plain_movement_keys && is_selecting s
    then set_is_selecting false s else s in
  let s :=
    if key_in key _shift_movement_keys && negb (is_selecting s)
    then set_selection_start (cursor_x s) (cursor_y s)
           (set_is_selecting true s)
    else s in
  let action := action_map key in
  s <- (if is_selecting s && action_in action editing_actions
        then delete_selection s else Some s) ;;
  match action with
  | Some quit => do_quit h s ks
  | _ =>
      '(s, ks) <- do_action h s action char ks ;;
      s <- clamp_cursor s ;;
      Some (s, ks)
  end.

End Editor.

(* ================================================================= *)
(** ** Specification vocabulary *)

(** The data invariant of a gap buffer: the gap lies inside the byte array
    and the bytes outside it are the UTF-8 encoding of the text. *)
Definition gap_wf (g : GapBuffer.t) : Prop :=
  0 <= GapBuffer.gap_start g <= GapBuffer.gap_end g
  /\ GapBuffer.gap_end g <= zlen (GapBuffer.buffer g)
  /\ utf8_encode (GapBuffer.to_string g) = Some (GapBuffer.content g).

(** The layout [filled-left][gap][filled-right]. *)
Definition gap_layout (g : GapBuffer.t) (L G R : list Z) : Prop :=
  GapBuffer.buffer g = L ++ G ++ R
  /\ GapBuffer.gap_start g = zlen L
  /\ GapBuffer.gap_end g = zlen L + zlen G.

Definition gap_size (g : GapBuffer.t) : Z :=
  GapBuffer.gap_end g - GapBuffer.gap_start g.

(** Text whose characters all take one byte. *)
Definition single_byte (s : pystr) : Prop :=
  Forall (fun c => 0 <= c < 0x80) s.

Definition encodable (s : pystr) : Prop :=
  Forall (fun c => is_scalar c = true) s.

(** A bound clamped to [0, len]. *)
Definition clamp (len i : Z) : nat := Z.to_nat (Z.max 0 (Z.min i len)).

(** One edit of a line. *)
Inductive edit :=
| Ins (text : pystr) (char_pos : Z)
| Del (char_pos char_len : Z).

Definition apply_edit (g : GapBuffer.t) (e : edit) : option GapBuffer.t :=
  match e with
  | Ins text p => GapBuffer.insert g text p
  | Del p n => GapBuffer.delete g p n
  end.

Fixpoint apply_edits (g : GapBuffer.t) (es : list edit)
    : option GapBuffer.t :=
  match es with
  | [] => Some g
  | e :: es' => g' <- apply_edit g e ;; apply_edits g' es'
  end.

(** The reference model the round-trip property compares with: splicing of
    a plain string. *)
Definition model_edit (s : pystr) (e : edit) : pystr :=
  match e with
  | Ins text p => firstn (Z.to_nat p) s ++ text ++ skipn (Z.to_nat p) s
  | Del p n => firstn (Z.to_nat p) s ++ skipn (Z.to_nat (p + n)) s
  end.

Definition model_edits (s : pystr) (es : list edit) : pystr :=
  fold_left model_edit es s.

(** An edit at a valid character position of [s]. *)
Definition valid_edit (s : pystr) (e : edit) : Prop :=
  match e with
  | Ins text p => encodable text /\ 0 <= p <= zlen s
  | Del p n => 0 <= p /\ 0 <= n /\ p + n <= zlen s
  end.

Fixpoint valid_edits (s : pystr) (es : list edit) : Prop :=
  match es with
  | [] => True
  | e :: es' => valid_edit s e /\ valid_edits (model_edit s e) es'
  end.

Definition edit_single_byte (e : edit) : Prop :=
  match e with
  | Ins text _ => single_byte text
  | Del _ _ => True
  end.

(** The lines of the document as text. *)
Definition document (s : Editor.t) : list pystr :=
  map GapBuffer.to_string (Editor.buffer s).

(** The document is not empty and the cursor is on a line and within it. *)
Definition cursor_invariant (s : Editor.t) : Prop :=
  1 <= zlen (Editor.buffer s)
  /\ 0 <= Editor.cursor_y s < zlen (Editor.buffer s)
  /\ exists g,
       nth_error (Editor.buffer s) (Z.to_nat (Editor.cursor_y s)) = Some g
       /\ 0 <= Editor.cursor_x s <= GapBuffer.len g.

(** What the cursor invariant depends on: [s'] has the document and the
    cursor of [s]. *)
Definition same_document (s s' : Editor.t) : Prop :=
  Editor.buffer s' = Editor.buffer s
  /\ Editor.cursor_x s' = Editor.cursor_x s
  /\ Editor.cursor_y s' = Editor.cursor_y s.

(** A Unix host with a 24-line terminal and no file behind any name. *)
Definition unix_host : Editor.Host :=
  {| Editor.IS_UNIX := true;
     Editor.terminal_height := 24;
     Editor.get_clip_text_ps := None;
     Editor.set_clip_text_ps := fun _ => true;
     Editor.path_exists := fun _ => false;
     Editor.read_lines := fun _ => None;
     Editor.write_file := fun _ _ => Editor.Written |}.

(** The buffers of a document read from the given lines. *)
Definition lines_of (ls : list pystr) : list GapBuffer.t :=
  flat_map
    (fun l => match GapBuffer.init l with Some g => [g] | None => [] end) ls.

(** An editor state on the given buffers, nothing selected. *)
Definition editor_at (b : list GapBuffer.t) (y x : Z) (clip : pystr)
    : Editor.t :=
  Editor.mk None false b x y true false Editor.HELP_STATUS false (-1) (-1)
    false clip.

(** ** Sample inputs *)

(** The text ["é"]: one character, two bytes. *)
Definition e_acute : pystr := [0xE9].

Definition seventeen_a : pystr := repeat 97 17.

(** Six characters of four bytes each. *)
Definition six_emoji : pystr := repeat 0x1F600 6.

(** The buffer of an empty line, as the constructor leaves it. *)
Definition empty_line : GapBuffer.t := GapBuffer.mk (repeat 0 16%nat) 0 16.

(** The buffer of ["é"], as the constructor leaves it. *)
Definition e_acute_line : GapBuffer.t :=
  GapBuffer.mk ([0xC3; 0xA9] ++ repeat 0 16%nat) 2 18.

(** The buffer of [six_emoji], as the constructor leaves it. *)
Definition six_emoji_line : GapBuffer.t :=
  GapBuffer.mk
    (concat (repeat [0xF0; 0x9F; 0x98; 0x80] 6) ++ repeat 0 16%nat) 24 40.

(** The clipboard text of the paste scenario: ["X"], a newline, ["Y"]. *)
Definition clip_X_nl_Y : pystr := py "X" ++ [Editor.NEWLINE] ++ py "Y".

(** The paste scenario: lines ["hello"] and ["world"], cursor at (0, 5). *)
Definition paste_state : Editor.t :=
  editor_at (lines_of [py "hello"; py "world"]) 0 5 clip_X_nl_Y.

(** A three-line document with the selection anchored at (0, 3) and the
    cursor at (2, 2). *)
Definition selection_state : Editor.t :=
  Editor.mk None false (lines_of [py "abcdef"; py "ghijkl"; py "mnopqr"])
    2 2 true false Editor.HELP_STATUS false 3 0 true [].

(** A document of one empty line with the cursor at its start. *)
Definition blank_state : Editor.t := editor_at [empty_line] 0 0 [].

(** The state a key press leads to, or the state itself when the key press
    does not complete. *)
Definition after_key (h : Editor.Host) (s : Editor.t) (key : Key)
    (char : option pystr) : Editor.t :=
  match Editor.handle_keypress h s key char [] with
  | Some (s', _) => s'
  | None => s
  end.

(** A host on which the file [f] exists and writing it fails with the
    message [e]. *)
Definition failing_host (e : pystr) : Editor.Host :=
  {| Editor.IS_UNIX := true;
     Editor.terminal_height := 24;
     Editor.get_clip_text_ps := None;
     Editor.set_clip_text_ps := fun _ => true;
     Editor.path_exists := fun _ => true;
     Editor.read_lines := fun _ => None;
     Editor.write_file := fun _ _ => Editor.OSError e |}.

(** A dirty one-line document with a file name. *)
Definition dirty_state : Editor.t :=
  Editor.mk (Some (py "notes.txt")) false (lines_of [py "abc"]) 3 0 true true
    Editor.HELP_STATUS false (-1) (-1) false [].

(* ================================================================= *)
(** ** Display helpers *)

(** [_get_char_width]: the columns a character takes on the terminal. *)
Definition _get_char_width (c : Z) : Z :=
  if (c =? 0) || (c <? 32) || ((0x7f <=? c) && (c <=? 0x9f)) then 0
  else if ((0x1100 <=? c) && (c <=? 0x115f))
          || ((0x2329 <=? c) && (c <=? 0x232a))
          || ((0x2e80 <=? c) && (c <=? 0xa4cf) && negb (c =? 0x303f))
          || ((0xac00 <=? c) && (c <=? 0xd7a3))
          || ((0xf900 <=? c) && (c <=? 0xfaff))
          || ((0xfe30 <=? c) && (c <=? 0xfe6f))
          || ((0xff00 <=? c) && (c <=? 0xff60))
          || ((0xffe0 <=? c) && (c <=? 0xffe6))
  then 2
  else 1.

Fixpoint visual_len (s : pystr) : Z :=
  match s with
  | [] => 0
  | c :: r => _get_char_width c + visual_len r
  end.

(** The loops of [visual_slice] and [cursor_visual_pos_to_char]: the index
    of the first character at which the running column has reached
    [target], or the index past the last character when the loop ends
    without [break]. [i] is the index of the head of [s] and [current_col]
    the column reached before it. *)
Fixpoint first_index_at_col (s : pystr) (i current_col target : Z) : Z :=
  match s with
  | [] => i
  | c :: r =>
      if target <=? current_col then i
      else first_index_at_col r (i + 1) (current_col + _get_char_width c)
             target
  end.

Definition visual_slice (s : pystr) (start_col : Z) (end_col : option Z)
    : pystr :=
  let start_idx := first_index_at_col s 0 0 start_col in
  match end_col with
  | None => py_slice s (Some start_idx) None
  | Some end_col =>
      let current_col := visual_len (py_slice s None (Some start_idx)) in
      let end_idx :=
        first_index_at_col (py_slice s (Some start_idx) None) start_idx
          current_col end_col in
      py_slice s (Some start_idx) (Some end_idx)
  end.

(** [Editor.cursor_char_pos_to_visual] *)
Definition cursor_char_pos_to_visual (s : Editor.t) (y x : Z) : option Z :=
  g <- py_get (Editor.buffer s) y ;;
  Some (visual_len (py_slice (GapBuffer.to_string g) None (Some x))).

(** [Editor.cursor_visual_pos_to_char] *)
Definition cursor_visual_pos_to_char (s : Editor.t) (y visual_x : Z)
    : option Z :=
  g <- py_get (Editor.buffer s) y ;;
  Some (first_index_at_col (GapBuffer.to_string g) 0 0 visual_x).

(** The part of [Editor.render] that scrolls the viewport: from the
    terminal size and the current [top_line] and [col_offset] to the new
    ones. [help_panel_height] is the number of lines of the help text plus
    one. *)
Definition HELP_PANEL_HEIGHT : Z := 18.
Definition LINE_NUM_WIDTH : Z := 7.

Definition render_scroll (s : Editor.t) (width height top_line col_offset : Z)
    : option (Z * Z) :=
  let help_panel_height :=
    if Editor.help_mode s then HELP_PANEL_HEIGHT else 0 in
  let view_height := height - 2 - help_panel_height in
  let view_height := if view_height <? 1 then 1 else view_height in
  let text_area_width := width - LINE_NUM_WIDTH in
  let top_line :=
    if Editor.cursor_y s <? top_line then Editor.cursor_y s else top_line in
  let top_line :=
    if top_line + view_height <=? Editor.cursor_y s
    then Editor.cursor_y s - view_height + 1 else top_line in
  visual_cursor_x <-
    cursor_char_pos_to_visual s (Editor.cursor_y s) (Editor.cursor_x s) ;;
  let col_offset :=
    if visual_cursor_x <? col_offset then visual_cursor_x else col_offset in
  let col_offset :=
    if col_offset + text_area_width <=? visual_cursor_x
    then visual_cursor_x - text_area_width + 1 else col_offset in
  Some (top_line, col_offset).

(** The height of the text area [render] works with. *)
Definition view_height_of (s : Editor.t) (height : Z) : Z :=
  let h := height - 2 - (if Editor.help_mode s then HELP_PANEL_HEIGHT else 0) in
  if h <? 1 then 1 else h.

(** The bytes an edit writes into the buffer. *)
Definition edit_bytes (e : edit) : Z :=
  match e with
  | Ins text _ =>
      match utf8_encode text with
      | Some enc => zlen enc
      | None => 0
      end
  | Del _ _ => 0
  end.

Definition edits_bytes (es : list edit) : Z :=
  fold_right (fun e acc => edit_bytes e + acc) 0 es.

(** [six_emoji_line] after its gap was moved to character position 2: the
    gap is bytes 8 to 24 and still holds the bytes copied out of it. *)
Definition six_emoji_moved : GapBuffer.t :=
  GapBuffer.mk (concat (repeat [0xF0; 0x9F; 0x98; 0x80] 10)) 8 24.

(** [s'] is [s] but for the cursor. *)
Definition same_but_cursor (s s' : Editor.t) : Prop :=
  s' = Editor.set_cursor_x (Editor.cursor_x s')
         (Editor.set_cursor_y (Editor.cursor_y s') s).

(** The first steps of [handle_keypress]: the status line is reset, a plain
    movement key clears the selection and a shift movement key starts one at
    the cursor. *)
Definition after_selection_keys (s : Editor.t) (key : Key) : Editor.t :=
  let s := Editor.set_status_message Editor.HELP_STATUS s in
  let s :=
    if Editor.key_in key Editor._plain_movement_keys && Editor.is_selecting s
    then Editor.set_is_selecting false s else s in
  if Editor.key_in key Editor._shift_movement_keys
     && negb (Editor.is_selecting s)
  then Editor.set_selection_start (Editor.cursor_x s) (Editor.cursor_y s)
         (Editor.set_is_selecting true s)
  else s.

(** The buffer of ["abc"], as the constructor leaves it. *)
Definition abc_line : GapBuffer.t :=
  GapBuffer.mk (py "abc" ++ repeat 0 16%nat) 3 19.

(** The three-line document of [selection_state] with the cursor at (2, 2)
    and no selection. *)
Definition selection_state_off : Editor.t :=
  editor_at (lines_of [py "abcdef"; py "ghijkl"; py "mnopqr"]) 2 2 [].

(** The keys of a text typed one piece at a time. *)
Definition typed (cs : list pystr) : Editor.keys :=
  map (fun c => (CHAR, Some c)) cs.

(** [user_input if user_input else None] *)
Definition answer (t : pystr) : option pystr :=
  match t with [] => None | _ => Some t end.

(** A host whose only file is ["notes.txt"], holding the given lines. *)
Definition notes_host (ls : list pystr) : Editor.Host :=
  {| Editor.IS_UNIX := true;
     Editor.terminal_height := 24;
     Editor.get_clip_text_ps := None;
     Editor.set_clip_text_ps := fun _ => true;
     Editor.path_exists := fun f => pystr_eqb f (py "notes.txt");
     Editor.read_lines :=
       fun f => if pystr_eqb f (py "notes.txt") then Some ls else None;
     Editor.write_file := fun _ _ => Editor.Written |}.

(** One line of six emoji with the selection anchored at column 1 and the
    cursor at column 4. *)
Definition selection_in_line : Editor.t :=
  Editor.mk None false [six_emoji_line] 4 0 true false Editor.HELP_STATUS
    false 1 0 true [].

(* ================================================================= *)
(** ** class FallbackEditor: the line commands *)

Module FallbackEditor.

(** The attributes the line commands read and write. Left out: [path],
    [in_memory], [running] and [help_mode], which these commands leave
    alone, and [term_width], [view_height] and [top], which only the
    display reads. *)
Record t := mk {
  lines : list pystr;
  undo : list (list pystr);
  dirty : bool;
  selector : Z
}.

(** The lines still to be typed at [input()]; with none left [input()]
    raises [EOFError]. *)
Definition inputs := list pystr.

(** [s.endswith('\n')] *)
Definition endswith_newline (s : pystr) : bool :=
  match rev s with
  | c :: _ => c =? Editor.NEWLINE
  | [] => false
  end.

Definition _edit_line (st : t) (ins : inputs) : option (t * inputs) :=
  let k := selector st in
  _ <- py_get (lines st) k ;;
  match ins with
  | [] => None
  | new :: ins =>
      let new :=
        if endswith_newline new then new else new ++ [Editor.NEWLINE] in
      ls <- py_set (lines st) k new ;;
      Some (mk ls (undo st) (dirty st) (selector st), ins)
  end.

Definition _delete_line (st : t) : option t :=
  '(_, ls) <- py_pop (lines st) (selector st) ;;
  Some (mk ls (undo st) (dirty st)
          (if zlen ls <=? selector st then Z.max 0 (zlen ls - 1)
           else selector st)).

Definition _add_line (st : t) (ins : inputs) : option (t * inputs) :=
  match ins with
  | [] => None
  | text :: ins =>
      let text :=
        if endswith_newline text then text else text ++ [Editor.NEWLINE] in
      Some (mk (py_list_insert (lines st) (selector st) text) (undo st)
              (dirty st) (selector st), ins)
  end.

(** The [while True] loop of [_typewriter]: one round per line typed. *)
Fixpoint typewriter_loop (ins : inputs) (ls : list pystr)
    (idx blank_streak : Z) : option (list pystr * Z * inputs) :=
  match ins with
  | [] => None
  | new :: ins =>
      _ <- (if idx <? zlen ls then py_get ls idx else Some []) ;;
      let blank_streak := if pystr_eqb new [] then blank_streak + 1 else 0 in
      if pystr_eqb new [] && (2 <=? blank_streak) then Some (ls, idx, ins)
      else
        let newline := new ++ [Editor.NEWLINE] in
        ls <-
          (if idx <? zlen ls then py_set ls idx newline
           else
             let ls :=
               ls ++ repeat [Editor.NEWLINE] (Z.to_nat (idx + 1 - zlen ls)) in
             py_set ls idx newline) ;;
        typewriter_loop ins ls (idx + 1) blank_streak
  end.

Definition _typewriter (st : t) (ins : inputs) : option (t * inputs) :=
  let idx := selector st in
  let context_start := Z.max 0 (idx - 5) in
  _ <- map_opt (py_get (lines st)) (py_range context_start idx) ;;
  '(ls, idx, ins) <- typewriter_loop ins (lines st) idx 0 ;;
  Some (mk ls (undo st) (dirty st) (idx - 1), ins).

Definition edit_commands : list pystr := [py "e"; py "d"; py "a"; py "t"].

(** The last two branches of the command chain of [run], reached when the
    command is none of q, o, w, s, u, j and h: an editing command, which
    first pushes a copy of the lines on the undo stack, and the undo
    command. *)
Definition run_edit_or_undo (action : pystr) (st : t) (ins : inputs)
    : option (t * inputs) :=
  if existsb (pystr_eqb action) edit_commands then
    let st := mk (lines st) (undo st ++ [lines st]) true (selector st) in
    if pystr_eqb action (py "e") && (selector st <? zlen (lines st))
    then _edit_line st ins
    else if pystr_eqb action (py "d") && (selector st <? zlen (lines st))
    then st <- _delete_line st ;; Some (st, ins)
    else if pystr_eqb action (py "a") then _add_line st ins
    else if pystr_eqb action (py "t") then _typewriter st ins
    else Some (st, ins)
  else if pystr_eqb action (py "z")
          && negb (match undo st with [] => true | _ => false end)
  then
    Some (mk (last (undo st) []) (removelast (undo st)) true (selector st),
          ins)
  else Some (st, ins).

End FallbackEditor.

(** Three lines, the selector on the second. *)
Definition three_lines : FallbackEditor.t :=
  FallbackEditor.mk
    [py "one" ++ [Editor.NEWLINE]; py "two" ++ [Editor.NEWLINE];
     py "three" ++ [Editor.NEWLINE]] [] false 1.

(* ================================================================= *)
(** * Properties *)

(** ** Lists and slices *)

Lemma zlen_app {A} (a b : list A) : zlen (a ++ b) = zlen a + zlen b.
Proof. unfold zlen. rewrite length_app. lia. Qed.

Lemma zlen_nonneg {A} (l : list A) : 0 <= zlen l.
Proof. unfold zlen. lia. Qed.

Lemma zlen_nil {A} : zlen (@nil A) = 0.
Proof. reflexivity. Qed.

Lemma zlen_cons {A} (x : A) l : zlen (x :: l) = 1 + zlen l.
Proof. unfold zlen. simpl length. lia. Qed.

Lemma zlen_repeat {A} (x : A) n : zlen (repeat x n) = Z.of_nat n.
Proof. unfold zlen. now rewrite repeat_length. Qed.

Lemma app_eq_length {A} (a c b d : list A) :
  length a = length c -> a ++ b = c ++ d -> a = c /\ b = d.
Proof.
  revert c. induction a as [|x a IH]; intros [|y c] Hl H; simpl in *;
    try discriminate.
  - auto.
  - injection H as -> H. destruct (IH c) as [-> ->]; auto.
Qed.

(** A list that is both [a ++ b] and [c ++ d] with [a] no longer than [c]:
    [c] extends [a] by a middle part that starts [b]. *)
Lemma app_eq_split {A} (a c b d : list A) :
  (length a <= length c)%nat -> a ++ b = c ++ d ->
  exists m, c = a ++ m /\ b = m ++ d.
Proof.
  revert c. induction a as [|x a IH]; intros c Hl H; simpl in *.
  - exists c. auto.
  - destruct c as [|y c]; simpl in *; [lia|].
    injection H as -> H. destruct (IH c) as (m & -> & ->); [lia|auto|].
    exists m. auto.
Qed.

Lemma firstn_length_app {A} (a b : list A) n :
  n = length a -> firstn n (a ++ b) = a.
Proof.
  intros ->. rewrite firstn_app, Nat.sub_diag, firstn_all. simpl.
  now rewrite app_nil_r.
Qed.

Lemma skipn_length_app {A} (a b : list A) n :
  n = length a -> skipn n (a ++ b) = b.
Proof.
  intros ->. rewrite skipn_app, Nat.sub_diag, skipn_all. reflexivity.
Qed.

Lemma slice_prefix {A} (l : list A) i :
  0 <= i -> py_slice l None (Some i) = firstn (Z.to_nat i) l.
Proof.
  intros Hi. unfold py_slice, slice_bound, adjust_index.
  destruct (Z.ltb_spec i 0); [lia|]. simpl skipn. rewrite Z.sub_0_r.
  destruct (Z.le_gt_cases i (zlen l)).
  - now rewrite Z.min_l by lia.
  - rewrite Z.min_r by lia. unfold zlen in *.
    rewrite !firstn_all2; auto; lia.
Qed.

Lemma slice_suffix {A} (l : list A) i :
  0 <= i -> py_slice l (Some i) None = skipn (Z.to_nat i) l.
Proof.
  intros Hi. unfold py_slice, slice_bound, adjust_index.
  destruct (Z.ltb_spec i 0); [lia|].
  destruct (Z.le_gt_cases i (zlen l)).
  - rewrite Z.min_l by lia. apply firstn_all2. rewrite length_skipn.
    unfold zlen in *. lia.
  - rewrite Z.min_r by lia. unfold zlen in *.
    rewrite !skipn_all2 by lia. now rewrite firstn_nil.
Qed.

Lemma slice_between {A} (l : list A) i j :
  0 <= i -> 0 <= j ->
  py_slice l (Some i) (Some j)
  = firstn (Z.to_nat (j - i)) (skipn (Z.to_nat i) l).
Proof.
  intros Hi Hj. unfold py_slice, slice_bound, adjust_index.
  destruct (Z.ltb_spec i 0); [lia|]. destruct (Z.ltb_spec j 0); [lia|].
  destruct (Z.le_gt_cases i (zlen l)).
  - rewrite (Z.min_l i) by lia.
    destruct (Z.le_gt_cases j (zlen l)).
    + now rewrite Z.min_l by lia.
    + rewrite Z.min_r by lia. unfold zlen in *.
      rewrite !firstn_all2; auto; rewrite length_skipn; lia.
  - rewrite (Z.min_r i) by lia. unfold zlen in *.
    rewrite !skipn_all2 by lia. now rewrite !firstn_nil.
Qed.

Lemma slice_assign_between {A} (l x : list A) i j :
  0 <= i <= j ->
  py_slice_assign l (Some i) (Some j) x
  = firstn (Z.to_nat i) l ++ x ++ skipn (Z.to_nat j) l.
Proof.
  intros Hij. unfold py_slice_assign, slice_bound, adjust_index.
  destruct (Z.ltb_spec i 0); [lia|]. destruct (Z.ltb_spec j 0); [lia|].
  assert (Hf : firstn (Z.to_nat (Z.min i (zlen l))) l = firstn (Z.to_nat i) l).
  { destruct (Z.le_gt_cases i (zlen l)).
    - now rewrite Z.min_l by lia.
    - rewrite Z.min_r by lia. unfold zlen in *.
      rewrite !firstn_all2; auto; lia. }
  assert (Hs : skipn (Z.to_nat (Z.max (Z.min i (zlen l)) (Z.min j (zlen l)))) l
               = skipn (Z.to_nat j) l).
  { destruct (Z.le_gt_cases j (zlen l)).
    - now replace (Z.max (Z.min i (zlen l)) (Z.min j (zlen l))) with j by lia.
    - replace (Z.max (Z.min i (zlen l)) (Z.min j (zlen l))) with (zlen l)
        by lia.
      unfold zlen in *. rewrite !skipn_all2; auto; lia. }
  now rewrite Hf, Hs.
Qed.

Lemma slice_assign_prefix {A} (l x : list A) j :
  0 <= j ->
  py_slice_assign l None (Some j) x = x ++ skipn (Z.to_nat j) l.
Proof.
  intros Hj. unfold py_slice_assign, slice_bound, adjust_index.
  destruct (Z.ltb_spec j 0); [lia|]. simpl firstn. simpl app.
  f_equal.
  destruct (Z.le_gt_cases j (zlen l)).
  - now replace (Z.max 0 (Z.min j (zlen l))) with j by lia.
  - replace (Z.max 0 (Z.min j (zlen l))) with (zlen l) by (pose proof (zlen_nonneg l); lia).
    unfold zlen in *. rewrite !skipn_all2; auto; lia.
Qed.

Lemma slice_assign_suffix {A} (l x : list A) i :
  0 <= i ->
  py_slice_assign l (Some i) None x = firstn (Z.to_nat i) l ++ x.
Proof.
  intros Hi. unfold py_slice_assign, slice_bound, adjust_index.
  destruct (Z.ltb_spec i 0); [lia|].
  replace (Z.max (Z.min i (zlen l)) (zlen l)) with (zlen l) by lia.
  unfold zlen at 2. rewrite Nat2Z.id, skipn_all, app_nil_r. f_equal.
  destruct (Z.le_gt_cases i (zlen l)).
  - now rewrite Z.min_l by lia.
  - rewrite Z.min_r by lia. unfold zlen in *.
    rewrite !firstn_all2; auto; lia.
Qed.

(** The length a slice assignment leaves, for bounds of any sign. *)
Lemma slice_assign_length {A} (l x : list A) start stop :
  zlen (py_slice_assign l start stop x)
  = let i := slice_bound (zlen l) 0 start in
    let j := Z.max i (slice_bound (zlen l) (zlen l) stop) in
    i + zlen x + (zlen l - j).
Proof.
  assert (Hb : forall d o, 0 <= d <= zlen l ->
             0 <= slice_bound (zlen l) d o <= zlen l).
  { intros d [i|] Hd; simpl; auto. unfold adjust_index.
    pose proof (zlen_nonneg l). destruct (Z.ltb_spec i 0); lia. }
  pose proof (zlen_nonneg l) as Hn.
  pose proof (Hb 0 start ltac:(lia)) as Hi.
  pose proof (Hb (zlen l) stop ltac:(lia)) as Hj.
  unfold py_slice_assign. cbv zeta.
  rewrite !zlen_app. unfold zlen in *.
  rewrite length_firstn, length_skipn. lia.
Qed.


(** ** UTF-8 *)

Lemma is_scalar_spec c :
  is_scalar c = true <-> (0 <= c < 0xD800 \/ 0xDFFF < c <= 0x10FFFF).
Proof. unfold is_scalar. lia. Qed.

Lemma utf8_decode_cons b0 r0 :
  utf8_decode (b0 :: r0) =
      if (0 <=? b0) && (b0 <? 0x80) then b0 :: utf8_decode r0
      else if (0xC2 <=? b0) && (b0 <=? 0xDF) then
        match r0 with
        | b1 :: r1 =>
            if is_cont b1
            then ((b0 - 0xC0) * 64 + (b1 - 0x80)) :: utf8_decode r1
            else REPLACEMENT :: utf8_decode r0
        | [] => [REPLACEMENT]
        end
      else if (0xE0 <=? b0) && (b0 <=? 0xEF) then
        match r0 with
        | b1 :: r1 =>
            if second_ok b0 b1 then
              match r1 with
              | b2 :: r2 =>
                  if is_cont b2
                  then ((b0 - 0xE0) * 4096 + (b1 - 0x80) * 64 + (b2 - 0x80))
                         :: utf8_decode r2
                  else REPLACEMENT :: utf8_decode r1
              | [] => [REPLACEMENT]
              end
            else REPLACEMENT :: utf8_decode r0
        | [] => [REPLACEMENT]
        end
      else if (0xF0 <=? b0) && (b0 <=? 0xF4) then
        match r0 with
        | b1 :: r1 =>
            if second_ok b0 b1 then
              match r1 with
              | b2 :: r2 =>
                  if is_cont b2 then
                    match r2 with
                    | b3 :: r3 =>
                        if is_cont b3
                        then ((b0 - 0xF0) * 262144 + (b1 - 0x80) * 4096
                              + (b2 - 0x80) * 64 + (b3 - 0x80))
                               :: utf8_decode r3
                        else REPLACEMENT :: utf8_decode r2
                    | [] => [REPLACEMENT]
                    end
                  else REPLACEMENT :: utf8_decode r1
              | [] => [REPLACEMENT]
              end
            else REPLACEMENT :: utf8_decode r0
        | [] => [REPLACEMENT]
        end
      else REPLACEMENT :: utf8_decode r0.
Proof. reflexivity. Qed.

Lemma decode_1 b r :
  0 <= b < 0x80 -> utf8_decode (b :: r) = b :: utf8_decode r.
Proof.
  intros H. rewrite utf8_decode_cons.
  replace ((0 <=? b) && (b <? 128)) with true by lia. reflexivity.
Qed.

Lemma decode_2 b0 b1 r :
  0xC2 <= b0 <= 0xDF -> 0x80 <= b1 <= 0xBF ->
  utf8_decode (b0 :: b1 :: r)
  = ((b0 - 0xC0) * 64 + (b1 - 0x80)) :: utf8_decode r.
Proof.
  intros H0 H1. rewrite utf8_decode_cons. unfold is_cont.
  replace ((0 <=? b0) && (b0 <? 128)) with false by lia.
  replace ((194 <=? b0) && (b0 <=? 223)) with true by lia.
  replace ((128 <=? b1) && (b1 <=? 191)) with true by lia.
  reflexivity.
Qed.

Lemma decode_3 b0 b1 b2 r :
  0xE0 <= b0 <= 0xEF -> second_ok b0 b1 = true -> 0x80 <= b2 <= 0xBF ->
  utf8_decode (b0 :: b1 :: b2 :: r)
  = ((b0 - 0xE0) * 4096 + (b1 - 0x80) * 64 + (b2 - 0x80)) :: utf8_decode r.
Proof.
  intros H0 H1 H2. rewrite utf8_decode_cons, H1. unfold is_cont.
  replace ((0 <=? b0) && (b0 <? 128)) with false by lia.
  replace ((194 <=? b0) && (b0 <=? 223)) with false by lia.
  replace ((224 <=? b0) && (b0 <=? 239)) with true by lia.
  replace ((128 <=? b2) && (b2 <=? 191)) with true by lia.
  reflexivity.
Qed.

Lemma decode_4 b0 b1 b2 b3 r :
  0xF0 <= b0 <= 0xF4 -> second_ok b0 b1 = true ->
  0x80 <= b2 <= 0xBF -> 0x80 <= b3 <= 0xBF ->
  utf8_decode (b0 :: b1 :: b2 :: b3 :: r)
  = ((b0 - 0xF0) * 262144 + (b1 - 0x80) * 4096 + (b2 - 0x80) * 64
     + (b3 - 0x80)) :: utf8_decode r.
Proof.
  intros H0 H1 H2 H3. rewrite utf8_decode_cons, H1. unfold is_cont.
  replace ((0 <=? b0) && (b0 <? 128)) with false by lia.
  replace ((194 <=? b0) && (b0 <=? 223)) with false by lia.
  replace ((224 <=? b0) && (b0 <=? 239)) with false by lia.
  replace ((240 <=? b0) && (b0 <=? 244)) with true by lia.
  replace ((128 <=? b2) && (b2 <=? 191)) with true by lia.
  replace ((128 <=? b3) && (b3 <=? 191)) with true by lia.
  reflexivity.
Qed.

Lemma second_ok_intro b0 b1 :
  0x80 <= b1 <= 0xBF ->
  (b0 = 0xE0 -> 0xA0 <= b1) -> (b0 = 0xED -> b1 <= 0x9F) ->
  (b0 = 0xF0 -> 0x90 <= b1) -> (b0 = 0xF4 -> b1 <= 0x8F) ->
  second_ok b0 b1 = true.
Proof.
  intros. unfold second_ok, is_cont.
  destruct (Z.eqb_spec b0 224); [lia|].
  destruct (Z.eqb_spec b0 237); [lia|].
  destruct (Z.eqb_spec b0 240); [lia|].
  destruct (Z.eqb_spec b0 244); lia.
Qed.

(** From [Some a = Some b], replace [b] by [a] without normalising [a]. *)
Ltac some_inj H :=
  match type of H with
  | Some ?a = Some ?b =>
      let E := fresh in
      assert (E : b = a) by congruence; subst b; clear H
  end.

(** Decoding undoes the encoding of one character, whatever follows. *)
Lemma decode_encode_char c bs r :
  encode_char c = Some bs -> utf8_decode (bs ++ r) = c :: utf8_decode r.
Proof.
  unfold encode_char. destruct (is_scalar c) eqn:Hs; [|discriminate].
  apply is_scalar_spec in Hs. cbv beta iota delta [negb].
  destruct (Z.ltb_spec c 0x80).
  { intros H'; some_inj H'. apply decode_1. lia. }
  destruct (Z.ltb_spec c 0x800).
  { intros H'; some_inj H'. cbn [app].
    rewrite decode_2; [f_equal|..]; Z.div_mod_to_equations; lia. }
  destruct (Z.ltb_spec c 0x10000).
  { intros H'; some_inj H'. cbn [app].
    rewrite decode_3; [f_equal|..]; try (Z.div_mod_to_equations; lia).
    apply second_ok_intro; Z.div_mod_to_equations; lia. }
  intros H'; some_inj H'. cbn [app].
  rewrite decode_4; [f_equal|..]; try (Z.div_mod_to_equations; lia).
  apply second_ok_intro; Z.div_mod_to_equations; lia.
Qed.

Lemma decode_encode s : forall bs r,
  utf8_encode s = Some bs -> utf8_decode (bs ++ r) = s ++ utf8_decode r.
Proof.
  induction s as [|c s IH]; simpl; intros bs r H.
  - now injection H as <-.
  - destruct (encode_char c) as [a|] eqn:Hc; [|discriminate].
    destruct (utf8_encode s) as [b|] eqn:Hr; [|discriminate].
    injection H as <-. rewrite <- app_assoc.
    rewrite (decode_encode_char _ _ _ Hc). f_equal. now apply IH.
Qed.

Lemma utf8_roundtrip s bs : utf8_encode s = Some bs -> utf8_decode bs = s.
Proof.
  intros H. rewrite <- (app_nil_r bs), (decode_encode _ _ [] H).
  simpl. apply app_nil_r.
Qed.

Lemma encode_app a b :
  utf8_encode (a ++ b)
  = match utf8_encode a, utf8_encode b with
    | Some x, Some y => Some (x ++ y)
    | _, _ => None
    end.
Proof.
  induction a as [|c a IH]; simpl.
  - now destruct (utf8_encode b).
  - rewrite IH. destruct (encode_char c); [|reflexivity].
    destruct (utf8_encode a); [|reflexivity].
    destruct (utf8_encode b); [|reflexivity].
    now rewrite app_assoc.
Qed.

Lemma encode_app_inv a b bs :
  utf8_encode (a ++ b) = Some bs ->
  exists x y, utf8_encode a = Some x /\ utf8_encode b = Some y
              /\ bs = x ++ y.
Proof.
  rewrite encode_app. destruct (utf8_encode a) as [x|]; [|discriminate].
  destruct (utf8_encode b) as [y|]; [|discriminate].
  intros [= <-]. eauto.
Qed.

Lemma encode_split s bs k :
  utf8_encode s = Some bs ->
  exists x y, utf8_encode (firstn k s) = Some x
              /\ utf8_encode (skipn k s) = Some y /\ bs = x ++ y.
Proof.
  intros H. apply encode_app_inv. now rewrite firstn_skipn.
Qed.

Lemma encodable_encode s : encodable s <-> exists bs, utf8_encode s = Some bs.
Proof.
  induction s as [|c s IH]; simpl.
  - split; [eauto | constructor].
  - split.
    + intros H. inversion H as [|? ? Hc Hs]; subst.
      apply IH in Hs as [b Hb]. rewrite Hb.
      unfold encode_char. rewrite Hc. simpl.
      repeat match goal with |- context [if ?c then _ else _] => destruct c end;
        eauto.
    + intros [bs H].
      destruct (encode_char c) as [a|] eqn:Hc; [|discriminate].
      destruct (utf8_encode s) as [b|] eqn:Hr; [|discriminate].
      constructor; [|apply IH; eauto].
      unfold encode_char in Hc. destruct (is_scalar c); auto. discriminate.
Qed.

(** The decoder only produces scalar values. *)
Lemma decode_encodable : forall bs, encodable (utf8_decode bs).
Proof.
  assert (Hrep : is_scalar REPLACEMENT = true) by reflexivity.
  assert (H : forall n bs, (length bs <= n)%nat -> encodable (utf8_decode bs)).
  { induction n as [|n IH]; intros bs Hn.
    - destruct bs; [constructor | simpl in Hn; lia].
    - destruct bs as [|b0 r0]; [constructor|]. simpl in Hn.
      assert (IH0 : encodable (utf8_decode r0)) by (apply IH; lia).
      assert (IHs : forall x r, r0 = x :: r -> encodable (utf8_decode r)).
      { intros x r ->. simpl in Hn. apply IH. lia. }
      assert (IHs2 : forall x y r, r0 = x :: y :: r -> encodable (utf8_decode r)).
      { intros x y r ->. simpl in Hn. apply IH. lia. }
      assert (IHs3 : forall x y z r, r0 = x :: y :: z :: r ->
                                     encodable (utf8_decode r)).
      { intros x y z r ->. simpl in Hn. apply IH. lia. }
      rewrite utf8_decode_cons.
      destruct ((0 <=? b0) && (b0 <? 128)) eqn:E1.
      { constructor; auto. apply is_scalar_spec. lia. }
      destruct ((194 <=? b0) && (b0 <=? 223)) eqn:E2.
      { destruct r0 as [|b1 r1]; [repeat constructor|].
        destruct (is_cont b1) eqn:C1; [|constructor; auto].
        constructor; [|eapply IHs; eauto].
        unfold is_cont in C1. apply is_scalar_spec. lia. }
      destruct ((224 <=? b0) && (b0 <=? 239)) eqn:E3.
      { destruct r0 as [|b1 r1]; [repeat constructor|].
        destruct (second_ok b0 b1) eqn:S1; [|constructor; auto].
        destruct r1 as [|b2 r2]; [repeat constructor|].
        destruct (is_cont b2) eqn:C2; [|constructor; auto; eapply IHs; eauto].
        constructor; [|eapply IHs2; eauto].
        unfold is_cont in C2. unfold second_ok, is_cont in S1.
        apply is_scalar_spec.
        destruct (Z.eqb_spec b0 224); [lia|].
        destruct (Z.eqb_spec b0 237); [lia|].
        destruct (Z.eqb_spec b0 240); [lia|].
        destruct (Z.eqb_spec b0 244); lia. }
      destruct ((240 <=? b0) && (b0 <=? 244)) eqn:E4.
      { destruct r0 as [|b1 r1]; [repeat constructor|].
        destruct (second_ok b0 b1) eqn:S1; [|constructor; auto].
        destruct r1 as [|b2 r2]; [repeat constructor|].
        destruct (is_cont b2) eqn:C2; [|constructor; auto; eapply IHs; eauto].
        destruct r2 as [|b3 r3]; [repeat constructor|].
        destruct (is_cont b3) eqn:C3; [|constructor; auto; eapply IHs2; eauto].
        constructor; [|eapply IHs3; eauto].
        unfold is_cont in C2, C3. unfold second_ok, is_cont in S1.
        apply is_scalar_spec.
        destruct (Z.eqb_spec b0 224); [lia|].
        destruct (Z.eqb_spec b0 237); [lia|].
        destruct (Z.eqb_spec b0 240); [lia|].
        destruct (Z.eqb_spec b0 244); lia. }
      constructor; auto. }
  intros bs. now apply (H (length bs)).
Qed.

Lemma single_byte_encode s : single_byte s -> utf8_encode s = Some s.
Proof.
  induction 1 as [|c s Hc Hs IH]; simpl; [reflexivity|].
  rewrite IH. unfold encode_char, is_scalar.
  destruct (Z.ltb_spec c 128); [|lia].
  replace ((0 <=? c) && (c <? 55296) || (57343 <? c) && (c <=? 1114111))
    with true by lia.
  reflexivity.
Qed.

Lemma single_byte_encodable s : single_byte s -> encodable s.
Proof. intros H. apply encodable_encode. eauto using single_byte_encode. Qed.

Lemma single_byte_app a b :
  single_byte a -> single_byte b -> single_byte (a ++ b).
Proof. intros. apply Forall_app. auto. Qed.

Lemma single_byte_firstn k s : single_byte s -> single_byte (firstn k s).
Proof.
  intros H. rewrite <- (firstn_skipn k s) in H.
  now apply Forall_app in H.
Qed.

Lemma single_byte_skipn k s : single_byte s -> single_byte (skipn k s).
Proof.
  intros H. rewrite <- (firstn_skipn k s) in H.
  now apply Forall_app in H.
Qed.

(** ** The gap buffer: layout and invariant *)

Import GapBuffer.

Lemma layout_content g L G R : gap_layout g L G R -> content g = L ++ R.
Proof.
  intros (Hb & Hs & He). unfold content.
  pose proof (zlen_nonneg L). pose proof (zlen_nonneg G).
  rewrite slice_prefix, slice_suffix by lia. rewrite Hb, Hs, He.
  rewrite firstn_length_app by (unfold zlen; lia).
  rewrite app_assoc, skipn_length_app; auto.
  rewrite length_app. unfold zlen. lia.
Qed.

Lemma layout_gap_size g L G R : gap_layout g L G R -> gap_size g = zlen G.
Proof. intros (_ & Hs & He). unfold gap_size. lia. Qed.

Lemma layout_wf g L G R s :
  gap_layout g L G R -> utf8_encode s = Some (L ++ R) ->
  gap_wf g /\ to_string g = s.
Proof.
  intros HL Hs. pose proof (layout_content _ _ _ _ HL) as Hc.
  assert (Ht : to_string g = s).
  { unfold to_string. rewrite Hc. now apply utf8_roundtrip. }
  split; auto. destruct HL as (Hb & Hgs & Hge).
  pose proof (zlen_nonneg L). pose proof (zlen_nonneg G).
  pose proof (zlen_nonneg R).
  unfold gap_wf. rewrite Ht, Hc, Hb, !zlen_app. repeat split; auto; lia.
Qed.

Lemma wf_layout g :
  gap_wf g ->
  exists L G R, gap_layout g L G R
                /\ utf8_encode (to_string g) = Some (L ++ R).
Proof.
  intros (Hs & He & Henc).
  exists (firstn (Z.to_nat (gap_start g)) (buffer g)).
  exists (firstn (Z.to_nat (gap_end g - gap_start g))
            (skipn (Z.to_nat (gap_start g)) (buffer g))).
  exists (skipn (Z.to_nat (gap_end g)) (buffer g)).
  assert (HL : gap_layout g
                 (firstn (Z.to_nat (gap_start g)) (buffer g))
                 (firstn (Z.to_nat (gap_end g - gap_start g))
                    (skipn (Z.to_nat (gap_start g)) (buffer g)))
                 (skipn (Z.to_nat (gap_end g)) (buffer g))).
  { unfold gap_layout, zlen in *.
    rewrite !length_firstn, length_skipn. repeat split; try lia.
    rewrite <- (firstn_skipn (Z.to_nat (gap_start g)) (buffer g)) at 1.
    f_equal.
    rewrite <- (firstn_skipn (Z.to_nat (gap_end g - gap_start g))
                  (skipn (Z.to_nat (gap_start g)) (buffer g))) at 1.
    f_equal. rewrite skipn_skipn. f_equal. lia. }
  split; auto. rewrite Henc. f_equal. now apply layout_content in HL.
Qed.

Lemma slice_prefix_any {A} (l : list A) i :
  py_slice l None (Some i)
  = firstn (Z.to_nat (adjust_index (zlen l) i)) l.
Proof.
  unfold py_slice. simpl slice_bound. now rewrite Z.sub_0_r.
Qed.

Lemma adjust_index_range n i : 0 <= n -> 0 <= adjust_index n i <= n.
Proof. intros. unfold adjust_index. destruct (Z.ltb_spec i 0); lia. Qed.

(** The byte offset of a character position: the length of the encoding of
    the characters before it. *)
Lemma byte_pos_spec g s k x char_pos :
  to_string g = s ->
  k = Z.to_nat (adjust_index (zlen s) char_pos) ->
  utf8_encode (firstn k s) = Some x ->
  _get_byte_pos g char_pos = Some (zlen x).
Proof.
  intros Hs -> Hx. unfold _get_byte_pos.
  now rewrite Hs, slice_prefix_any, Hx.
Qed.

Lemma firstn_app_le {A} (a b : list A) n :
  (n <= length a)%nat -> firstn n (a ++ b) = firstn n a.
Proof.
  intros H. rewrite firstn_app. replace (n - length a)%nat with 0%nat by lia.
  simpl. apply app_nil_r.
Qed.

Lemma skipn_app_ge {A} (a b : list A) n :
  (length a <= n)%nat -> skipn n (a ++ b) = skipn (n - length a) b.
Proof.
  intros H. rewrite skipn_app, skipn_all2 by lia. reflexivity.
Qed.

(** Moving the gap: afterwards the gap starts at the byte offset of the
    character position, the bytes on both sides are those of the text before
    and after it, and the gap has kept its size. *)
Lemma move_gap_layout g L G R s k e1 e2 char_pos :
  gap_layout g L G R ->
  utf8_encode s = Some (L ++ R) ->
  k = Z.to_nat (adjust_index (zlen s) char_pos) ->
  utf8_encode (firstn k s) = Some e1 ->
  utf8_encode (skipn k s) = Some e2 ->
  exists g' G',
    _move_gap g char_pos = Some g' /\ gap_layout g' e1 G' e2
    /\ zlen G' = zlen G.
Proof.
  intros HL Hs Hk H1 H2.
  destruct (layout_wf _ _ _ _ _ HL Hs) as [_ Ht].
  assert (Hsplit : L ++ R = e1 ++ e2).
  { pose proof Hs as Hs'.
    rewrite <- (firstn_skipn k s), encode_app, H1, H2 in Hs'.
    now injection Hs'. }
  unfold _move_gap. rewrite (byte_pos_spec g s k e1 char_pos Ht Hk H1).
  destruct HL as (Hb & Hgs & Hge).
  pose proof (zlen_nonneg L). pose proof (zlen_nonneg G).
  pose proof (zlen_nonneg e1).
  rewrite Hgs, Hge, Hb.
  destruct (Z.eqb_spec (zlen e1) (zlen L)) as [E|E].
  - destruct (app_eq_length L e1 R e2) as [-> ->]; auto.
    { unfold zlen in E. lia. }
    exists g, G. repeat split; auto.
  - destruct (Z.ltb_spec (zlen e1) (zlen L)) as [Hlt|Hge'].
    + (* the gap moves left over [M] *)
      destruct (app_eq_split e1 L e2 R) as (M & -> & ->); auto.
      { unfold zlen in Hlt. lia. }
      rewrite zlen_app in *. pose proof (zlen_nonneg M).
      eexists. exists (firstn (length G) (M ++ G)).
      split; [reflexivity|].
      assert (HG : length (firstn (length G) (M ++ G)) = length G).
      { rewrite length_firstn, length_app. lia. }
      split; [|unfold zlen; now rewrite HG].
      unfold gap_layout. cbn [buffer gap_start gap_end].
      split; [|unfold zlen; rewrite HG; split; lia].
      rewrite slice_between, slice_assign_between by lia.
      rewrite <- !app_assoc.
      replace (Z.to_nat (zlen e1)) with (length e1) by (unfold zlen; lia).
      replace (Z.to_nat (zlen e1 + zlen M - zlen e1)) with (length M)
        by (unfold zlen; lia).
      replace (Z.to_nat (zlen e1 + zlen M + zlen G
                         - (zlen e1 + zlen M - zlen e1)))
        with (length e1 + length G)%nat by (unfold zlen; lia).
      replace (Z.to_nat (zlen e1 + zlen M + zlen G))
        with (length e1 + (length M + (length G + 0)))%nat
        by (unfold zlen; lia).
      rewrite (skipn_length_app e1) by reflexivity.
      rewrite (firstn_length_app M) by reflexivity.
      rewrite firstn_app_2.
      rewrite (app_assoc M G R), firstn_app_le by (rewrite length_app; lia).
      rewrite <- (app_assoc M G R).
      rewrite !skipn_app_ge by lia.
      replace (length e1 + (length M + (length G + 0)) - length e1
               - length M - length G)%nat with 0%nat by lia.
      simpl skipn. now rewrite <- !app_assoc.
    + (* the gap moves right over [M] *)
      destruct (app_eq_split L e1 R e2) as (M & -> & ->); auto.
      { unfold zlen in *. lia. }
      rewrite zlen_app in *. pose proof (zlen_nonneg M).
      eexists. exists (skipn (length M) (G ++ M)).
      split; [reflexivity|].
      assert (HG : length (skipn (length M) (G ++ M)) = length G).
      { rewrite length_skipn, length_app. lia. }
      split; [|unfold zlen; now rewrite HG].
      unfold gap_layout. cbn [buffer gap_start gap_end].
      split; [|unfold zlen; rewrite HG, length_app; split; lia].
      rewrite slice_between, slice_assign_between by lia.
      replace (Z.to_nat (zlen L)) with (length L) by (unfold zlen; lia).
      replace (Z.to_nat (zlen L + zlen G)) with (length L + length G)%nat
        by (unfold zlen; lia).
      replace (Z.to_nat (zlen L + zlen G + (zlen L + zlen M - zlen L)
                         - (zlen L + zlen G))) with (length M)
        by (unfold zlen; lia).
      replace (Z.to_nat (zlen L + (zlen L + zlen M - zlen L)))
        with (length L + length M)%nat by (unfold zlen; lia).
      rewrite (firstn_length_app L) by reflexivity.
      rewrite !skipn_app_ge by lia.
      replace (length L + length G - length L - length G)%nat with 0%nat
        by lia.
      replace (length L + length M - length L)%nat with (length M) by lia.
      simpl skipn at 1. rewrite (firstn_length_app M) by reflexivity.
      rewrite <- !app_assoc. do 2 f_equal.
      rewrite (skipn_app_ge L) by lia.
      replace (length L + length M - length L)%nat with (length M) by lia.
      rewrite (app_assoc G M e2), skipn_app, length_app.
      replace (length M - (length G + length M))%nat with 0%nat by lia.
      reflexivity.
Qed.

Lemma wf_content_length g :
  gap_wf g ->
  zlen (content g) = zlen (buffer g) - gap_size g.
Proof.
  intros H. destruct (wf_layout _ H) as (L & G & R & HL & _).
  rewrite (layout_content _ _ _ _ HL), (layout_gap_size _ _ _ _ HL).
  destruct HL as (-> & _ & _). rewrite !zlen_app. lia.
Qed.

(** Growing the buffer. The new size is computed from [len g], the number
    of characters; the layout survives when the bytes of the text fit in
    it. *)
Lemma resize_layout g L G R text_len :
  gap_layout g L G R ->
  (zlen G < text_len ->
   zlen L + zlen R
     <= len g + Z.max (Z.max MIN_GAP_SIZE text_len) (len g / 2)) ->
  exists G',
    gap_layout (_resize_if_needed g text_len) L G' R
    /\ (zlen G < text_len ->
        zlen L + zlen G' + zlen R
        = len g + Z.max (Z.max MIN_GAP_SIZE text_len) (len g / 2))
    /\ (text_len <= zlen G -> G' = G).
Proof.
  intros HL Hfit. pose proof HL as (Hb & Hgs & Hge).
  pose proof (zlen_nonneg L). pose proof (zlen_nonneg G).
  pose proof (zlen_nonneg R).
  unfold _resize_if_needed. rewrite Hgs, Hge.
  destruct (Z.ltb_spec (zlen L + zlen G - zlen L) text_len) as [Hlt|Hge'].
  2:{ exists G. split; [exact HL|]. split; [lia|auto]. }
  assert (Hfit' := Hfit ltac:(lia)). clear Hfit.
  set (N := len g + Z.max (Z.max MIN_GAP_SIZE text_len) (len g / 2)) in *.
  assert (HsL : py_slice (buffer g) None (Some (zlen L)) = L).
  { rewrite slice_prefix, Hb by lia.
    apply firstn_length_app. unfold zlen. lia. }
  assert (HsR : py_slice (buffer g) (Some (zlen L + zlen G)) None = R).
  { rewrite slice_suffix, Hb, app_assoc by lia.
    apply skipn_length_app. rewrite length_app. unfold zlen. lia. }
  assert (Hlen : zlen (buffer g) - (zlen L + zlen G) = zlen R).
  { rewrite Hb, !zlen_app. lia. }
  rewrite HsL, HsR, Hlen.
  rewrite slice_assign_prefix, slice_assign_suffix by lia.
  set (Z0 := skipn (Z.to_nat (zlen L)) (bytearray N)).
  assert (HZ0 : length Z0 = Z.to_nat (N - zlen L)).
  { unfold Z0, bytearray. rewrite length_skipn, repeat_length. lia. }
  exists (firstn (Z.to_nat (N - zlen R - zlen L)) Z0).
  assert (HG' : zlen (firstn (Z.to_nat (N - zlen R - zlen L)) Z0)
                = N - zlen R - zlen L).
  { unfold zlen in *. rewrite length_firstn, HZ0. lia. }
  split; [|split; [intros _; rewrite HG'; lia | intros; lia]].
  unfold gap_layout. cbn [buffer gap_start gap_end].
  split; [|rewrite HG'; split; lia].
  rewrite app_assoc. f_equal.
  replace (Z.to_nat (N - zlen R))
    with (length L + Z.to_nat (N - zlen R - zlen L))%nat
    by (unfold zlen in *; lia).
  apply firstn_app_2.
Qed.

(** [insert], when the encoded text fits the gap or the buffer is grown far
    enough for it. *)
Lemma insert_spec g s text enc k char_pos :
  gap_wf g -> to_string g = s -> utf8_encode text = Some enc ->
  k = Z.to_nat (adjust_index (zlen s) char_pos) ->
  (zlen enc <= gap_size g
   \/ zlen (content g) + zlen enc
      <= zlen s + Z.max (Z.max MIN_GAP_SIZE (zlen enc)) (zlen s / 2)) ->
  exists g',
    insert g text char_pos = Some g' /\ gap_wf g'
    /\ to_string g' = firstn k s ++ text ++ skipn k s.
Proof.
  intros Hwf Hs Henc Hk Hfit.
  destruct (wf_layout _ Hwf) as (L & G & R & HL & HLR). rewrite Hs in HLR.
  destruct (encode_split s _ k HLR) as (e1 & e2 & H1 & H2 & Hsplit).
  destruct (move_gap_layout _ _ _ _ _ _ _ _ char_pos HL HLR Hk H1 H2)
    as (g1 & G1 & Hmove & HL1 & HG1).
  assert (Hs1 : to_string g1 = s).
  { eapply layout_wf; eauto. now rewrite <- Hsplit. }
  assert (Hlen1 : len g1 = zlen s) by (unfold len; now rewrite Hs1).
  rewrite (layout_content _ _ _ _ HL), (layout_gap_size _ _ _ _ HL) in Hfit.
  rewrite Hsplit, zlen_app in Hfit.
  pose proof (zlen_nonneg enc). pose proof (zlen_nonneg e1).
  pose proof (zlen_nonneg e2). pose proof (zlen_nonneg G).
  destruct (resize_layout g1 e1 G1 e2 (zlen enc) HL1)
    as (G2 & HL2 & Hgrow & Hkeep).
  { rewrite Hlen1. lia. }
  assert (HG2 : zlen enc <= zlen G2).
  { destruct (Z.lt_ge_cases (zlen G1) (zlen enc)) as [Hlt|Hge].
    - specialize (Hgrow Hlt). rewrite Hlen1 in Hgrow. lia.
    - now rewrite (Hkeep Hge). }
  unfold insert. rewrite Hmove, Henc.
  destruct HL2 as (Hb2 & Hgs2 & Hge2).
  pose proof (zlen_nonneg G2).
  eexists. split; [reflexivity|].
  apply (layout_wf _ (e1 ++ enc) (skipn (length enc) G2) e2).
  - unfold gap_layout. cbn [buffer gap_start gap_end].
    rewrite Hgs2, Hge2, Hb2.
    rewrite slice_assign_between by lia.
    assert (HGs : zlen (skipn (length enc) G2) = zlen G2 - zlen enc).
    { unfold zlen in *. rewrite length_skipn. lia. }
    split; [|rewrite zlen_app, HGs; split; lia].
    rewrite firstn_length_app by (unfold zlen; lia).
    replace (Z.to_nat (zlen e1 + zlen enc))
      with (length e1 + length enc)%nat by (unfold zlen; lia).
    rewrite skipn_app_ge by lia.
    replace (length e1 + length enc - length e1)%nat with (length enc)
      by lia.
    rewrite skipn_app, <- !app_assoc.
    replace (length enc - length G2)%nat with 0%nat
      by (unfold zlen in *; lia).
    reflexivity.
  - rewrite !encode_app, H1, Henc, H2. now rewrite <- !app_assoc.
Qed.

Lemma adjust_index_nonneg n i :
  0 <= i -> adjust_index n i = Z.min i n.
Proof. intros. unfold adjust_index. destruct (Z.ltb_spec i 0); lia. Qed.

Lemma firstn_clamp {A} (l : list A) i :
  firstn (Z.to_nat (Z.min i (zlen l))) l = firstn (Z.to_nat i) l.
Proof.
  destruct (Z.le_gt_cases i (zlen l)).
  - now rewrite Z.min_l by lia.
  - rewrite Z.min_r by lia. unfold zlen in *. rewrite !firstn_all2; auto; lia.
Qed.

Lemma skipn_clamp {A} (l : list A) i :
  skipn (Z.to_nat (Z.min i (zlen l))) l = skipn (Z.to_nat i) l.
Proof.
  destruct (Z.le_gt_cases i (zlen l)).
  - now rewrite Z.min_l by lia.
  - rewrite Z.min_r by lia. unfold zlen in *. rewrite !skipn_all2; auto; lia.
Qed.

(** [delete] of a positive number of characters from a position that is
    not negative: the range is cut at the end of the text. *)
Lemma delete_spec g s p n :
  gap_wf g -> to_string g = s -> 0 <= p -> 0 < n ->
  exists g',
    delete g p n = Some g' /\ gap_wf g'
    /\ to_string g' = firstn (Z.to_nat p) s ++ skipn (Z.to_nat (p + n)) s
    /\ gap_size g <= gap_size g'.
Proof.
  intros Hwf Hs Hp Hn.
  destruct (wf_layout _ Hwf) as (L & G & R & HL & HLR). rewrite Hs in HLR.
  set (k1 := Z.to_nat (adjust_index (zlen s) p)).
  set (k2 := Z.to_nat (adjust_index (zlen s) (p + n))).
  assert (Hk : (k1 <= k2)%nat).
  { unfold k1, k2. rewrite !adjust_index_nonneg by lia. lia. }
  destruct (encode_split s _ k1 HLR) as (e1 & e2 & H1 & H2 & Hsplit).
  destruct (encode_split (skipn k1 s) _ (k2 - k1) H2)
    as (d & e3 & Hd & H3 & Hsplit2).
  rewrite skipn_skipn in H3.
  replace (k2 - k1 + k1)%nat with k2 in H3 by lia.
  assert (Hx2 : utf8_encode (firstn k2 s) = Some (e1 ++ d)).
  { replace (firstn k2 s)
      with (firstn k1 s ++ firstn (k2 - k1) (skipn k1 s)).
    - now rewrite encode_app, H1, Hd.
    - rewrite <- (firstn_skipn k1 (firstn k2 s)), firstn_firstn.
      replace (Nat.min k1 k2) with k1 by lia.
      f_equal. symmetry. apply skipn_firstn_comm. }
  destruct (move_gap_layout _ _ _ _ _ _ _ _ p HL HLR eq_refl H1 H2)
    as (g1 & G1 & Hmove & HL1 & HG1).
  unfold delete. destruct (Z.leb_spec n 0); [lia|].
  rewrite (byte_pos_spec g s k1 e1 p Hs eq_refl H1).
  rewrite (byte_pos_spec g s k2 (e1 ++ d) (p + n) Hs eq_refl Hx2).
  rewrite Hmove. eexists. split; [reflexivity|].
  destruct HL1 as (Hb1 & Hgs1 & Hge1).
  assert (Hlay : gap_layout
                   (mk (buffer g1) (gap_start g1)
                      (gap_end g1 + (zlen (e1 ++ d) - zlen e1)))
                   e1 (G1 ++ d) e3).
  { unfold gap_layout. cbn [buffer gap_start gap_end].
    rewrite Hb1, Hgs1, Hge1, Hsplit2, !zlen_app, <- !app_assoc.
    repeat split; lia. }
  assert (Henc' : utf8_encode (firstn k1 s ++ skipn k2 s) = Some (e1 ++ e3)).
  { now rewrite encode_app, H1, H3. }
  destruct (layout_wf _ _ _ _ _ Hlay Henc') as [Hwf' Hs'].
  split; [exact Hwf'|]. split.
  - rewrite Hs'. unfold k1, k2. rewrite !adjust_index_nonneg by lia.
    now rewrite firstn_clamp, skipn_clamp.
  - rewrite (layout_gap_size _ _ _ _ HL), (layout_gap_size _ _ _ _ Hlay).
    rewrite zlen_app. pose proof (zlen_nonneg d). lia.
Qed.

Lemma delete_nonpositive g p n : n <= 0 -> delete g p n = Some g.
Proof. intros H. unfold delete. now destruct (Z.leb_spec n 0); [|lia]. Qed.

(** The constructor establishes the invariant. *)
Lemma init_spec text :
  encodable text ->
  exists g, init text = Some g /\ gap_wf g /\ to_string g = text.
Proof.
  intros He. apply encodable_encode in He as [enc Henc].
  unfold init. rewrite Henc. eexists. split; [reflexivity|].
  pose proof (zlen_nonneg enc).
  set (gap := Z.max MIN_GAP_SIZE (zlen enc / 2)).
  assert (Hgap : 0 <= gap) by (unfold gap, MIN_GAP_SIZE; lia).
  apply (layout_wf _ enc (repeat 0 (Z.to_nat gap)) []).
  - unfold gap_layout. cbn [buffer gap_start gap_end].
    rewrite slice_assign_prefix by lia.
    assert (Hz : skipn (Z.to_nat (zlen enc)) (bytearray (zlen enc + gap))
                 = repeat 0 (Z.to_nat gap)).
    { unfold bytearray.
      replace (Z.to_nat (zlen enc + gap))
        with (Z.to_nat (zlen enc) + Z.to_nat gap)%nat by lia.
      rewrite repeat_app, skipn_app, repeat_length, Nat.sub_diag.
      rewrite skipn_all2 by (rewrite repeat_length; lia). reflexivity. }
    rewrite Hz, app_nil_r, zlen_app, zlen_repeat. repeat split; lia.
  - now rewrite app_nil_r.
Qed.

(** *** Text of one-byte characters: the buffer agrees with the model

    For such text the number of characters is the number of bytes, so
    growing the buffer always makes room for the inserted text. *)

Lemma single_byte_content g :
  gap_wf g -> single_byte (to_string g) ->
  zlen (content g) = zlen (to_string g).
Proof.
  intros (_ & _ & Henc) Hsb.
  rewrite (single_byte_encode _ Hsb) in Henc. now injection Henc as <-.
Qed.

Lemma apply_edit_single_byte g e :
  gap_wf g -> single_byte (to_string g) ->
  valid_edit (to_string g) e -> edit_single_byte e ->
  exists g',
    apply_edit g e = Some g' /\ gap_wf g'
    /\ to_string g' = model_edit (to_string g) e
    /\ single_byte (to_string g').
Proof.
  intros Hwf Hsb Hv He. destruct e as [text p|p n]; simpl in *.
  - destruct Hv as [_ Hp].
    pose proof (single_byte_encode _ He) as Henc.
    destruct (insert_spec g _ text text _ p Hwf eq_refl Henc eq_refl)
      as (g' & Hi & Hwf' & Hs').
    { right. rewrite (single_byte_content _ Hwf Hsb).
      unfold MIN_GAP_SIZE. lia. }
    rewrite adjust_index_nonneg, Z.min_l in Hs' by lia.
    exists g'. split; [exact Hi|]. split; [exact Hwf'|].
    split; [exact Hs'|]. rewrite Hs'.
    auto using single_byte_app, single_byte_firstn, single_byte_skipn.
  - destruct Hv as (Hp & Hn & _).
    destruct (Z.eq_dec n 0) as [->|Hn0].
    + exists g. rewrite delete_nonpositive by lia.
      rewrite Z.add_0_r, firstn_skipn. auto.
    + destruct (delete_spec g _ p n Hwf eq_refl Hp ltac:(lia))
        as (g' & Hd & Hwf' & Hs' & _).
      exists g'. split; [exact Hd|]. split; [exact Hwf'|].
      split; [exact Hs'|]. rewrite Hs'.
      auto using single_byte_app, single_byte_firstn, single_byte_skipn.
Qed.

(** Round trip on one-byte text: any sequence of valid edits leaves the
    buffer holding what string splicing gives. *)
Theorem roundtrip_single_byte : forall es g,
  gap_wf g -> single_byte (to_string g) ->
  valid_edits (to_string g) es -> Forall edit_single_byte es ->
  exists g',
    apply_edits g es = Some g'
    /\ get_slice g' (Some 0) (Some (len g'))
       = model_edits (to_string g) es.
Proof.
  induction es as [|e es IH]; intros g Hwf Hsb Hv Hall.
  - exists g. split; [reflexivity|]. simpl.
    unfold get_slice, len. rewrite slice_between by (try apply zlen_nonneg; lia).
    simpl skipn. rewrite Z.sub_0_r. unfold zlen. rewrite Nat2Z.id.
    apply firstn_all.
  - destruct Hv as [Hv Hvs]. inversion Hall as [|? ? He Hes]; subst.
    destruct (apply_edit_single_byte g e Hwf Hsb Hv He)
      as (g1 & H1 & Hwf1 & Hs1 & Hsb1).
    rewrite <- Hs1 in Hvs.
    destruct (IH g1 Hwf1 Hsb1 Hvs Hes) as (g' & H' & Hr).
    exists g'. simpl. rewrite H1. split; [exact H'|].
    rewrite Hr. unfold model_edits. simpl. now rewrite Hs1.
Qed.

(** ** The gap buffer: claims *)

Lemma init_empty_line : init [] = Some empty_line.
Proof. reflexivity. Qed.

Lemma init_e_acute_line : init e_acute = Some e_acute_line.
Proof. reflexivity. Qed.

Lemma init_six_emoji_line : init six_emoji = Some six_emoji_line.
Proof. reflexivity. Qed.

Lemma empty_line_wf : gap_wf empty_line.
Proof. unfold gap_wf. vm_compute. repeat split; congruence. Qed.

Lemma e_acute_line_wf : gap_wf e_acute_line.
Proof. unfold gap_wf. vm_compute. repeat split; congruence. Qed.

Lemma six_emoji_line_wf : gap_wf six_emoji_line.
Proof. unfold gap_wf. vm_compute. repeat split; congruence. Qed.

(** C1, at an input where it fails. The line ["é"] is one character in two
    bytes with a gap of 16 bytes; inserting seventeen ["a"] at character
    position 1, a valid position, makes [_resize_if_needed] size the new
    buffer from the character count, one byte short. The write then runs
    past [gap_end], and the text read back has eighteen ["a"], while
    splicing the string gives seventeen. *)
Theorem C1_roundtrip_fails_on_multibyte_text :
  init e_acute = Some e_acute_line
  /\ gap_wf e_acute_line
  /\ valid_edits e_acute [Ins seventeen_a 1]
  /\ exists g',
       apply_edits e_acute_line [Ins seventeen_a 1] = Some g'
       /\ gap_end g' < gap_start g'
       /\ get_slice g' (Some 0) (Some (len g')) = e_acute ++ repeat 97 18
       /\ model_edits e_acute [Ins seventeen_a 1] = e_acute ++ repeat 97 17
       /\ get_slice g' (Some 0) (Some (len g'))
          <> model_edits e_acute [Ins seventeen_a 1].
Proof.
  split; [reflexivity|]. split; [exact e_acute_line_wf|]. split.
  { simpl. split; [split|exact I].
    - apply single_byte_encodable. unfold seventeen_a.
      apply Forall_forall. intros x Hx. apply repeat_spec in Hx. lia.
    - vm_compute. split; congruence. }
  eexists. split; [vm_compute; reflexivity|].
  split; [reflexivity|]. split; [vm_compute; reflexivity|].
  split; [vm_compute; reflexivity|]. vm_compute. discriminate.
Qed.

(** [_move_gap] keeps the text, the bytes outside the gap and the size of
    the gap, for every character position (also a negative or too large
    one). *)
Lemma move_gap_preserves g char_pos :
  gap_wf g ->
  exists g',
    _move_gap g char_pos = Some g' /\ gap_wf g'
    /\ to_string g' = to_string g /\ content g' = content g
    /\ gap_size g' = gap_size g.
Proof.
  intros Hwf.
  destruct (wf_layout _ Hwf) as (L & G & R & HL & HLR).
  destruct (encode_split _ _
              (Z.to_nat (adjust_index (zlen (to_string g)) char_pos)) HLR)
    as (e1 & e2 & H1 & H2 & Hsplit).
  destruct (move_gap_layout _ _ _ _ _ _ _ _ char_pos HL HLR eq_refl H1 H2)
    as (g1 & G1 & Hmove & HL1 & HG1).
  exists g1. split; [exact Hmove|].
  rewrite Hsplit in HLR.
  destruct (layout_wf _ _ _ _ _ HL1 HLR) as [Hwf1 Hs1].
  split; [exact Hwf1|]. split; [exact Hs1|]. split.
  - rewrite (layout_content _ _ _ _ HL1), (layout_content _ _ _ _ HL).
    now symmetry.
  - now rewrite (layout_gap_size _ _ _ _ HL1), (layout_gap_size _ _ _ _ HL).
Qed.

(** [_resize_if_needed] keeps the text when the bytes of the text fit the
    size it computes, which is always so for one-byte characters. *)
Lemma resize_preserves g text_len :
  gap_wf g ->
  zlen (content g)
    <= len g + Z.max (Z.max MIN_GAP_SIZE text_len) (len g / 2) ->
  to_string (_resize_if_needed g text_len) = to_string g
  /\ gap_wf (_resize_if_needed g text_len).
Proof.
  intros Hwf Hfit.
  destruct (wf_layout _ Hwf) as (L & G & R & HL & HLR).
  rewrite (layout_content _ _ _ _ HL), zlen_app in Hfit.
  destruct (resize_layout g L G R text_len HL (fun _ => Hfit))
    as (G' & HL' & _).
  destruct (layout_wf _ _ _ _ _ HL' HLR) as [Hwf' Hs'].
  now split.
Qed.

(** C9, at an input where it fails. The line of six four-byte characters
    holds 24 bytes; [_resize_if_needed] for 17 more bytes makes a buffer of
    6 + 17 = 23 bytes, the copy loses the last byte, and the text read back
    ends in U+FFFD instead of the sixth character. *)
Theorem C9_resize_changes_multibyte_text :
  init six_emoji = Some six_emoji_line
  /\ gap_wf six_emoji_line
  /\ to_string six_emoji_line = six_emoji
  /\ to_string (_resize_if_needed six_emoji_line 17)
     = repeat 0x1F600 5 ++ [REPLACEMENT]
  /\ to_string (_resize_if_needed six_emoji_line 17)
     <> to_string six_emoji_line.
Proof.
  split; [reflexivity|]. split; [exact six_emoji_line_wf|].
  split; [vm_compute; reflexivity|]. split; [vm_compute; reflexivity|].
  vm_compute. discriminate.
Qed.

(** The buffer never shrinks when text is written into the gap. *)
Lemma write_into_gap_length (b enc : list Z) gs :
  0 <= gs ->
  zlen b <= zlen (py_slice_assign b (Some gs) (Some (gs + zlen enc)) enc).
Proof.
  intros Hgs. rewrite slice_assign_length. cbv zeta. simpl slice_bound.
  pose proof (zlen_nonneg enc). pose proof (zlen_nonneg b).
  rewrite !adjust_index_nonneg by lia. lia.
Qed.

Lemma resize_length g L G R text_len :
  gap_layout g L G R -> zlen G < text_len ->
  len g + Z.max (Z.max MIN_GAP_SIZE text_len) (len g / 2)
  <= zlen (buffer (_resize_if_needed g text_len)).
Proof.
  intros (Hb & Hgs & Hge) Hlt. unfold _resize_if_needed.
  rewrite Hgs, Hge.
  destruct (Z.ltb_spec (zlen L + zlen G - zlen L) text_len); [|lia].
  cbn [buffer].
  set (N := len g + Z.max (Z.max MIN_GAP_SIZE text_len) (len g / 2)).
  assert (HN : 0 <= N).
  { unfold N, MIN_GAP_SIZE, len. pose proof (zlen_nonneg (to_string g)).
    assert (0 <= zlen (to_string g) / 2) by (apply Z.div_pos; lia). lia. }
  rewrite !slice_assign_length. cbv zeta. simpl slice_bound.
  assert (Hz : zlen (bytearray N) = N).
  { unfold bytearray. rewrite zlen_repeat. lia. }
  rewrite Hz.
  pose proof (zlen_nonneg L). pose proof (zlen_nonneg G).
  pose proof (zlen_nonneg (py_slice (buffer g) None (Some (zlen L)))).
  pose proof (zlen_nonneg (py_slice (buffer g) (Some (zlen L + zlen G)) None)).
  assert (HR : zlen (py_slice (buffer g) (Some (zlen L + zlen G)) None)
               = zlen (buffer g) - (zlen L + zlen G)).
  { rewrite slice_suffix by lia. unfold zlen. rewrite length_skipn.
    rewrite Hb, !length_app. lia. }
  assert (HL' : zlen (py_slice (buffer g) None (Some (zlen L))) = zlen L).
  { rewrite slice_prefix, Hb by lia.
    rewrite firstn_length_app; [reflexivity | unfold zlen; lia]. }
  assert (HR' : zlen (buffer g) - (zlen L + zlen G) = zlen R).
  { rewrite Hb, !zlen_app. lia. }
  pose proof (zlen_nonneg R).
  rewrite HR, HL', HR'.
  unfold adjust_index.
  repeat match goal with
         | |- context [?a <? ?b] => destruct (Z.ltb_spec a b)
         end; lia.
Qed.

(** On a buffer satisfying the invariant, when the encoded text does not fit
    the gap, [insert] leaves a byte array of at least [len] + max(
    [MIN_GAP_SIZE], bytes of the text, [len] // 2) bytes, [len] being
    [__len__], the number of characters held before the call. *)
Lemma insert_grows_in_characters g text enc char_pos :
  gap_wf g ->
  utf8_encode text = Some enc ->
  gap_size g < zlen enc ->
  exists g',
    insert g text char_pos = Some g'
    /\ len g + Z.max (Z.max MIN_GAP_SIZE (zlen enc)) (len g / 2)
       <= zlen (buffer g').
Proof.
  intros Hwf Henc Hgap.
  destruct (wf_layout _ Hwf) as (L & G & R & HL & HLR).
  destruct (encode_split _ _
              (Z.to_nat (adjust_index (zlen (to_string g)) char_pos)) HLR)
    as (e1 & e2 & H1 & H2 & Hsplit).
  destruct (move_gap_layout _ _ _ _ _ _ _ _ char_pos HL HLR eq_refl H1 H2)
    as (g1 & G1 & Hmove & HL1 & HG1).
  assert (Hs1 : to_string g1 = to_string g).
  { eapply layout_wf; eauto. now rewrite <- Hsplit. }
  assert (Hlen : len g1 = len g) by (unfold len; now rewrite Hs1).
  rewrite (layout_gap_size _ _ _ _ HL), <- HG1 in Hgap.
  pose proof (resize_length g1 e1 G1 e2 (zlen enc) HL1 Hgap) as Hgrow.
  rewrite Hlen in Hgrow.
  unfold insert. rewrite Hmove, Henc. eexists. split; [reflexivity|].
  cbn [buffer]. etransitivity; [exact Hgrow|].
  apply write_into_gap_length.
  unfold _resize_if_needed.
  destruct HL1 as (_ & Hgs1 & _). pose proof (zlen_nonneg e1).
  destruct (_ <? _); cbn [gap_start]; lia.
Qed.

(** The length in this bound is a number of characters. Counted in bytes
    the content of ["é"] is 2, and the buffer grown for 17 more bytes has
    18, not 19. *)
Lemma resize_counts_characters :
  len e_acute_line = 1
  /\ zlen (content e_acute_line) = 2
  /\ zlen (buffer (_resize_if_needed e_acute_line 17)) = 18.
Proof. repeat split; vm_compute; reflexivity. Qed.

(** C3, at inputs where it fails. The line of six four-byte characters
    holds 24 bytes in a gap buffer with a gap of 16 bytes, so seventeen
    ["a"] do not fit; [_resize_if_needed] sizes the new array from the
    character count, 6 + 17 = 23 bytes, less than the content alone, and
    after the insert the array has 40 bytes where the policy asks for
    24 + max(16, 17, 12) = 41.  On the buffer that the insert of C1 leaves
    ([gap_end] before [gap_start]) the bound fails in characters as well:
    the buffer holds 19 characters, one more ["a"] does not fit, and the
    insert leaves an array of 1 byte where the policy asks for
    19 + max(16, 1, 9) = 35. *)
Theorem C3_growth_falls_short_on_multibyte_text :
  (init six_emoji = Some six_emoji_line
   /\ utf8_encode seventeen_a = Some seventeen_a
   /\ gap_size six_emoji_line < zlen seventeen_a
   /\ zlen (content six_emoji_line) = 24
   /\ zlen (buffer (_resize_if_needed six_emoji_line (zlen seventeen_a)))
      = 23
   /\ exists g',
        insert six_emoji_line seventeen_a 6 = Some g'
        /\ zlen (buffer g') = 40
        /\ zlen (buffer g')
           < zlen (content six_emoji_line)
             + Z.max (Z.max MIN_GAP_SIZE (zlen seventeen_a))
                 (zlen (content six_emoji_line) / 2))
  /\ (init e_acute = Some e_acute_line
      /\ exists g1 g2,
           insert e_acute_line seventeen_a 1 = Some g1
           /\ utf8_encode [97] = Some [97]
           /\ gap_size g1 < zlen [97]
           /\ len g1 = 19
           /\ insert g1 [97] 0 = Some g2
           /\ zlen (buffer g2) = 1
           /\ zlen (buffer g2)
              < len g1 + Z.max (Z.max MIN_GAP_SIZE (zlen [97])) (len g1 / 2)).
Proof.
  split.
  - split; [reflexivity|]. split; [reflexivity|].
    split; [reflexivity|]. split; [vm_compute; reflexivity|].
    split; [vm_compute; reflexivity|].
    eexists. split; [vm_compute; reflexivity|].
    split; vm_compute; reflexivity.
  - split; [reflexivity|].
    eexists. eexists. split; [vm_compute; reflexivity|].
    split; [reflexivity|]. split; [vm_compute; reflexivity|].
    split; [vm_compute; reflexivity|].
    split; [vm_compute; reflexivity|].
    split; vm_compute; reflexivity.
Qed.

(** [insert] at a position past the end appends, as long as the text fits
    the gap or the buffer grows far enough (see [insert_spec]). *)
Lemma insert_past_end g text enc char_pos :
  gap_wf g -> utf8_encode text = Some enc -> len g < char_pos ->
  (zlen enc <= gap_size g
   \/ zlen (content g) + zlen enc
      <= len g + Z.max (Z.max MIN_GAP_SIZE (zlen enc)) (len g / 2)) ->
  exists g',
    insert g text char_pos = Some g' /\ gap_wf g'
    /\ to_string g' = to_string g ++ text.
Proof.
  intros Hwf Henc Hp Hfit.
  destruct (insert_spec g _ text enc _ char_pos Hwf eq_refl Henc eq_refl Hfit)
    as (g' & Hi & Hwf' & Hs').
  exists g'. split; [exact Hi|]. split; [exact Hwf'|].
  rewrite Hs'. unfold len in Hp. pose proof (zlen_nonneg (to_string g)).
  rewrite adjust_index_nonneg, Z.min_r by lia.
  unfold zlen. rewrite Nat2Z.id, firstn_all, skipn_all.
  now rewrite app_nil_r.
Qed.

(** [delete] of a range that extends past the end deletes up to the end. *)
Lemma delete_past_end g p n :
  gap_wf g -> 0 <= p -> 0 < n -> len g <= p + n ->
  exists g',
    delete g p n = Some g' /\ gap_wf g'
    /\ to_string g' = firstn (Z.to_nat p) (to_string g).
Proof.
  intros Hwf Hp Hn Hend.
  destruct (delete_spec g _ p n Hwf eq_refl Hp Hn)
    as (g' & Hd & Hwf' & Hs' & _).
  exists g'. split; [exact Hd|]. split; [exact Hwf'|].
  rewrite Hs', skipn_all2, app_nil_r; [reflexivity|].
  unfold len, zlen in Hend. lia.
Qed.

(** [get_slice] with bounds that are absent, not negative, or below
    [-len]: the bounds are clamped to [0, len]. *)
Lemma get_slice_clamped g start stop :
  (forall i, start = Some i -> 0 <= i \/ i < - len g) ->
  (forall j, stop = Some j -> 0 <= j \/ j < - len g) ->
  get_slice g start stop
  = let a := match start with Some i => clamp (len g) i | None => 0%nat end in
    let b := match stop with
             | Some j => clamp (len g) j
             | None => length (to_string g)
             end in
    firstn (b - a) (skipn a (to_string g)).
Proof.
  intros Ha Hb. unfold get_slice, py_slice, len, clamp in *. cbv zeta.
  pose proof (zlen_nonneg (to_string g)) as Hn.
  assert (Hadj : forall i, 0 <= i \/ i < - zlen (to_string g) ->
            adjust_index (zlen (to_string g)) i
            = Z.max 0 (Z.min i (zlen (to_string g)))).
  { intros i Hi. unfold adjust_index. destruct (Z.ltb_spec i 0); lia. }
  destruct start as [i|], stop as [j|]; simpl slice_bound;
    rewrite ?Hadj by auto; f_equal; unfold zlen in *; lia.
Qed.

Lemma encodable_firstn k s : encodable s -> encodable (firstn k s).
Proof.
  intros H. rewrite <- (firstn_skipn k s) in H. now apply Forall_app in H.
Qed.

Lemma encodable_skipn k s : encodable s -> encodable (skipn k s).
Proof.
  intros H. rewrite <- (firstn_skipn k s) in H. now apply Forall_app in H.
Qed.

(** No operation of the gap buffer raises, in any state of the buffer, as
    long as the text handed to [insert] can be encoded. *)
Lemma encodable_slice s start stop :
  encodable s -> encodable (py_slice s start stop).
Proof.
  intros H. unfold py_slice. cbv zeta.
  now apply encodable_firstn, encodable_skipn.
Qed.

Lemma get_byte_pos_total g char_pos :
  exists byte_pos, GapBuffer._get_byte_pos g char_pos = Some byte_pos.
Proof.
  unfold GapBuffer._get_byte_pos.
  destruct (proj1 (encodable_encode _)
              (encodable_slice _ None (Some char_pos)
                 (decode_encodable (GapBuffer.content g)))) as [enc Henc].
  unfold GapBuffer.to_string. rewrite Henc. eauto.
Qed.

Lemma move_gap_total g char_pos :
  exists g', GapBuffer._move_gap g char_pos = Some g'.
Proof.
  unfold GapBuffer._move_gap.
  destruct (get_byte_pos_total g char_pos) as [bp ->].
  destruct (bp =? _); [eauto|]. destruct (bp <? _); eauto.
Qed.

Lemma insert_total g text char_pos :
  encodable text -> exists g', GapBuffer.insert g text char_pos = Some g'.
Proof.
  intros He. apply encodable_encode in He as [enc Henc].
  unfold GapBuffer.insert.
  destruct (move_gap_total g char_pos) as [g1 ->]. rewrite Henc. eauto.
Qed.

Lemma delete_total g char_pos char_len :
  exists g', GapBuffer.delete g char_pos char_len = Some g'.
Proof.
  unfold GapBuffer.delete. destruct (char_len <=? 0); [eauto|].
  destruct (get_byte_pos_total g char_pos) as [b1 ->].
  destruct (get_byte_pos_total g (char_pos + char_len)) as [b2 ->].
  destruct (move_gap_total g char_pos) as [g1 ->]. eauto.
Qed.

(** C10, at an input where it fails. Inserting seventeen ["a"] into the
    line ["é"] at character position 5, past the end, does not append them:
    the position is clamped to the end as claimed, but the buffer is grown
    one byte short (the defect shown for C1) and the text read back has
    eighteen ["a"]. *)
Theorem C10_insert_past_end_fails_on_multibyte_text :
  gap_wf e_acute_line
  /\ len e_acute_line < 5
  /\ exists g',
       insert e_acute_line seventeen_a 5 = Some g'
       /\ to_string g' = e_acute ++ repeat 97 18
       /\ to_string g' <> to_string e_acute_line ++ seventeen_a.
Proof.
  split; [exact e_acute_line_wf|]. split; [reflexivity|].
  eexists. split; [vm_compute; reflexivity|].
  split; [vm_compute; reflexivity|]. vm_compute. discriminate.
Qed.

(** ** The editor: frame lemmas *)

Import Editor.

(** [prompt] changes nothing but the status message, which it clears. *)
Lemma prompt_state : forall ks s msg input s' r ks',
  prompt s msg input ks = Some (s', r, ks') -> s' = set_status_message [] s.
Proof.
  induction ks as [|[key char] ks IH]; intros s msg input s' r ks' H;
    [discriminate|].
  cbn [prompt] in H. unfold render in H.
  destruct (line_str _ _); [|discriminate].
  destruct key; try (apply IH in H; subst; reflexivity).
  - injection H as <- _ _. reflexivity.
  - injection H as <- _ _. reflexivity.
  - destruct char; [|discriminate]. apply IH in H. subst. reflexivity.
Qed.

Lemma same_document_invariant s s' :
  same_document s s' -> cursor_invariant s -> cursor_invariant s'.
Proof.
  intros (Hb & Hx & Hy). unfold cursor_invariant. now rewrite Hb, Hx, Hy.
Qed.

Lemma same_document_refl s : same_document s s.
Proof. now split. Qed.

Lemma same_document_trans a b c :
  same_document a b -> same_document b c -> same_document a c.
Proof.
  intros (E1 & E2 & E3) (F1 & F2 & F3). unfold same_document.
  now rewrite F1, F2, F3.
Qed.

Lemma save_ask_name_same_document s ks s' p ks' :
  save_ask_name s ks = Some (s', p, ks') -> same_document s s'.
Proof.
  unfold save_ask_name. intros H.
  assert (Hp : forall x, x = prompt s (py "Save as: ") [] ks ->
             ('(s0, new_filename, ks0) <- x ;;
              match new_filename with
              | Some f => Some (set_filename (Some f) s0, true, ks0)
              | None =>
                  Some (set_status_message (py "Save cancelled.") s0,
                        false, ks0)
              end) = Some (s', p, ks') -> same_document s s').
  { intros [[[s0 nf] ks0]|] Hx E0; [|discriminate].
    symmetry in Hx. apply prompt_state in Hx. subst s0.
    destruct nf; injection E0 as <- _ _; now split. }
  destruct (filename s) as [[|c f]|]; eauto.
  injection H as <- _ _. now split.
Qed.

Lemma save_confirm_same_document h s fname ks s' p ks' :
  save_confirm h s fname ks = Some (s', p, ks') -> same_document s s'.
Proof.
  unfold save_confirm. destruct (path_exists h fname).
  - destruct (prompt s (overwrite_prompt fname) [] ks)
      as [[[s2 o] ks2]|] eqn:E2; [|discriminate].
    apply prompt_state in E2. subst s2.
    destruct o as [o|]; [destruct (lower_startswith_y o)|];
      intros [= <- _ _]; now split.
  - intros [= <- _ _]. now split.
Qed.

Lemma save_write_same_document h s fname ks s' p ks' :
  save_write h s fname ks = Some (s', p, ks') -> same_document s s'.
Proof.
  unfold save_write. destruct (write_file h fname _); try discriminate;
    intros [= <- _ _]; now split.
Qed.

Lemma save_file_same_document h s ks s' ok ks' :
  save_file h s ks = Some (s', ok, ks') -> same_document s s'.
Proof.
  unfold save_file. destruct (in_memory s).
  { intros [= <- _ _]. now split. }
  destruct (save_ask_name s ks) as [[[s1 p1] ks1]|] eqn:E1; [|discriminate].
  apply save_ask_name_same_document in E1.
  destruct p1; cbn [negb]; [|intros [= <- _ _]; exact E1].
  destruct (filename s1) as [fname|]; [|discriminate].
  destruct (save_confirm h s1 fname ks1) as [[[s2 p2] ks2]|] eqn:E2;
    [|discriminate].
  apply save_confirm_same_document in E2.
  destruct p2; cbn [negb].
  - intros H. apply save_write_same_document in H.
    eauto using same_document_trans.
  - intros [= <- _ _]. eauto using same_document_trans.
Qed.

Lemma do_quit_same_document h s ks s' ks' :
  do_quit h s ks = Some (s', ks') -> same_document s s'.
Proof.
  unfold do_quit. destruct (is_dirty s && negb (in_memory s)).
  2:{ intros [= <- _]. now split. }
  destruct (prompt s _ [] ks) as [[[s1 r] ks1]|] eqn:E1; [|discriminate].
  apply prompt_state in E1. subst s1.
  destruct r as [r|]; [|intros [= <- _]; now split].
  destruct (lower_is_y r).
  - destruct (save_file h _ ks1) as [[[s2 saved] ks2]|] eqn:E2;
      [|discriminate].
    apply save_file_same_document in E2.
    intros [= <- _]. destruct saved; destruct E2 as (A & B & C);
      now split.
  - destruct (lower_is_n r); intros [= <- _]; now split.
Qed.

(** [clamp_cursor], when it completes, leaves the cursor on a line and
    within it; it completes exactly when the document has a line. *)
Lemma clamp_cursor_invariant s s' :
  clamp_cursor s = Some s' -> cursor_invariant s'.
Proof.
  unfold clamp_cursor, line_str, py_get, py_index.
  cbn [cursor_y set_cursor_y buffer].
  set (cy := Z.max 0 (Z.min (cursor_y s) (zlen (buffer s) - 1))).
  destruct (Z.ltb_spec cy 0); [lia|].
  destruct (Z.leb_spec 0 cy); [|lia].
  destruct (Z.ltb_spec cy (zlen (buffer s))); cbn [andb]; [|discriminate].
  destruct (nth_error (buffer s) (Z.to_nat cy)) as [g|] eqn:Hg;
    [|discriminate].
  intros [= <-]. unfold cursor_invariant.
  cbn [buffer cursor_x cursor_y set_cursor_x set_cursor_y].
  split; [lia|]. split; [lia|]. exists g. split; [exact Hg|].
  unfold GapBuffer.len. pose proof (zlen_nonneg (GapBuffer.to_string g)).
  lia.
Qed.

(** C5. From a state where the document is not empty and the cursor is on
    a line and within it, every call of [handle_keypress] that completes,
    for any key and typed character, leads to such a state again. *)
Theorem C5_cursor_invariant h s key char ks s' ks' :
  cursor_invariant s ->
  handle_keypress h s key char ks = Some (s', ks') ->
  cursor_invariant s'.
Proof.
  intros Hinv. unfold handle_keypress.
  set (s0 := set_status_message HELP_STATUS s).
  set (s1 := if key_in key _plain_movement_keys && is_selecting s0
             then set_is_selecting false s0 else s0).
  set (s2 := if key_in key _shift_movement_keys && negb (is_selecting s1)
             then set_selection_start (cursor_x s1) (cursor_y s1)
                    (set_is_selecting true s1)
             else s1).
  assert (H2 : same_document s s2).
  { unfold s2, s1.
    destruct (key_in key _plain_movement_keys && is_selecting s0);
      destruct (key_in key _shift_movement_keys && negb (is_selecting _));
      now split. }
  assert (Hclamp : forall x a,
             ('(s, ks) <- x ;; s <- clamp_cursor s ;; Some (s, ks))
             = Some (a, ks') -> cursor_invariant a).
  { intros [[x kx]|] a E; [|discriminate].
    destruct (clamp_cursor x) eqn:Ec; [|discriminate].
    injection E as <- _. eauto using clamp_cursor_invariant. }
  destruct (action_map key) as [a|]; [destruct a|];
    try (match goal with
         | |- context [if ?c then delete_selection ?x else Some ?x] =>
             destruct (if c then delete_selection x else Some x) as [s3|];
             [|discriminate]
         end;
         apply Hclamp).
  (* quit *)
  cbn [action_in existsb Action_eqb orb]. rewrite andb_false_r.
  intros H. apply do_quit_same_document in H.
  eauto using same_document_invariant, same_document_trans.
Qed.

Lemma blank_state_invariant : cursor_invariant blank_state.
Proof.
  unfold cursor_invariant, blank_state, editor_at.
  cbn [buffer cursor_x cursor_y].
  change (zlen [empty_line]) with 1.
  split; [lia|]. split; [lia|]. exists empty_line. split; [reflexivity|].
  change (GapBuffer.len empty_line) with 0. lia.
Qed.

Lemma C5_cursor_invariant_witness :
  cursor_invariant (after_key unix_host blank_state ENTER None).
Proof.
  apply (C5_cursor_invariant unix_host blank_state ENTER None [] _ []).
  - exact blank_state_invariant.
  - vm_compute. reflexivity.
Defined.

(** ** The key decoder *)

Lemma pystr_eqb_eq a b : pystr_eqb a b = true <-> a = b.
Proof.
  revert b. induction a as [|x a IH]; intros [|y b]; simpl;
    try (split; [discriminate | congruence]); [tauto|].
  rewrite andb_true_iff, Z.eqb_eq, IH. split.
  - now intros [-> ->].
  - intros [= -> ->]. auto.
Qed.

Lemma dict_get_absent {V} (d : list (pystr * V)) k :
  (forall v, ~ In (k, v) d) -> dict_get d k = None.
Proof.
  induction d as [|[k0 v0] d IH]; intros H; simpl; [reflexivity|].
  rewrite IH by (intros v Hv; apply (H v); now right).
  destruct (pystr_eqb k0 k) eqn:E; [|reflexivity].
  apply pystr_eqb_eq in E. subst. exfalso. apply (H v0). now left.
Qed.

(** Every entry of the escape-sequence table is found under its sequence. *)
Lemma key_map_lookup seq k :
  In (seq, k) KeyDecoder.key_map -> dict_get KeyDecoder.key_map seq = Some k.
Proof.
  intros H.
  assert (Hall : Forall (fun e => dict_get KeyDecoder.key_map (fst e)
                                  = Some (snd e)) KeyDecoder.key_map).
  { unfold KeyDecoder.key_map.
    repeat (constructor; [vm_compute; reflexivity|]). constructor. }
  exact (proj1 (Forall_forall _ _) Hall (seq, k) H).
Qed.

(** C6. After the escape character: no look-ahead text gives the bare
    Escape key; look-ahead text that completes no sequence of the table
    gives [UNKNOWN]; look-ahead text that completes a sequence of the table
    gives the key mapped to it. *)
Theorem C6_escape_disambiguation isprintable :
  KeyDecoder.get_key isprintable [KeyDecoder.ESC] (KeyDecoder.ReadText [])
    = (ESCAPE, None)
  /\ KeyDecoder.get_key isprintable [KeyDecoder.ESC] KeyDecoder.ReadInterrupted
     = (ESCAPE, None)
  /\ (forall rest,
        rest <> [] ->
        (forall k, ~ In (KeyDecoder.ESC :: rest, k) KeyDecoder.key_map) ->
        KeyDecoder.get_key isprintable [KeyDecoder.ESC]
          (KeyDecoder.ReadText rest) = (UNKNOWN, None))
  /\ (forall rest k,
        rest <> [] ->
        In (KeyDecoder.ESC :: rest, k) KeyDecoder.key_map ->
        KeyDecoder.get_key isprintable [KeyDecoder.ESC]
          (KeyDecoder.ReadText rest) = (k, None)).
Proof.
  split; [reflexivity|]. split; [reflexivity|]. split.
  - intros [|c rest] Hne Habs; [congruence|].
    unfold KeyDecoder.get_key, KeyDecoder._get_key_unix.
    cbn [pystr_eqb negb andb app]. rewrite Z.eqb_refl. cbn [andb negb].
    now rewrite dict_get_absent.
  - intros [|c rest] k Hne Hin; [congruence|].
    unfold KeyDecoder.get_key, KeyDecoder._get_key_unix.
    cbn [pystr_eqb negb andb app]. rewrite Z.eqb_refl. cbn [andb negb].
    now rewrite (key_map_lookup _ _ Hin).
Qed.

Lemma C6_escape_disambiguation_witness :
  KeyDecoder.get_key (fun _ => true) [KeyDecoder.ESC]
    (KeyDecoder.ReadText (py "[1;5C")) = (CTRL_RIGHT, None)
  /\ KeyDecoder.get_key (fun _ => true) [KeyDecoder.ESC]
       (KeyDecoder.ReadText (py "[9")) = (UNKNOWN, None).
Proof.
  destruct (C6_escape_disambiguation (fun _ => true))
    as (_ & _ & Hunknown & Hmapped).
  split.
  - apply Hmapped; [discriminate|]. vm_compute. tauto.
  - apply Hunknown; [discriminate|]. intros k H. vm_compute in H.
    repeat (destruct H as [H|H]; [discriminate H|]). exact H.
Defined.

(** ** The editor: saving *)

(** C7. With a file name set, not in memory, the target absent or the
    overwrite confirmed, a write that fails with an OS error makes
    [save_file] return [False] in the state it was called in, but for the
    status message, which reports the error. The dirty flag and the running
    flag are those of before. *)
Theorem C7_save_io_error h s ks ks' fname e :
  in_memory s = false ->
  filename s = Some fname -> fname <> [] ->
  (path_exists h fname = false /\ ks' = ks
   \/ path_exists h fname = true
      /\ exists s1 answer,
           prompt s (overwrite_prompt fname) [] ks
           = Some (s1, Some answer, ks')
           /\ lower_startswith_y answer = true) ->
  write_file h fname (document_text s) = OSError e ->
  save_file h s ks
  = Some (set_status_message (py "Error saving: " ++ e) s, false, ks')
  /\ is_dirty (set_status_message (py "Error saving: " ++ e) s) = is_dirty s
  /\ running (set_status_message (py "Error saving: " ++ e) s) = running s.
Proof.
  intros Hmem Hname Hne Hconfirm Hwrite.
  split; [|split; reflexivity].
  unfold save_file, save_ask_name. rewrite Hmem, Hname.
  destruct fname as [|c f]; [congruence|]. cbn [negb]. rewrite Hname.
  unfold save_confirm.
  destruct Hconfirm as [[Habsent ->]|(Hexists & s1 & answer & Hp & Hy)].
  - rewrite Habsent. cbn [negb]. unfold save_write. now rewrite Hwrite.
  - rewrite Hexists, Hp, Hy. cbn [negb].
    apply prompt_state in Hp. subst s1. unfold save_write.
    change (document_text (set_status_message [] s)) with (document_text s).
    now rewrite Hwrite.
Qed.

Lemma C7_save_io_error_witness :
  save_file (failing_host (py "disk full")) dirty_state
    [(CHAR, Some (py "y")); (ENTER, None)]
  = Some (set_status_message (py "Error saving: " ++ py "disk full")
            dirty_state, false, [])
  /\ is_dirty (set_status_message (py "Error saving: " ++ py "disk full")
                 dirty_state) = is_dirty dirty_state
  /\ running (set_status_message (py "Error saving: " ++ py "disk full")
                dirty_state) = running dirty_state.
Proof.
  apply (C7_save_io_error (failing_host (py "disk full")) dirty_state
           [(CHAR, Some (py "y")); (ENTER, None)] [] (py "notes.txt")
           (py "disk full")).
  - reflexivity.
  - reflexivity.
  - discriminate.
  - right. split; [reflexivity|]. eexists. eexists.
    split; [vm_compute; reflexivity | reflexivity].
  - reflexivity.
Defined.

(** ** The editor: scenarios *)

(** C8. Opening a missing or empty file gives one empty line, not dirty.
    Enter makes two empty lines and sets the dirty flag; Backspace then
    brings back the single empty line with the cursor at (0, 0), and the
    dirty flag stays set. *)
Theorem C8_enter_then_backspace h fname ks :
  path_exists h fname = false \/ read_lines h fname = Some [] ->
  exists s0 s1 s2,
    init h (Some fname) false = Some s0
    /\ document s0 = [[]] /\ is_dirty s0 = false
    /\ cursor_y s0 = 0 /\ cursor_x s0 = 0
    /\ handle_keypress h s0 ENTER None ks = Some (s1, ks)
    /\ document s1 = [[]; []] /\ is_dirty s1 = true
    /\ handle_keypress h s1 BACKSPACE None ks = Some (s2, ks)
    /\ document s2 = [[]] /\ cursor_y s2 = 0 /\ cursor_x s2 = 0
    /\ is_dirty s2 = true.
Proof.
  intros Hfile.
  assert (Hinit : init h (Some fname) false
                  = Some (mk (Some fname) false [empty_line] 0 0 true false
                            HELP_STATUS false (-1) (-1) false [])).
  { unfold init. destruct fname as [|c f]; [reflexivity|].
    destruct Hfile as [Hmissing|Hempty].
    - now rewrite Hmissing.
    - rewrite Hempty. now destruct (path_exists h (c :: f)). }
  do 3 eexists. split; [exact Hinit|].
  split; [reflexivity|]. split; [reflexivity|].
  split; [reflexivity|]. split; [reflexivity|].
  split; [vm_compute; reflexivity|].
  split; [reflexivity|]. split; [reflexivity|].
  split; [vm_compute; reflexivity|].
  repeat split; reflexivity.
Qed.

Lemma C8_enter_then_backspace_witness :
  exists s0 s1 s2,
    init unix_host (Some (py "new.txt")) false = Some s0
    /\ document s0 = [[]] /\ is_dirty s0 = false
    /\ cursor_y s0 = 0 /\ cursor_x s0 = 0
    /\ handle_keypress unix_host s0 ENTER None [] = Some (s1, [])
    /\ document s1 = [[]; []] /\ is_dirty s1 = true
    /\ handle_keypress unix_host s1 BACKSPACE None [] = Some (s2, [])
    /\ document s2 = [[]] /\ cursor_y s2 = 0 /\ cursor_x s2 = 0
    /\ is_dirty s2 = true.
Proof.
  apply (C8_enter_then_backspace unix_host (py "new.txt") []).
  left. reflexivity.
Defined.

(** C2 as stated does not hold: pasting ["X\nY"] at (0, 5) into the lines
    ["hello"], ["world"] does not give the two lines ["helloX"],
    ["Yworld"]. *)
Lemma C2_paste_two_lines_refuted :
  ~ exists s' ks',
      handle_keypress unix_host paste_state CTRL_V None [] = Some (s', ks')
      /\ document s' = [py "helloX"; py "Yworld"]
      /\ cursor_y s' = 1 /\ cursor_x s' = 1.
Proof.
  intros (s' & ks' & H & Hdoc & _).
  vm_compute in H. injection H as <- _. vm_compute in Hdoc. discriminate.
Qed.

(** C2, amended. The cursor at (0, 5) is at the end of ["hello"], so the
    remainder reattached after the last pasted segment is empty: the paste
    gives the three lines ["helloX"], ["Y"], ["world"], with the cursor at
    (1, 1) and the dirty flag set. The clipboard is the editor's own on a
    Unix host and the platform's elsewhere. *)
Theorem C2_paste_scenario h ks :
  IS_UNIX h = true \/ get_clip_text_ps h = Some clip_X_nl_Y ->
  exists s',
    handle_keypress h paste_state CTRL_V None ks = Some (s', ks)
    /\ document s' = [py "helloX"; py "Y"; py "world"]
    /\ cursor_y s' = 1 /\ cursor_x s' = 1
    /\ is_dirty s' = true.
Proof.
  intros Hclip. destruct h as [unix height clip set_clip ex rd wr].
  cbn [IS_UNIX get_clip_text_ps] in Hclip.
  destruct unix.
  - eexists. split; [vm_compute; reflexivity|]. repeat split; reflexivity.
  - destruct Hclip as [Hu|Hc]; [discriminate|]. subst clip.
    eexists. split; [vm_compute; reflexivity|]. repeat split; reflexivity.
Qed.

Lemma C2_paste_scenario_witness :
  exists s',
    handle_keypress unix_host paste_state CTRL_V None [] = Some (s', [])
    /\ document s' = [py "helloX"; py "Y"; py "world"]
    /\ cursor_y s' = 1 /\ cursor_x s' = 1
    /\ is_dirty s' = true.
Proof.
  apply (C2_paste_scenario unix_host []). left. reflexivity.
Defined.

(** ** The editor: deleting a selection *)

Lemma py_index_nonneg {A} (l : list A) i :
  0 <= i < zlen l -> py_index l i = Some (Z.to_nat i).
Proof.
  intros H. unfold py_index. destruct (Z.ltb_spec i 0); [lia|].
  destruct (Z.leb_spec 0 i); [|lia].
  now destruct (Z.ltb_spec i (zlen l)); [|lia].
Qed.

Lemma nth_error_zlen {A} (l : list A) i x :
  0 <= i -> nth_error l (Z.to_nat i) = Some x -> 0 <= i < zlen l.
Proof.
  intros Hi H. assert (Z.to_nat i < length l)%nat.
  { apply nth_error_Some. congruence. }
  unfold zlen. lia.
Qed.

Lemma py_get_nonneg {A} (l : list A) i x :
  0 <= i -> nth_error l (Z.to_nat i) = Some x -> py_get l i = Some x.
Proof.
  intros Hi H. unfold py_get.
  now rewrite py_index_nonneg by eauto using nth_error_zlen.
Qed.

Lemma document_line s k line :
  nth_error (document s) k = Some line ->
  exists g, nth_error (buffer s) k = Some g /\ GapBuffer.to_string g = line.
Proof.
  unfold document. rewrite nth_error_map.
  destruct (nth_error (buffer s) k) as [g|]; [|discriminate].
  intros [= <-]. eauto.
Qed.

(** C4. Deleting a selection that runs from [(start_y, start_x)] to
    [(end_y, end_x)] on a later line: the start line becomes its prefix up
    to [start_x] followed by the suffix of the end line from [end_x], the
    lines after it up to and including the end line are removed, the cursor
    moves to the start of the selection, the selection is cleared and the
    document is marked dirty. *)
Theorem C4_delete_multiline_selection
    s start_y start_x end_y end_x line_a line_b :
  get_selection s = Some (start_y, start_x, end_y, end_x) ->
  0 <= start_y < end_y ->
  0 <= start_x -> 0 <= end_x ->
  nth_error (document s) (Z.to_nat start_y) = Some line_a ->
  nth_error (document s) (Z.to_nat end_y) = Some line_b ->
  exists s',
    delete_selection s = Some s'
    /\ document s'
       = firstn (Z.to_nat start_y) (document s)
         ++ [firstn (Z.to_nat start_x) line_a
             ++ skipn (Z.to_nat end_x) line_b]
         ++ skipn (Z.to_nat end_y + 1) (document s)
    /\ cursor_y s' = start_y /\ cursor_x s' = start_x
    /\ is_selecting s' = false /\ is_dirty s' = true.
Proof.
  intros Hsel Hy Hsx Hex Ha Hb.
  destruct (document_line _ _ _ Ha) as (ga & Hga & Hta).
  destruct (document_line _ _ _ Hb) as (gb & Hgb & Htb).
  assert (Hra : 0 <= start_y < zlen (buffer s))
    by (apply (nth_error_zlen _ _ ga); [lia | exact Hga]).
  assert (Hrb : 0 <= end_y < zlen (buffer s))
    by (apply (nth_error_zlen _ _ gb); [lia | exact Hgb]).
  unfold delete_selection. rewrite Hsel.
  destruct (Z.eqb_spec start_y end_y); [lia|].
  rewrite (py_get_nonneg (buffer s) start_y ga) by (lia || exact Hga).
  rewrite (py_get_nonneg (buffer s) end_y gb) by (lia || exact Hgb).
  unfold GapBuffer.get_slice.
  rewrite slice_between, slice_suffix by lia.
  rewrite Z.sub_0_r. cbn [Z.to_nat skipn]. rewrite Hta, Htb.
  destruct (init_spec (firstn (Z.to_nat start_x) line_a
                       ++ skipn (Z.to_nat end_x) line_b))
    as (gnew & Hinit & _ & Hnew).
  { apply Forall_app. subst.
    split; [apply encodable_firstn | apply encodable_skipn];
      apply decode_encodable. }
  rewrite Hinit. unfold py_set. rewrite py_index_nonneg by lia.
  eexists. split; [reflexivity|].
  cbn [cursor_y cursor_x is_selecting is_dirty set_is_selecting set_is_dirty
       set_cursor_y set_cursor_x set_buffer].
  split; [|repeat split; reflexivity].
  unfold document.
  cbn [buffer set_is_selecting set_is_dirty set_cursor_y set_cursor_x
       set_buffer].
  unfold py_del_slice. rewrite slice_assign_between by lia.
  set (k := Z.to_nat start_y). set (m := Z.to_nat end_y).
  assert (Hk : (k < length (buffer s))%nat) by (unfold zlen in Hra; lia).
  assert (Hlen : length (firstn k (buffer s)) = k)
    by (rewrite length_firstn; lia).
  replace (Z.to_nat (start_y + 1)) with (length (firstn k (buffer s)) + 1)%nat
    by lia.
  replace (Z.to_nat (end_y + 1))
    with (length (firstn k (buffer s)) + (1 + (m - k)))%nat by lia.
  rewrite firstn_app_2, skipn_app_ge by lia.
  replace (length (firstn k (buffer s)) + (1 + (m - k))
           - length (firstn k (buffer s)))%nat with (S (m - k)) by lia.
  change (firstn 1 (gnew :: skipn (S k) (buffer s))) with [gnew].
  rewrite skipn_cons, skipn_skipn.
  replace (m - k + S k)%nat with (m + 1)%nat by lia.
  rewrite !map_app. cbn [map]. rewrite Hnew.
  now rewrite firstn_map, skipn_map, <- app_assoc.
Qed.

Lemma C4_delete_multiline_selection_witness :
  exists s',
    delete_selection selection_state = Some s'
    /\ document s'
       = firstn (Z.to_nat 0) (document selection_state)
         ++ [firstn (Z.to_nat 3) (py "abcdef")
             ++ skipn (Z.to_nat 2) (py "mnopqr")]
         ++ skipn (Z.to_nat 2 + 1) (document selection_state)
    /\ cursor_y s' = 0 /\ cursor_x s' = 3
    /\ is_selecting s' = false /\ is_dirty s' = true.
Proof.
  apply (C4_delete_multiline_selection selection_state 0 3 2 2).
  - reflexivity.
  - lia.
  - lia.
  - lia.
  - reflexivity.
  - reflexivity.
Defined.

(** The three-line case spelt out: the document collapses to the one line
    ["abc" + "opqr"] with the cursor at (0, 3). *)
Lemma delete_selection_three_lines :
  exists s',
    delete_selection selection_state = Some s'
    /\ document s' = [py "abcopqr"]
    /\ cursor_y s' = 0 /\ cursor_x s' = 3.
Proof.
  eexists. split; [vm_compute; reflexivity|]. repeat split; reflexivity.
Qed.

(* ================================================================= *)
(** * Further properties *)

(** ** Display helpers *)

Lemma char_width_range c : 0 <= _get_char_width c <= 2.
Proof.
  unfold _get_char_width.
  destruct (_ || _); [lia|]. destruct (_ || _); lia.
Qed.

Lemma visual_len_app a b : visual_len (a ++ b) = visual_len a + visual_len b.
Proof. induction a as [|c a IH]; simpl; [reflexivity|]. rewrite IH. lia. Qed.

Lemma visual_len_nonneg s : 0 <= visual_len s.
Proof.
  induction s as [|c s IH]; simpl; [lia|].
  pose proof (char_width_range c). lia.
Qed.

Lemma visual_len_firstn_le s j : visual_len (firstn j s) <= visual_len s.
Proof.
  rewrite <- (firstn_skipn j s) at 2. rewrite visual_len_app.
  pose proof (visual_len_nonneg (skipn j s)). lia.
Qed.

Lemma visual_len_firstn_mono s j k :
  (j <= k)%nat -> visual_len (firstn j s) <= visual_len (firstn k s).
Proof.
  intros H. replace (firstn j s) with (firstn j (firstn k s)).
  - apply visual_len_firstn_le.
  - rewrite firstn_firstn. f_equal. lia.
Qed.

Lemma visual_len_firstn_step s j :
  visual_len (firstn (S j) s) <= visual_len (firstn j s) + 2.
Proof.
  revert j. induction s as [|c s IH]; intros j.
  - simpl. rewrite firstn_nil. simpl. lia.
  - destruct j as [|j].
    + simpl. pose proof (char_width_range c). lia.
    + specialize (IH j). cbn [firstn visual_len] in *. lia.
Qed.

(** What the scanning loop returns: it stops [k] characters into [s], no
    earlier character had reached the target column, and unless the loop
    ran to the end the column reached there has. *)
Lemma first_index_spec : forall s i col target,
  exists k : nat,
    first_index_at_col s i col target = i + Z.of_nat k
    /\ (k <= length s)%nat
    /\ ((k < length s)%nat -> target <= col + visual_len (firstn k s))
    /\ (forall j, (j < k)%nat -> col + visual_len (firstn j s) < target).
Proof.
  induction s as [|c s IH]; intros i col target.
  - exists 0%nat. simpl. repeat split; try lia.
  - cbn [first_index_at_col]. destruct (Z.leb_spec target col).
    + exists 0%nat. simpl. repeat split; try lia.
    + destruct (IH (i + 1) (col + _get_char_width c) target)
        as (k & Hk & Hle & Hbreak & Hbefore).
      exists (S k). cbn [length firstn visual_len].
      split; [lia|]. split; [lia|]. split.
      * intros Hlt. specialize (Hbreak ltac:(lia)). lia.
      * intros [|j] Hj; cbn [firstn visual_len]; [lia|].
        specialize (Hbefore j ltac:(lia)). lia.
Qed.

(** X1. [visual_slice] cuts on column boundaries as well as whole
    characters allow: the text it returns for the columns
    [start_col, end_col) is at most one column wider than asked (a
    two-column character across the right edge is kept whole), and when the
    line reaches [end_col] it is at most one column narrower. *)
Theorem X1_visual_slice_width s start_col end_col :
  0 <= start_col <= end_col ->
  visual_len (visual_slice s start_col (Some end_col))
    <= end_col - start_col + 1
  /\ (end_col <= visual_len s ->
      end_col - start_col - 1
        <= visual_len (visual_slice s start_col (Some end_col))).
Proof.
  intros Hcols. unfold visual_slice.
  destruct (first_index_spec s 0 0 start_col)
    as (k1 & -> & Hk1 & Hbreak1 & Hbefore1).
  rewrite Z.add_0_l.
  rewrite slice_prefix, slice_suffix by lia. rewrite Nat2Z.id.
  set (c1 := visual_len (firstn k1 s)).
  destruct (first_index_spec (skipn k1 s) (Z.of_nat k1) c1 end_col)
    as (k2 & -> & Hk2 & Hbreak2 & Hbefore2).
  rewrite slice_between by lia.
  replace (Z.to_nat (Z.of_nat k1 + Z.of_nat k2 - Z.of_nat k1)) with k2 by lia.
  rewrite Nat2Z.id. rewrite length_skipn in Hk2, Hbreak2.
  assert (Hc1 : (k1 < length s)%nat -> start_col <= c1)
    by (intros; specialize (Hbreak1 ltac:(lia)); unfold c1; lia).
  assert (Hc1' : c1 <= start_col + 1).
  { destruct k1 as [|j]; [unfold c1; simpl; lia|].
    specialize (Hbefore1 j ltac:(lia)).
    pose proof (visual_len_firstn_step s j). unfold c1. lia. }
  split.
  - destruct k2 as [|j]; [simpl; lia|].
    specialize (Hbefore2 j ltac:(lia)).
    pose proof (visual_len_firstn_step (skipn k1 s) j).
    specialize (Hc1 ltac:(lia)). lia.
  - intros Hreach.
    destruct (Nat.lt_ge_cases k2 (length s - k1)) as [Hlt|Hge].
    + specialize (Hbreak2 Hlt). lia.
    + rewrite firstn_all2 by (rewrite length_skipn; lia).
      assert (visual_len s = c1 + visual_len (skipn k1 s)).
      { unfold c1. rewrite <- visual_len_app. now rewrite firstn_skipn. }
      lia.
Qed.

Lemma X1_visual_slice_width_witness :
  visual_len (visual_slice (py "ab" ++ [0x4E2D] ++ py "cd") 1 (Some 3))
    <= 3 - 1 + 1
  /\ (3 <= visual_len (py "ab" ++ [0x4E2D] ++ py "cd") ->
      3 - 1 - 1
        <= visual_len (visual_slice (py "ab" ++ [0x4E2D] ++ py "cd") 1
                         (Some 3))).
Proof.
  apply (X1_visual_slice_width (py "ab" ++ [0x4E2D] ++ py "cd") 1 3). lia.
Defined.

Lemma char_width_plain c : 32 <= c < 127 -> _get_char_width c = 1.
Proof.
  intros H. unfold _get_char_width.
  replace ((c =? 0) || (c <? 32) || (127 <=? c) && (c <=? 159))
    with false by lia.
  match goal with
  | |- (if ?b then _ else _) = _ =>
      replace b with false by lia
  end.
  reflexivity.
Qed.

Lemma char_width_cjk c : 0x4E00 <= c <= 0x9FFF -> _get_char_width c = 2.
Proof.
  intros H. unfold _get_char_width.
  replace ((c =? 0) || (c <? 32) || (127 <=? c) && (c <=? 159))
    with false by lia.
  match goal with
  | |- (if ?b then _ else _) = _ =>
      replace b with true by lia
  end.
  reflexivity.
Qed.

(** X2. Visual width of text: a CJK ideograph between runs of printable
    ASCII counts two columns, every ASCII character one. *)
Theorem X2_visual_len_wide a w b :
  Forall (fun c => 32 <= c < 127) a ->
  Forall (fun c => 32 <= c < 127) b ->
  0x4E00 <= w <= 0x9FFF ->
  visual_len (a ++ [w] ++ b) = zlen a + 2 + zlen b.
Proof.
  intros Ha Hb Hw.
  assert (Hplain : forall l, Forall (fun c => 32 <= c < 127) l ->
                             visual_len l = zlen l).
  { induction 1 as [|c l Hc Hl IH]; [reflexivity|].
    cbn [visual_len]. rewrite zlen_cons, IH, char_width_plain by lia.
    reflexivity. }
  rewrite !visual_len_app, (Hplain a Ha), (Hplain b Hb).
  cbn [visual_len]. rewrite char_width_cjk by lia. lia.
Qed.

Lemma X2_visual_len_wide_witness :
  visual_len (py "ab" ++ [0x4E2D] ++ py "cde")
  = zlen (py "ab") + 2 + zlen (py "cde").
Proof.
  apply (X2_visual_len_wide (py "ab") 0x4E2D (py "cde")).
  - repeat constructor; cbv; congruence.
  - repeat constructor; cbv; congruence.
  - lia.
Defined.

(** X3. Cursor column conversions: taking the visual column of a character
    offset on a line and converting it back gives an offset that is not
    after the original one and lies at the same visual column (the two
    differ only by zero-width characters). *)
Theorem X3_visual_char_round_trip s y x v :
  cursor_char_pos_to_visual s y x = Some v ->
  0 <= x ->
  exists i,
    cursor_visual_pos_to_char s y v = Some i
    /\ 0 <= i <= x
    /\ cursor_char_pos_to_visual s y i = Some v.
Proof.
  unfold cursor_char_pos_to_visual, cursor_visual_pos_to_char.
  destruct (py_get (Editor.buffer s) y) as [g|]; [|discriminate].
  intros [= Hv] Hx. set (l := GapBuffer.to_string g) in *.
  rewrite slice_prefix in Hv by lia.
  destruct (first_index_spec l 0 0 v) as (k & Hk & Hlen & Hbreak & Hbefore).
  rewrite Hk, Z.add_0_l. exists (Z.of_nat k).
  split; [reflexivity|].
  assert (Hkx : (k <= Z.to_nat x)%nat).
  { destruct (Nat.le_gt_cases k (Z.to_nat x)) as [H|H]; [exact H|].
    specialize (Hbefore _ H). lia. }
  split; [lia|]. f_equal. rewrite slice_prefix, Nat2Z.id by lia.
  pose proof (visual_len_firstn_mono l _ _ Hkx) as Hmono.
  destruct (Nat.lt_ge_cases k (length l)) as [Hlt|Hge].
  - specialize (Hbreak Hlt). lia.
  - rewrite (firstn_all2 l (n := Z.to_nat x)) in Hv by lia.
    rewrite firstn_all2 by lia. exact Hv.
Qed.

Lemma X3_visual_char_round_trip_witness :
  exists i,
    cursor_visual_pos_to_char selection_state 1 3 = Some i
    /\ 0 <= i <= 3
    /\ cursor_char_pos_to_visual selection_state 1 i = Some 3.
Proof.
  apply (X3_visual_char_round_trip selection_state 1 3 3).
  - reflexivity.
  - lia.
Defined.

(** X4. Scrolling keeps the cursor in view. On a terminal wider than the
    line-number margin, from any previous [top_line] and [col_offset], the
    viewport computed by [render] has the cursor's line among its
    [view_height] lines and the cursor's visual column among its text
    columns; and a viewport that already shows the cursor is left where it
    is. *)
Theorem X4_scroll_keeps_cursor_visible s width height top_line col_offset :
  cursor_invariant s ->
  LINE_NUM_WIDTH < width ->
  exists top_line' col_offset' visual_x,
    render_scroll s width height top_line col_offset
    = Some (top_line', col_offset')
    /\ cursor_char_pos_to_visual s (Editor.cursor_y s) (Editor.cursor_x s)
       = Some visual_x
    /\ top_line' <= Editor.cursor_y s < top_line' + view_height_of s height
    /\ col_offset' <= visual_x < col_offset' + (width - LINE_NUM_WIDTH)
    /\ (top_line <= Editor.cursor_y s < top_line + view_height_of s height ->
        top_line' = top_line)
    /\ (col_offset <= visual_x < col_offset + (width - LINE_NUM_WIDTH) ->
        col_offset' = col_offset).
Proof.
  intros (Hn & Hy & g & Hg & Hx) Hw.
  unfold render_scroll, cursor_char_pos_to_visual, view_height_of.
  rewrite (py_get_nonneg _ _ g) by (lia || exact Hg).
  set (vh := if _ <? 1 then 1 else _).
  assert (Hvh : 1 <= vh) by (unfold vh; destruct (_ <? 1) eqn:E; lia).
  set (vx := visual_len _).
  do 3 eexists. split; [reflexivity|]. split; [reflexivity|].
  repeat match goal with
         | |- context [?a <? ?b] => destruct (Z.ltb_spec a b)
         | |- context [?a <=? ?b] => destruct (Z.leb_spec a b)
         end; repeat split; intros; lia.
Qed.

Lemma X4_scroll_keeps_cursor_visible_witness :
  exists top_line' col_offset' visual_x,
    render_scroll blank_state 80 24 5 9 = Some (top_line', col_offset')
    /\ cursor_char_pos_to_visual blank_state (Editor.cursor_y blank_state)
         (Editor.cursor_x blank_state) = Some visual_x
    /\ top_line' <= Editor.cursor_y blank_state
       < top_line' + view_height_of blank_state 24
    /\ col_offset' <= visual_x < col_offset' + (80 - LINE_NUM_WIDTH)
    /\ (5 <= Editor.cursor_y blank_state < 5 + view_height_of blank_state 24 ->
        top_line' = 5)
    /\ (9 <= visual_x < 9 + (80 - LINE_NUM_WIDTH) -> col_offset' = 9).
Proof.
  apply (X4_scroll_keeps_cursor_visible blank_state 80 24 5 9).
  - exact blank_state_invariant.
  - reflexivity.
Defined.

(** ** The gap buffer, further *)

Lemma move_gap_buffer_length g char_pos g' :
  gap_wf g -> GapBuffer._move_gap g char_pos = Some g' ->
  gap_wf g' /\ zlen (GapBuffer.buffer g') = zlen (GapBuffer.buffer g)
  /\ GapBuffer.to_string g' = GapBuffer.to_string g
  /\ GapBuffer.content g' = GapBuffer.content g
  /\ gap_size g' = gap_size g.
Proof.
  intros Hwf Hm.
  destruct (move_gap_preserves g char_pos Hwf)
    as (g1 & Hm1 & Hwf1 & Hs & Hc & Hg).
  rewrite Hm in Hm1. injection Hm1 as <-.
  split; [exact Hwf1|]. split; [|auto].
  pose proof (wf_content_length _ Hwf). pose proof (wf_content_length _ Hwf1).
  rewrite Hc in *. lia.
Qed.

(** X5. The constructor: for text that can be encoded, [GapBuffer(text)]
    holds exactly [text], [len] is its number of characters, the invariant
    holds and the gap has at least [MIN_GAP_SIZE] bytes. *)
Theorem X5_constructor_round_trip text :
  encodable text ->
  exists g,
    GapBuffer.init text = Some g
    /\ gap_wf g
    /\ GapBuffer.to_string g = text
    /\ GapBuffer.len g = zlen text
    /\ GapBuffer.get_slice g None None = text
    /\ GapBuffer.MIN_GAP_SIZE <= gap_size g.
Proof.
  intros He. pose proof He as He'.
  apply encodable_encode in He' as [enc Henc].
  destruct (init_spec text He) as (g & Hi & Hwf & Hs).
  exists g. split; [exact Hi|]. split; [exact Hwf|]. split; [exact Hs|].
  split; [unfold GapBuffer.len; now rewrite Hs|]. split.
  - unfold GapBuffer.get_slice, py_slice. rewrite Hs. simpl slice_bound.
    rewrite Z.sub_0_r. unfold zlen. rewrite Nat2Z.id. simpl skipn.
    apply firstn_all.
  - unfold GapBuffer.init in Hi. rewrite Henc in Hi. injection Hi as <-.
    unfold gap_size. cbn [GapBuffer.gap_start GapBuffer.gap_end].
    rewrite slice_assign_length. cbv zeta. simpl slice_bound.
    pose proof (zlen_nonneg enc).
    assert (0 <= zlen enc / 2) by (apply Z.div_pos; lia).
    unfold GapBuffer.bytearray. rewrite zlen_repeat.
    rewrite adjust_index_nonneg by lia. unfold GapBuffer.MIN_GAP_SIZE. lia.
Qed.

Lemma X5_constructor_round_trip_witness :
  exists g,
    GapBuffer.init six_emoji = Some g
    /\ gap_wf g
    /\ GapBuffer.to_string g = six_emoji
    /\ GapBuffer.len g = zlen six_emoji
    /\ GapBuffer.get_slice g None None = six_emoji
    /\ GapBuffer.MIN_GAP_SIZE <= gap_size g.
Proof.
  apply (X5_constructor_round_trip six_emoji).
  repeat constructor.
Defined.

Lemma delete_keeps_buffer_size g char_pos char_len g' :
  gap_wf g -> GapBuffer.delete g char_pos char_len = Some g' ->
  zlen (GapBuffer.buffer g') = zlen (GapBuffer.buffer g).
Proof.
  intros Hwf Hd. unfold GapBuffer.delete in Hd.
  destruct (char_len <=? 0); [now injection Hd as <-|].
  destruct (GapBuffer._get_byte_pos g char_pos); [|discriminate].
  destruct (GapBuffer._get_byte_pos g (char_pos + char_len));
    [|discriminate].
  destruct (GapBuffer._move_gap g char_pos) as [g1|] eqn:Hm;
    [|discriminate].
  injection Hd as <-. cbn [GapBuffer.buffer].
  now apply (move_gap_buffer_length g char_pos g1 Hwf) in Hm.
Qed.

(** X6. [delete] on any buffer satisfying the invariant, multi-byte text
    included: from a position that is not negative it removes the
    characters [char_pos .. char_pos + char_len) that exist, whole
    characters only; the invariant holds afterwards, the byte array keeps
    its size and the gap grows by the bytes removed. *)
Theorem X6_delete_removes_characters g char_pos char_len :
  gap_wf g -> 0 <= char_pos -> 0 < char_len ->
  exists g',
    GapBuffer.delete g char_pos char_len = Some g'
    /\ gap_wf g'
    /\ GapBuffer.to_string g'
       = firstn (Z.to_nat char_pos) (GapBuffer.to_string g)
         ++ skipn (Z.to_nat (char_pos + char_len)) (GapBuffer.to_string g)
    /\ zlen (GapBuffer.buffer g') = zlen (GapBuffer.buffer g)
    /\ gap_size g'
       = gap_size g
         + (zlen (GapBuffer.content g) - zlen (GapBuffer.content g')).
Proof.
  intros Hwf Hp Hn.
  destruct (delete_spec g _ char_pos char_len Hwf eq_refl Hp Hn)
    as (g' & Hd & Hwf' & Hs & _).
  exists g'. split; [exact Hd|]. split; [exact Hwf'|]. split; [exact Hs|].
  pose proof (delete_keeps_buffer_size g char_pos char_len g' Hwf Hd) as Hlen.
  split; [exact Hlen|].
  pose proof (wf_content_length _ Hwf). pose proof (wf_content_length _ Hwf').
  lia.
Qed.

Lemma X6_delete_removes_characters_witness :
  exists g',
    GapBuffer.delete six_emoji_line 2 3 = Some g'
    /\ gap_wf g'
    /\ GapBuffer.to_string g'
       = firstn (Z.to_nat 2) (GapBuffer.to_string six_emoji_line)
         ++ skipn (Z.to_nat (2 + 3)) (GapBuffer.to_string six_emoji_line)
    /\ zlen (GapBuffer.buffer g') = zlen (GapBuffer.buffer six_emoji_line)
    /\ gap_size g'
       = gap_size six_emoji_line
         + (zlen (GapBuffer.content six_emoji_line)
            - zlen (GapBuffer.content g')).
Proof.
  apply (X6_delete_removes_characters six_emoji_line 2 3).
  - exact six_emoji_line_wf.
  - lia.
  - lia.
Defined.

Lemma resize_not_needed g text_len :
  text_len <= gap_size g -> GapBuffer._resize_if_needed g text_len = g.
Proof.
  intros H. unfold GapBuffer._resize_if_needed, gap_size in *.
  now destruct (Z.ltb_spec (GapBuffer.gap_end g - GapBuffer.gap_start g)
                  text_len); [lia|].
Qed.

(** [insert] of text that fits the gap. *)
Lemma insert_fits g text enc char_pos :
  gap_wf g -> utf8_encode text = Some enc -> zlen enc <= gap_size g ->
  exists g',
    GapBuffer.insert g text char_pos = Some g'
    /\ gap_wf g'
    /\ GapBuffer.to_string g'
       = (let k := Z.to_nat (adjust_index (GapBuffer.len g) char_pos) in
          firstn k (GapBuffer.to_string g) ++ text
          ++ skipn k (GapBuffer.to_string g))
    /\ zlen (GapBuffer.buffer g') = zlen (GapBuffer.buffer g)
    /\ gap_size g' = gap_size g - zlen enc.
Proof.
  intros Hwf Henc Hfit.
  destruct (insert_spec g _ text enc _ char_pos Hwf eq_refl Henc eq_refl
              (or_introl Hfit)) as (g' & Hi & Hwf' & Hs).
  exists g'. split; [exact Hi|]. split; [exact Hwf'|]. split; [exact Hs|].
  unfold GapBuffer.insert in Hi.
  destruct (GapBuffer._move_gap g char_pos) as [g1|] eqn:Hm; [|discriminate].
  rewrite Henc in Hi.
  destruct (move_gap_buffer_length g char_pos g1 Hwf Hm)
    as (Hwf1 & Hlen1 & _ & _ & Hgap1).
  rewrite resize_not_needed in Hi by lia. injection Hi as <-.
  destruct Hwf1 as (Hgs & Hge & _).
  pose proof (zlen_nonneg enc).
  unfold gap_size in *. cbn [GapBuffer.buffer GapBuffer.gap_start
                             GapBuffer.gap_end].
  split; [|lia].
  rewrite slice_assign_length. cbv zeta. simpl slice_bound.
  rewrite !adjust_index_nonneg by lia. lia.
Qed.

(** X7. [insert] of text whose encoding fits the gap, on any buffer
    satisfying the invariant, multi-byte text included: the text goes in at
    the character position (clamped to the end when past it), the invariant
    holds afterwards, the byte array is not reallocated and the gap shrinks
    by the bytes written. *)
Theorem X7_insert_within_gap g text enc char_pos :
  gap_wf g -> utf8_encode text = Some enc -> zlen enc <= gap_size g ->
  0 <= char_pos ->
  exists g',
    GapBuffer.insert g text char_pos = Some g'
    /\ gap_wf g'
    /\ GapBuffer.to_string g'
       = firstn (Z.to_nat char_pos) (GapBuffer.to_string g) ++ text
         ++ skipn (Z.to_nat char_pos) (GapBuffer.to_string g)
    /\ zlen (GapBuffer.buffer g') = zlen (GapBuffer.buffer g)
    /\ gap_size g' = gap_size g - zlen enc.
Proof.
  intros Hwf Henc Hfit Hp.
  destruct (insert_fits g text enc char_pos Hwf Henc Hfit)
    as (g' & Hi & Hwf' & Hs & Hlen & Hgap).
  exists g'. split; [exact Hi|]. split; [exact Hwf'|].
  split; [|split; [exact Hlen | exact Hgap]].
  rewrite Hs. cbv zeta. unfold GapBuffer.len.
  rewrite adjust_index_nonneg by lia.
  now rewrite firstn_clamp, skipn_clamp.
Qed.

Lemma X7_insert_within_gap_witness :
  exists g',
    GapBuffer.insert six_emoji_line e_acute 3 = Some g'
    /\ gap_wf g'
    /\ GapBuffer.to_string g'
       = firstn (Z.to_nat 3) (GapBuffer.to_string six_emoji_line) ++ e_acute
         ++ skipn (Z.to_nat 3) (GapBuffer.to_string six_emoji_line)
    /\ zlen (GapBuffer.buffer g') = zlen (GapBuffer.buffer six_emoji_line)
    /\ gap_size g' = gap_size six_emoji_line - zlen [0xC3; 0xA9].
Proof.
  apply (X7_insert_within_gap six_emoji_line e_acute [0xC3; 0xA9] 3).
  - exact six_emoji_line_wf.
  - reflexivity.
  - vm_compute. congruence.
  - lia.
Defined.

(** X8. On a buffer satisfying the gap buffer invariant, [_move_gap]
    touches only the bytes between the old and the new place of the gap:
    the gap ends up at the byte offset of the character position, the byte
    array and the gap keep their sizes, the text is unchanged, and the bytes
    before the lower of the old and new [gap_start] and from the higher of
    the old and new [gap_end] on are the same as before.  (Without the
    invariant this fails: on the buffer the insert of C1 leaves, the move
    lengthens the byte array.) *)
Theorem X8_move_gap_is_local g char_pos g' :
  gap_wf g -> GapBuffer._move_gap g char_pos = Some g' ->
  GapBuffer._get_byte_pos g char_pos = Some (GapBuffer.gap_start g')
  /\ zlen (GapBuffer.buffer g') = zlen (GapBuffer.buffer g)
  /\ gap_size g' = gap_size g
  /\ GapBuffer.to_string g' = GapBuffer.to_string g
  /\ (let lo := Z.to_nat (Z.min (GapBuffer.gap_start g)
                           (GapBuffer.gap_start g')) in
      firstn lo (GapBuffer.buffer g') = firstn lo (GapBuffer.buffer g))
  /\ (let hi := Z.to_nat (Z.max (GapBuffer.gap_end g)
                           (GapBuffer.gap_end g')) in
      skipn hi (GapBuffer.buffer g') = skipn hi (GapBuffer.buffer g)).
Proof.
  intros Hwf Hm.
  destruct (move_gap_buffer_length g char_pos g' Hwf Hm)
    as (_ & Hlen & Hs & _ & Hgap).
  destruct (wf_layout _ Hwf) as (L & G & R & HL & HLR).
  destruct (encode_split _ _
              (Z.to_nat (adjust_index (zlen (GapBuffer.to_string g))
                           char_pos)) HLR)
    as (e1 & e2 & H1 & H2 & Hsplit).
  destruct (move_gap_layout _ _ _ _ _ _ _ _ char_pos HL HLR eq_refl H1 H2)
    as (g1 & G1 & Hm1 & HL1 & HG1).
  rewrite Hm in Hm1. injection Hm1 as <-.
  split.
  { rewrite (byte_pos_spec g _ _ e1 char_pos eq_refl eq_refl H1).
    destruct HL1 as (_ & -> & _). reflexivity. }
  split; [exact Hlen|]. split; [exact Hgap|]. split; [exact Hs|].
  destruct HL as (Hb & Hgs & Hge). destruct HL1 as (Hb1 & Hgs1 & Hge1).
  rewrite Hb, Hb1, Hgs, Hgs1, Hge, Hge1, HG1. cbv zeta.
  destruct (Nat.le_ge_cases (length e1) (length L)) as [Hle|Hle].
  - destruct (app_eq_split e1 L e2 R Hle (eq_sym Hsplit)) as (M & -> & ->).
    rewrite zlen_app. split.
    + replace (Z.to_nat (Z.min (zlen e1 + zlen M) (zlen e1)))
        with (length e1) by (unfold zlen; lia).
      rewrite <- !app_assoc.
      now rewrite !firstn_length_app by reflexivity.
    + replace (Z.to_nat (Z.max (zlen e1 + zlen M + zlen G) (zlen e1 + zlen G)))
        with (length e1 + length M + length G)%nat by (unfold zlen; lia).
      rewrite (app_assoc e1 G1), (app_assoc (e1 ++ G1) M R).
      rewrite (app_assoc (e1 ++ M) G R).
      rewrite !skipn_length_app; auto;
        rewrite !length_app; unfold zlen in HG1; lia.
  - destruct (app_eq_split L e1 R e2 Hle Hsplit) as (M & -> & ->).
    rewrite zlen_app. split.
    + replace (Z.to_nat (Z.min (zlen L) (zlen L + zlen M)))
        with (length L) by (unfold zlen; lia).
      rewrite <- !app_assoc.
      now rewrite !firstn_length_app by reflexivity.
    + replace (Z.to_nat (Z.max (zlen L + zlen G) (zlen L + zlen M + zlen G)))
        with (length L + length M + length G)%nat by (unfold zlen; lia).
      rewrite (app_assoc (L ++ M) G1 e2).
      rewrite (app_assoc G M e2), (app_assoc L (G ++ M) e2).
      rewrite !skipn_length_app; auto;
        rewrite !length_app; unfold zlen in HG1; lia.
Qed.

Lemma X8_move_gap_is_local_witness :
  GapBuffer._get_byte_pos six_emoji_line 2
  = Some (GapBuffer.gap_start six_emoji_moved)
  /\ zlen (GapBuffer.buffer six_emoji_moved)
     = zlen (GapBuffer.buffer six_emoji_line)
  /\ gap_size six_emoji_moved = gap_size six_emoji_line
  /\ GapBuffer.to_string six_emoji_moved
     = GapBuffer.to_string six_emoji_line
  /\ (let lo := Z.to_nat (Z.min (GapBuffer.gap_start six_emoji_line)
                           (GapBuffer.gap_start six_emoji_moved)) in
      firstn lo (GapBuffer.buffer six_emoji_moved)
      = firstn lo (GapBuffer.buffer six_emoji_line))
  /\ (let hi := Z.to_nat (Z.max (GapBuffer.gap_end six_emoji_line)
                           (GapBuffer.gap_end six_emoji_moved)) in
      skipn hi (GapBuffer.buffer six_emoji_moved)
      = skipn hi (GapBuffer.buffer six_emoji_line)).
Proof.
  apply (X8_move_gap_is_local six_emoji_line 2).
  - exact six_emoji_line_wf.
  - vm_compute. reflexivity.
Defined.

(** The invariant is needed: on the buffer left by the insert of C1, whose
    [gap_end] lies before its [gap_start], moving the gap to the start
    lengthens the byte array from 19 to 38 bytes. *)
Lemma move_gap_needs_invariant :
  exists g1 g2,
    GapBuffer.insert e_acute_line seventeen_a 1 = Some g1
    /\ GapBuffer.gap_end g1 < GapBuffer.gap_start g1
    /\ GapBuffer._move_gap g1 0 = Some g2
    /\ zlen (GapBuffer.buffer g1) = 19
    /\ zlen (GapBuffer.buffer g2) = 38.
Proof.
  eexists. eexists. split; [vm_compute; reflexivity|].
  split; [vm_compute; reflexivity|].
  split; [vm_compute; reflexivity|].
  split; vm_compute; reflexivity.
Qed.

Lemma get_slice_all g :
  GapBuffer.get_slice g (Some 0) (Some (GapBuffer.len g))
  = GapBuffer.to_string g.
Proof.
  unfold GapBuffer.get_slice, GapBuffer.len.
  rewrite slice_between by (try apply zlen_nonneg; lia).
  simpl skipn. rewrite Z.sub_0_r. unfold zlen. rewrite Nat2Z.id.
  apply firstn_all.
Qed.

(** X9. Round trip without growth, for any Unicode text: when the bytes
    written by a sequence of valid edits do not exceed the gap the buffer
    starts with, the buffer ends up holding what splicing the string gives,
    it still satisfies the invariant (no character is ever cut), and the
    byte array was never reallocated. *)
Theorem X9_round_trip_within_gap : forall es g,
  gap_wf g ->
  valid_edits (GapBuffer.to_string g) es ->
  edits_bytes es <= gap_size g ->
  exists g',
    apply_edits g es = Some g'
    /\ gap_wf g'
    /\ GapBuffer.get_slice g' (Some 0) (Some (GapBuffer.len g'))
       = model_edits (GapBuffer.to_string g) es
    /\ zlen (GapBuffer.buffer g') = zlen (GapBuffer.buffer g).
Proof.
  induction es as [|e es IH]; intros g Hwf Hv Hbytes.
  - exists g. split; [reflexivity|]. split; [exact Hwf|].
    split; [apply get_slice_all | reflexivity].
  - destruct Hv as [Hv Hvs]. cbn [edits_bytes fold_right] in Hbytes.
    fold (edits_bytes es) in Hbytes.
    assert (Hrest : 0 <= edits_bytes es).
    { clear. induction es as [|e es IH]; simpl; [lia|].
      fold (edits_bytes es). destruct e as [text p|p n]; simpl; [|lia].
      destruct (utf8_encode text); [pose proof (zlen_nonneg l)|]; lia. }
    assert (Hstep : exists g1,
               apply_edit g e = Some g1 /\ gap_wf g1
               /\ GapBuffer.to_string g1
                  = model_edit (GapBuffer.to_string g) e
               /\ zlen (GapBuffer.buffer g1) = zlen (GapBuffer.buffer g)
               /\ edits_bytes es <= gap_size g1).
    { destruct e as [text p|p n]; cbn [valid_edit apply_edit model_edit
                                       edit_bytes] in *.
      - destruct Hv as [Henc Hp].
        apply encodable_encode in Henc as [enc Henc]. rewrite Henc in Hbytes.
        destruct (insert_fits g text enc p Hwf Henc ltac:(lia))
          as (g1 & Hi & Hwf1 & Hs1 & Hlen1 & Hgap1).
        exists g1. split; [exact Hi|]. split; [exact Hwf1|].
        split; [|split; [exact Hlen1 | lia]].
        rewrite Hs1. cbv zeta. unfold GapBuffer.len.
        now rewrite adjust_index_nonneg, Z.min_l by lia.
      - destruct Hv as (Hp & Hn & _).
        destruct (Z.eq_dec n 0) as [->|Hn0].
        + exists g. rewrite delete_nonpositive by lia.
          rewrite Z.add_0_r, firstn_skipn.
          split; [reflexivity|]. split; [exact Hwf|].
          split; [reflexivity|]. split; [reflexivity | lia].
        + destruct (delete_spec g _ p n Hwf eq_refl Hp ltac:(lia))
            as (g1 & Hd & Hwf1 & Hs1 & Hgap1).
          exists g1. split; [exact Hd|]. split; [exact Hwf1|].
          split; [exact Hs1|].
          split; [exact (delete_keeps_buffer_size g p n g1 Hwf Hd) | lia]. }
    destruct Hstep as (g1 & H1 & Hwf1 & Hs1 & Hlen1 & Hgap1).
    rewrite <- Hs1 in Hvs.
    destruct (IH g1 Hwf1 Hvs Hgap1) as (g' & H' & Hwf' & Hr & Hlen').
    exists g'. cbn [apply_edits]. rewrite H1.
    split; [exact H'|]. split; [exact Hwf'|]. split; [|lia].
    rewrite Hr. unfold model_edits. cbn [fold_left]. now rewrite Hs1.
Qed.

Lemma X9_round_trip_within_gap_witness :
  exists g',
    apply_edits six_emoji_line [Ins e_acute 3; Del 0 2; Ins [0x4E2D] 1]
    = Some g'
    /\ gap_wf g'
    /\ GapBuffer.get_slice g' (Some 0) (Some (GapBuffer.len g'))
       = model_edits (GapBuffer.to_string six_emoji_line)
           [Ins e_acute 3; Del 0 2; Ins [0x4E2D] 1]
    /\ zlen (GapBuffer.buffer g') = zlen (GapBuffer.buffer six_emoji_line).
Proof.
  apply (X9_round_trip_within_gap
           [Ins e_acute 3; Del 0 2; Ins [0x4E2D] 1] six_emoji_line).
  - exact six_emoji_line_wf.
  - cbn [valid_edits valid_edit].
    split; [split; [repeat constructor | vm_compute; split; congruence]|].
    split; [vm_compute; repeat split; congruence|].
    split; [split; [repeat constructor | vm_compute; split; congruence]|].
    exact I.
  - vm_compute. congruence.
Defined.

(** X10. Round trip on text of one-byte characters, growth included: any
    sequence of valid edits with one-byte text leaves the buffer holding
    what splicing the string gives. *)
Theorem X10_round_trip_single_byte es g :
  gap_wf g -> single_byte (GapBuffer.to_string g) ->
  valid_edits (GapBuffer.to_string g) es -> Forall edit_single_byte es ->
  exists g',
    apply_edits g es = Some g'
    /\ GapBuffer.get_slice g' (Some 0) (Some (GapBuffer.len g'))
       = model_edits (GapBuffer.to_string g) es.
Proof. apply roundtrip_single_byte. Qed.

Lemma X10_round_trip_single_byte_witness :
  exists g',
    apply_edits empty_line [Ins seventeen_a 0; Ins seventeen_a 5; Del 3 20]
    = Some g'
    /\ GapBuffer.get_slice g' (Some 0) (Some (GapBuffer.len g'))
       = model_edits (GapBuffer.to_string empty_line)
           [Ins seventeen_a 0; Ins seventeen_a 5; Del 3 20].
Proof.
  assert (Hsb : single_byte seventeen_a).
  { apply Forall_forall. intros x Hx. apply repeat_spec in Hx. lia. }
  apply (X10_round_trip_single_byte
           [Ins seventeen_a 0; Ins seventeen_a 5; Del 3 20] empty_line).
  - exact empty_line_wf.
  - exact (Forall_nil _).
  - cbn [valid_edits valid_edit].
    split; [split; [apply single_byte_encodable; exact Hsb
                   | vm_compute; split; congruence]|].
    split; [split; [apply single_byte_encodable; exact Hsb
                   | vm_compute; split; congruence]|].
    split; [vm_compute; repeat split; congruence | exact I].
  - constructor; [exact Hsb|]. constructor; [exact Hsb|].
    constructor; [exact I|]. constructor.
Defined.

(** X11. Growth for one-byte text: [_resize_if_needed] leaves a gap of at
    least [text_len] bytes, keeps the text and the invariant, and does
    nothing when the gap is already large enough. *)
Theorem X11_resize_makes_room g text_len :
  gap_wf g -> single_byte (GapBuffer.to_string g) ->
  let g' := GapBuffer._resize_if_needed g text_len in
  gap_wf g'
  /\ GapBuffer.to_string g' = GapBuffer.to_string g
  /\ text_len <= gap_size g'
  /\ (text_len <= gap_size g -> g' = g).
Proof.
  intros Hwf Hsb g'.
  destruct (wf_layout _ Hwf) as (L & G & R & HL & HLR).
  pose proof (single_byte_content g Hwf Hsb) as Hbytes.
  rewrite (layout_content _ _ _ _ HL), zlen_app in Hbytes.
  assert (Hhalf : 0 <= GapBuffer.len g / 2).
  { apply Z.div_pos; [apply zlen_nonneg | lia]. }
  destruct (resize_layout g L G R text_len HL) as (G' & HL' & Hgrow & Hkeep).
  { intros _. unfold GapBuffer.len, GapBuffer.MIN_GAP_SIZE in *. lia. }
  destruct (layout_wf _ _ _ _ _ HL' HLR) as [Hwf' Hs'].
  split; [exact Hwf'|]. split; [exact Hs'|]. split.
  - fold g' in HL'. rewrite (layout_gap_size _ _ _ _ HL').
    destruct (Z.lt_ge_cases (zlen G) text_len) as [Hlt|Hge].
    + specialize (Hgrow Hlt).
      unfold GapBuffer.len, GapBuffer.MIN_GAP_SIZE in *. lia.
    + now rewrite (Hkeep Hge).
  - intros Hfit. now apply resize_not_needed.
Qed.

Lemma X11_resize_makes_room_witness :
  let g' := GapBuffer._resize_if_needed empty_line 40 in
  gap_wf g'
  /\ GapBuffer.to_string g' = GapBuffer.to_string empty_line
  /\ 40 <= gap_size g'
  /\ (40 <= gap_size empty_line -> g' = empty_line).
Proof.
  apply (X11_resize_makes_room empty_line 40).
  - exact empty_line_wf.
  - exact (Forall_nil _).
Defined.

(** ** The editor, further *)

(** X12. Selection normalisation: whichever end the selection was dragged
    from, [get_selection] returns its start before its end, by line first
    and by character offset on one line; its ends are the anchor and the
    cursor; and it returns nothing exactly when no selection is active or
    the anchor line is the initial [-1]. *)
Theorem X12_selection_normalised s :
  match get_selection s with
  | Some (start_y, start_x, end_y, end_x) =>
      is_selecting s = true /\ selection_start_y s <> -1
      /\ (start_y < end_y \/ start_y = end_y /\ start_x <= end_x)
      /\ ((start_y, start_x, end_y, end_x)
          = (selection_start_y s, selection_start_x s, cursor_y s, cursor_x s)
          \/ (start_y, start_x, end_y, end_x)
             = (cursor_y s, cursor_x s, selection_start_y s,
                selection_start_x s))
  | None => is_selecting s = false \/ selection_start_y s = -1
  end.
Proof.
  unfold get_selection. destruct (is_selecting s); cbn [negb orb].
  2:{ now left. }
  destruct (Z.eqb_spec (selection_start_y s) (-1)); [now right|].
  destruct (Z.eqb_spec (selection_start_y s) (cursor_y s)) as [E|E].
  - split; [reflexivity|]. split; [assumption|]. split; [lia|].
    destruct (Z.le_ge_cases (selection_start_x s) (cursor_x s)).
    + left. repeat f_equal; lia.
    + right. repeat f_equal; lia.
  - destruct (Z.ltb_spec (selection_start_y s) (cursor_y s)).
    + split; [reflexivity|]. split; [assumption|]. split; [lia|].
      left. repeat f_equal; lia.
    + split; [reflexivity|]. split; [assumption|]. split; [lia|].
      right. repeat f_equal; lia.
Qed.

Lemma Key_eqb_eq a b : Key_eqb a b = true <-> a = b.
Proof.
  unfold Key_eqb. rewrite Z.eqb_eq. split; [|now intros ->].
  destruct a; destruct b; intros H; try reflexivity; discriminate H.
Qed.

(** X13. The key binding table and its inversion agree: a key dispatches
    to an action exactly when the bindings list the key under that action,
    so no key is bound to two actions and none is lost. *)
Theorem X13_action_map_inverts_bindings key action :
  action_map key = Some action
  <-> exists keys, In (action, keys) DEFAULT_KEY_BINDINGS /\ In key keys.
Proof.
  split.
  - intros H. exists (bindings_get action). destruct key; vm_compute in H;
      try discriminate H; injection H as <-; vm_compute; tauto.
  - intros (keys & Hb & Hk). unfold DEFAULT_KEY_BINDINGS in Hb.
    cbn [In] in Hb.
    repeat (destruct Hb as [Hb|Hb];
            [injection Hb as <- <-; cbn [In] in Hk;
             repeat (destruct Hk as [Hk|Hk]; [subst key; reflexivity|]);
             destruct Hk|]).
    destruct Hb.
Qed.

Lemma py_get_in_range {A} (l : list A) i :
  0 <= i < zlen l -> exists x, py_get l i = Some x.
Proof.
  intros H. unfold py_get. rewrite py_index_nonneg by exact H.
  destruct (nth_error l (Z.to_nat i)) eqn:E; [eauto|].
  apply nth_error_None in E. unfold zlen in H. lia.
Qed.

(** The scanning loops of the word movements end within their fuel. *)
Lemma scan_forward_total (line : pystr) (P : Z -> bool) : forall fuel x,
  0 <= x -> (Z.to_nat (zlen line - x) < fuel)%nat ->
  exists x',
    while_loop fuel
      (fun x => if x <? zlen line
                then c <- py_get line x ;; Some (P c)
                else Some false)
      (fun x => x + 1) x = Some x'
    /\ x <= x'.
Proof.
  induction fuel as [|fuel IH]; intros x Hx Hfuel; [lia|].
  cbn [while_loop]. destruct (Z.ltb_spec x (zlen line)).
  - destruct (py_get_in_range line x ltac:(lia)) as [c ->].
    destruct (P c).
    + destruct (IH (x + 1) ltac:(lia) ltac:(lia)) as (x' & -> & Hle).
      exists x'. split; [reflexivity | lia].
    + exists x. split; [reflexivity | lia].
  - exists x. split; [reflexivity | lia].
Qed.

Lemma scan_backward_total (line : pystr) (P : Z -> bool) : forall fuel x,
  x <= zlen line -> (Z.to_nat x < fuel)%nat ->
  exists x',
    while_loop fuel
      (fun x => if 0 <? x
                then c <- py_get line (x - 1) ;; Some (P c)
                else Some false)
      (fun x => x - 1) x = Some x'
    /\ x' <= x.
Proof.
  induction fuel as [|fuel IH]; intros x Hx Hfuel; [lia|].
  cbn [while_loop]. destruct (Z.ltb_spec 0 x).
  - destruct (py_get_in_range line (x - 1) ltac:(lia)) as [c ->].
    destruct (P c).
    + destruct (IH (x - 1) ltac:(lia) ltac:(lia)) as (x' & -> & Hle).
      exists x'. split; [reflexivity | lia].
    + exists x. split; [reflexivity | lia].
  - exists x. split; [reflexivity | lia].
Qed.

Lemma same_but_cursor_set_x v s : same_but_cursor s (set_cursor_x v s).
Proof. reflexivity. Qed.

Lemma same_but_cursor_set_y v s : same_but_cursor s (set_cursor_y v s).
Proof. reflexivity. Qed.

Lemma same_but_cursor_set_xy vx vy s :
  same_but_cursor s (set_cursor_x vx (set_cursor_y vy s)).
Proof. reflexivity. Qed.

Lemma same_but_cursor_refl s : same_but_cursor s s.
Proof. unfold same_but_cursor. now destruct s. Qed.

Lemma same_but_cursor_trans a b c :
  same_but_cursor a b -> same_but_cursor b c -> same_but_cursor a c.
Proof.
  unfold same_but_cursor, set_cursor_x, set_cursor_y.
  destruct a, b, c. cbn. intros [= -> -> -> -> -> -> -> -> -> -> ->].
  intros [= -> -> -> -> -> -> -> -> -> -> ->]. reflexivity.
Qed.

Lemma line_str_in_range s y :
  0 <= y < zlen (buffer s) -> exists line, line_str s y = Some line.
Proof.
  intros H. unfold line_str. destruct (py_get_in_range _ _ H) as [g ->].
  eauto.
Qed.

(** [clamp_cursor] completes on a document that has a line. *)
Lemma clamp_cursor_total s :
  1 <= zlen (buffer s) ->
  exists s', clamp_cursor s = Some s' /\ same_but_cursor s s'
             /\ cursor_invariant s'.
Proof.
  intros Hn. unfold clamp_cursor. cbv zeta.
  set (s1 := set_cursor_y _ s).
  destruct (line_str_in_range s1 (cursor_y s1)) as [line Hline].
  { unfold s1. cbn [cursor_y buffer set_cursor_y]. lia. }
  exists (set_cursor_x (Z.max 0 (Z.min (cursor_x s1) (zlen line))) s1).
  split; [now rewrite Hline|]. split; [reflexivity|].
  apply (clamp_cursor_invariant s). unfold clamp_cursor. cbv zeta. fold s1.
  now rewrite Hline.
Qed.

(** A cursor movement from a state satisfying the invariant completes and
    changes nothing but the cursor. *)
Lemma do_action_movement_match h s a char ks :
  In a movement_actions -> cursor_invariant s ->
  match do_action h s (Some a) char ks with
  | Some (s', ks') => ks' = ks /\ same_but_cursor s s'
  | None => False
  end.
Proof.
  intros Hin (Hn & Hy & g & Hg & Hx).
  assert (Hline : exists line, line_str s (cursor_y s) = Some line
                               /\ line = GapBuffer.to_string g).
  { unfold line_str. rewrite (py_get_nonneg _ _ g) by (lia || exact Hg).
    eauto. }
  destruct Hline as (line & Hline & Hl).
  assert (Hxl : 0 <= cursor_x s <= zlen line).
  { subst line. exact Hx. }
  assert (Hprev : 0 < cursor_y s ->
            exists l', line_str (set_cursor_y (cursor_y s - 1) s)
                         (cursor_y s - 1) = Some l').
  { intros H. apply line_str_in_range. cbn [buffer set_cursor_y]. lia. }
  assert (Hrefl := same_but_cursor_refl s).
  cbn [In movement_actions] in Hin.
  repeat (destruct Hin as [<-|Hin]); try destruct Hin; cbn [do_action].
  - split; reflexivity.
  - split; reflexivity.
  - (* move_left *)
    destruct (0 <? cursor_x s); [split; reflexivity|].
    destruct (Z.ltb_spec 0 (cursor_y s)); [|split; [reflexivity|exact Hrefl]].
    destruct (Hprev ltac:(lia)) as [l' Hl'].
    cbn [cursor_y set_cursor_y]. rewrite Hl'. split; reflexivity.
  - (* move_right *)
    rewrite Hline. destruct (cursor_x s <? zlen line);
      [split; reflexivity|].
    destruct (cursor_y s <? zlen (buffer s) - 1); split;
      try reflexivity. exact Hrefl.
  - split; reflexivity.
  - rewrite Hline. split; reflexivity.
  - split; reflexivity.
  - split; reflexivity.
  - (* move_prev_word *)
    unfold _find_prev_word.
    destruct ((cursor_x s =? 0) && (0 <? cursor_y s)) eqn:E.
    + apply andb_true_iff in E as [_ E]. apply Z.ltb_lt in E.
      destruct (Hprev E) as [l' Hl'].
      cbn [cursor_y set_cursor_y]. rewrite Hl'. split; reflexivity.
    + rewrite Hline.
      destruct (scan_backward_total line isspace
                  (S (Z.to_nat (cursor_x s - 1))) (cursor_x s - 1)
                  ltac:(lia) ltac:(lia)) as (x1 & E1 & Hx1).
      rewrite E1.
      destruct (scan_backward_total line (fun c => negb (isspace c))
                  (S (Z.to_nat (cursor_x s - 1))) x1
                  ltac:(lia) ltac:(lia)) as (x2 & E2 & Hx2).
      rewrite E2. split; reflexivity.
  - (* move_next_word *)
    unfold _find_next_word. rewrite Hline.
    destruct (scan_forward_total line (fun c => negb (isspace c))
                (S (Z.to_nat (zlen line - cursor_x s))) (cursor_x s)
                ltac:(lia) ltac:(lia)) as (x1 & E1 & Hx1).
    rewrite E1.
    destruct (scan_forward_total line isspace
                (S (Z.to_nat (zlen line - cursor_x s))) x1
                ltac:(lia) ltac:(lia)) as (x2 & E2 & Hx2).
    rewrite E2.
    destruct (zlen line <=? x2); [|split; reflexivity].
    destruct (cursor_y s <? zlen (buffer s) - 1); split; reflexivity.
  - split; reflexivity.
  - (* move_doc_end *)
    destruct (line_str_in_range (set_cursor_y (zlen (buffer s) - 1) s)
                (zlen (buffer s) - 1)) as [l' Hl'].
    { cbn [buffer set_cursor_y]. lia. }
    cbn [cursor_y set_cursor_y]. rewrite Hl'. split; reflexivity.
Qed.

Lemma handle_keypress_unfold h s key char ks :
  handle_keypress h s key char ks
  = (let s2 := after_selection_keys s key in
     s3 <- (if is_selecting s2 && action_in (action_map key) editing_actions
            then delete_selection s2 else Some s2) ;;
     match action_map key with
     | Some quit => do_quit h s3 ks
     | _ =>
         '(s4, ks') <- do_action h s3 (action_map key) char ks ;;
         s5 <- clamp_cursor s4 ;;
         Some (s5, ks')
     end).
Proof. reflexivity. Qed.

Lemma after_selection_keys_same_document s key :
  same_document s (after_selection_keys s key).
Proof.
  unfold after_selection_keys. cbv zeta.
  destruct (key_in key _plain_movement_keys && _);
    destruct (key_in key _shift_movement_keys && _); now split.
Qed.

Lemma same_but_cursor_buffer s s' :
  same_but_cursor s s' -> buffer s' = buffer s.
Proof. intros ->. reflexivity. Qed.

(** A key bound to a cursor movement, pressed in a state satisfying the
    invariant: the key press completes, consumes no further input, and
    differs from the state after the selection keys only by the cursor. *)
Lemma handle_keypress_movement h s key char ks a :
  action_map key = Some a -> In a movement_actions -> cursor_invariant s ->
  exists s',
    handle_keypress h s key char ks = Some (s', ks)
    /\ same_but_cursor (after_selection_keys s key) s'
    /\ cursor_invariant s'.
Proof.
  intros Ha Hin Hinv. rewrite handle_keypress_unfold. cbv zeta. rewrite Ha.
  set (s2 := after_selection_keys s key).
  assert (Hinv2 : cursor_invariant s2).
  { eapply same_document_invariant; [|exact Hinv].
    apply after_selection_keys_same_document. }
  pose proof (do_action_movement_match h s2 a char ks Hin Hinv2) as Hdo.
  assert (Hedit : action_in (Some a) editing_actions = false).
  { cbn [In movement_actions] in Hin.
    repeat (destruct Hin as [<-|Hin]; [reflexivity|]). destruct Hin. }
  rewrite Hedit, andb_false_r.
  destruct (do_action h s2 (Some a) char ks) as [[s4 ks4]|]; [|contradiction].
  destruct Hdo as [-> Hsame].
  destruct (clamp_cursor_total s4) as (s5 & Hclamp & Hsame5 & Hinv5).
  { rewrite (same_but_cursor_buffer _ _ Hsame). apply Hinv2. }
  exists s5. split.
  - cbn [In movement_actions] in Hin.
    repeat (destruct Hin as [<-|Hin]; [now rewrite Hclamp|]). destruct Hin.
  - split; [|exact Hinv5]. eapply same_but_cursor_trans; eauto.
Qed.

Lemma plain_movement_key_facts key :
  key_in key _plain_movement_keys = true ->
  key_in key _shift_movement_keys = false
  /\ exists a, action_map key = Some a /\ In a movement_actions.
Proof.
  destruct key; intros H; try discriminate H;
    (split; [reflexivity|]); eexists; (split; [reflexivity|]);
    cbn [In movement_actions]; tauto.
Qed.

Lemma shift_movement_key_facts key :
  key_in key _shift_movement_keys = true ->
  key_in key _plain_movement_keys = false
  /\ exists a, action_map key = Some a /\ In a movement_actions.
Proof.
  destruct key; intros H; try discriminate H;
    (split; [reflexivity|]); eexists; (split; [reflexivity|]);
    cbn [In movement_actions]; tauto.
Qed.

Lemma same_but_cursor_fields s s' :
  same_but_cursor s s' ->
  buffer s' = buffer s /\ is_dirty s' = is_dirty s
  /\ clipboard s' = clipboard s /\ running s' = running s
  /\ is_selecting s' = is_selecting s
  /\ selection_start_x s' = selection_start_x s
  /\ selection_start_y s' = selection_start_y s
  /\ status_message s' = status_message s
  /\ filename s' = filename s /\ in_memory s' = in_memory s
  /\ help_mode s' = help_mode s.
Proof. intros ->. repeat split. Qed.

(** X14. A plain (non-shift) movement key pressed in a state satisfying
    the cursor invariant: the key press completes without reading further
    input, any active selection is cleared, the document, the dirty flag
    and the clipboard are untouched, and the cursor is again valid. *)
Theorem X14_plain_movement h s key char ks :
  cursor_invariant s ->
  key_in key _plain_movement_keys = true ->
  exists s',
    handle_keypress h s key char ks = Some (s', ks)
    /\ is_selecting s' = false
    /\ buffer s' = buffer s
    /\ is_dirty s' = is_dirty s
    /\ clipboard s' = clipboard s
    /\ running s' = running s
    /\ cursor_invariant s'.
Proof.
  intros Hinv Hkey.
  destruct (plain_movement_key_facts key Hkey) as (Hshift & a & Ha & Hin).
  destruct (handle_keypress_movement h s key char ks a Ha Hin Hinv)
    as (s' & Hk & Hsame & Hinv').
  exists s'. split; [exact Hk|].
  destruct (same_but_cursor_fields _ _ Hsame)
    as (Hb & Hd & Hc & Hr & Hs & _).
  rewrite Hb, Hd, Hc, Hr, Hs.
  unfold after_selection_keys. cbv zeta. rewrite Hkey, Hshift.
  cbn [andb is_selecting set_status_message].
  destruct (is_selecting s) eqn:E;
    cbn [andb negb is_selecting set_status_message set_is_selecting buffer
         is_dirty clipboard running];
    rewrite ?E; repeat (split; [reflexivity|]); exact Hinv'.
Qed.

Lemma X14_plain_movement_witness :
  exists s',
    handle_keypress unix_host selection_state CTRL_LEFT None []
    = Some (s', [])
    /\ is_selecting s' = false
    /\ buffer s' = buffer selection_state
    /\ is_dirty s' = is_dirty selection_state
    /\ clipboard s' = clipboard selection_state
    /\ running s' = running selection_state
    /\ cursor_invariant s'.
Proof.
  apply (X14_plain_movement unix_host selection_state CTRL_LEFT None []).
  - unfold cursor_invariant, selection_state. cbn [buffer cursor_x cursor_y].
    split; [vm_compute; congruence|]. split; [vm_compute; split; congruence|].
    eexists. split; [vm_compute; reflexivity|]. vm_compute. split; congruence.
  - reflexivity.
Defined.

(** X15. A shift movement key pressed in a state satisfying the cursor
    invariant: the key press completes, a selection is active afterwards,
    anchored at the cursor position before the move when none was active
    and at its old anchor otherwise; the document, the dirty flag and the
    clipboard are untouched. *)
Theorem X15_shift_movement h s key char ks :
  cursor_invariant s ->
  key_in key _shift_movement_keys = true ->
  exists s',
    handle_keypress h s key char ks = Some (s', ks)
    /\ is_selecting s' = true
    /\ (selection_start_x s', selection_start_y s')
       = (if is_selecting s
          then (selection_start_x s, selection_start_y s)
          else (cursor_x s, cursor_y s))
    /\ buffer s' = buffer s
    /\ is_dirty s' = is_dirty s
    /\ clipboard s' = clipboard s
    /\ cursor_invariant s'.
Proof.
  intros Hinv Hkey.
  destruct (shift_movement_key_facts key Hkey) as (Hplain & a & Ha & Hin).
  destruct (handle_keypress_movement h s key char ks a Ha Hin Hinv)
    as (s' & Hk & Hsame & Hinv').
  exists s'. split; [exact Hk|].
  destruct (same_but_cursor_fields _ _ Hsame)
    as (Hb & Hd & Hc & Hr & Hs & Hsx & Hsy & _).
  rewrite Hb, Hd, Hc, Hs, Hsx, Hsy.
  unfold after_selection_keys. cbv zeta. rewrite Hkey, Hplain.
  cbn [andb is_selecting set_status_message].
  destruct (is_selecting s) eqn:E;
    cbn [andb negb is_selecting set_status_message set_is_selecting
         set_selection_start buffer is_dirty clipboard running
         selection_start_x selection_start_y cursor_x cursor_y];
    rewrite ?E; repeat (split; [reflexivity|]); exact Hinv'.
Qed.

Lemma X15_shift_movement_witness :
  exists s',
    handle_keypress unix_host blank_state SHIFT_END None [] = Some (s', [])
    /\ is_selecting s' = true
    /\ (selection_start_x s', selection_start_y s')
       = (if is_selecting blank_state
          then (selection_start_x blank_state, selection_start_y blank_state)
          else (cursor_x blank_state, cursor_y blank_state))
    /\ buffer s' = buffer blank_state
    /\ is_dirty s' = is_dirty blank_state
    /\ clipboard s' = clipboard blank_state
    /\ cursor_invariant s'.
Proof.
  apply (X15_shift_movement unix_host blank_state SHIFT_END None []).
  - exact blank_state_invariant.
  - reflexivity.
Defined.

(** ** The editor: editing keys *)

Lemma py_set_nonneg {A} (l : list A) i v :
  0 <= i < zlen l ->
  py_set l i v
  = Some (firstn (Z.to_nat i) l ++ v :: skipn (S (Z.to_nat i)) l).
Proof. intros H. unfold py_set. now rewrite py_index_nonneg. Qed.

Lemma py_list_insert_nonneg {A} (l : list A) i v :
  0 <= i <= zlen l ->
  py_list_insert l i v
  = firstn (Z.to_nat i) l ++ v :: skipn (Z.to_nat i) l.
Proof.
  intros H. unfold py_list_insert.
  now rewrite adjust_index_nonneg, Z.min_l by lia.
Qed.

Lemma py_pop_nonneg {A} (l : list A) i x :
  0 <= i -> nth_error l (Z.to_nat i) = Some x ->
  py_pop l i
  = Some (x, firstn (Z.to_nat i) l ++ skipn (S (Z.to_nat i)) l).
Proof.
  intros Hi Hx. unfold py_pop.
  rewrite py_index_nonneg by eauto using nth_error_zlen. now rewrite Hx.
Qed.

Lemma nth_error_middle {A} (a : list A) x b k :
  k = length a -> nth_error (a ++ x :: b) k = Some x.
Proof. intros ->. rewrite nth_error_app2, Nat.sub_diag by lia. reflexivity. Qed.

Lemma firstn_length_lt {A} (l : list A) k :
  (k < length l)%nat -> length (firstn k l) = k.
Proof. intros H. rewrite length_firstn. lia. Qed.

(** The part of a line before and after a character offset, in bytes. *)
Lemma wf_split_bytes g k :
  gap_wf g ->
  exists e1 e2,
    utf8_encode (firstn k (GapBuffer.to_string g)) = Some e1
    /\ utf8_encode (skipn k (GapBuffer.to_string g)) = Some e2
    /\ GapBuffer.content g = e1 ++ e2.
Proof.
  intros (_ & _ & Henc). now apply encode_split.
Qed.

(** Cutting a line at a character offset with [delete], as Enter and paste
    do: the line keeps the text before the offset, and the gap has room for
    the text cut off. *)
Lemma delete_to_end g x :
  gap_wf g -> 0 <= x <= GapBuffer.len g ->
  exists g1,
    GapBuffer.delete g x (GapBuffer.len g - x) = Some g1
    /\ gap_wf g1
    /\ GapBuffer.to_string g1 = firstn (Z.to_nat x) (GapBuffer.to_string g)
    /\ (forall enc,
          utf8_encode (skipn (Z.to_nat x) (GapBuffer.to_string g)) = Some enc ->
          zlen enc <= gap_size g1).
Proof.
  intros Hwf Hx.
  destruct (wf_split_bytes g (Z.to_nat x) Hwf) as (e1 & e2 & H1 & H2 & Hc).
  assert (Hgap : 0 <= gap_size g) by (unfold gap_size; destruct Hwf; lia).
  destruct (Z.eq_dec x (GapBuffer.len g)) as [->|Hne].
  - exists g. rewrite delete_nonpositive by lia.
    split; [reflexivity|]. split; [exact Hwf|]. split.
    + unfold GapBuffer.len, zlen. rewrite Nat2Z.id. now rewrite firstn_all.
    + intros enc Henc. unfold GapBuffer.len, zlen in Henc.
      rewrite Nat2Z.id, skipn_all in Henc. injection Henc as <-.
      exact Hgap.
  - destruct (delete_spec g _ x (GapBuffer.len g - x) Hwf eq_refl
                ltac:(lia) ltac:(lia)) as (g1 & Hd & Hwf1 & Hs1 & _).
    exists g1. split; [exact Hd|]. split; [exact Hwf1|].
    assert (Hs1' : GapBuffer.to_string g1
                   = firstn (Z.to_nat x) (GapBuffer.to_string g)).
    { rewrite Hs1. replace (x + (GapBuffer.len g - x)) with (GapBuffer.len g)
        by lia.
      unfold GapBuffer.len, zlen. rewrite Nat2Z.id, skipn_all.
      apply app_nil_r. }
    split; [exact Hs1'|]. intros enc Henc.
    rewrite H2 in Henc. injection Henc as <-.
    pose proof (delete_keeps_buffer_size g _ _ g1 Hwf Hd) as Hlen.
    pose proof (wf_content_length _ Hwf) as Hcg.
    pose proof (wf_content_length _ Hwf1) as Hcg1.
    destruct Hwf1 as (_ & _ & Henc1). rewrite Hs1', H1 in Henc1.
    injection Henc1 as Henc1. rewrite <- Henc1 in Hcg1.
    rewrite Hc, zlen_app in Hcg. lia.
Qed.

(** The state Enter leads to, with what is known of its two new lines. *)
Lemma enter_splits_line h s char ks g :
  is_selecting s = false ->
  0 <= cursor_y s ->
  nth_error (buffer s) (Z.to_nat (cursor_y s)) = Some g ->
  gap_wf g -> 0 <= cursor_x s <= GapBuffer.len g ->
  exists g1 g2,
    handle_keypress h s ENTER char ks
    = Some (set_cursor_x 0
              (set_cursor_y (cursor_y s + 1)
                 (set_buffer
                    (firstn (Z.to_nat (cursor_y s)) (buffer s)
                     ++ g1 :: g2 :: skipn (S (Z.to_nat (cursor_y s))) (buffer s))
                    (set_is_dirty true
                       (set_status_message HELP_STATUS s)))), ks)
    /\ gap_wf g1
    /\ GapBuffer.to_string g1
       = firstn (Z.to_nat (cursor_x s)) (GapBuffer.to_string g)
    /\ gap_wf g2
    /\ GapBuffer.to_string g2
       = skipn (Z.to_nat (cursor_x s)) (GapBuffer.to_string g)
    /\ (forall enc,
          utf8_encode (GapBuffer.to_string g2) = Some enc ->
          zlen enc <= gap_size g1).
Proof.
  intros Hsel Hy Hg Hwf Hx.
  pose proof (nth_error_zlen _ _ _ Hy Hg) as Hrange.
  destruct (delete_to_end g (cursor_x s) Hwf Hx)
    as (g1 & Hd & Hwf1 & Hs1 & Hroom).
  destruct (init_spec (skipn (Z.to_nat (cursor_x s)) (GapBuffer.to_string g)))
    as (g2 & Hi & Hwf2 & Hs2).
  { apply encodable_skipn, decode_encodable. }
  exists g1, g2.
  split; [|split; [exact Hwf1|split; [exact Hs1|split; [exact Hwf2|
           split; [exact Hs2|now rewrite Hs2]]]]].
  rewrite handle_keypress_unfold. cbv zeta.
  change (action_map ENTER) with (Some insert_newline).
  change (after_selection_keys s ENTER) with (set_status_message HELP_STATUS s).
  cbn [is_selecting set_status_message]. rewrite Hsel. cbn [andb].
  cbn [do_action buffer cursor_x cursor_y set_is_dirty set_status_message].
  rewrite (py_get_nonneg _ _ g Hy Hg).
  unfold GapBuffer.get_slice. rewrite slice_suffix by lia.
  rewrite Hd, py_set_nonneg by exact Hrange. rewrite Hi.
  set (k := Z.to_nat (cursor_y s)).
  assert (Hk : (k < length (buffer s))%nat) by (unfold zlen in Hrange; lia).
  rewrite py_list_insert_nonneg.
  2:{ rewrite zlen_app, zlen_cons. unfold zlen.
      rewrite length_firstn, length_skipn. lia. }
  replace (Z.to_nat (cursor_y s + 1))
    with (length (firstn k (buffer s)) + 1)%nat
    by (rewrite firstn_length_lt; lia).
  rewrite firstn_app_2, skipn_app_ge by lia.
  replace (length (firstn k (buffer s)) + 1 - length (firstn k (buffer s)))%nat
    with 1%nat by lia.
  change (firstn 1 (g1 :: skipn (S k) (buffer s))) with [g1].
  change (skipn 1 (g1 :: skipn (S k) (buffer s))) with (skipn (S k) (buffer s)).
  rewrite <- app_assoc. cbn [app].
  set (b' := firstn k (buffer s) ++ g1 :: g2 :: skipn (S k) (buffer s)).
  (* the final clamp leaves the cursor at the start of the new line *)
  unfold clamp_cursor, line_str. cbv zeta.
  cbn [cursor_x cursor_y buffer set_cursor_x set_cursor_y set_buffer].
  assert (Hlen' : zlen b' = zlen (buffer s) + 1).
  { unfold b'. rewrite zlen_app, !zlen_cons. unfold zlen.
    rewrite length_firstn, length_skipn. lia. }
  replace (Z.max 0 (Z.min (cursor_y s + 1) (zlen b' - 1)))
    with (cursor_y s + 1) by lia.
  rewrite (py_get_nonneg b' (cursor_y s + 1) g2).
  2:{ lia. }
  2:{ unfold b'. replace (Z.to_nat (cursor_y s + 1)) with (S k) by lia.
      rewrite (app_assoc _ [g1] (g2 :: _)) || idtac.
      change (g1 :: g2 :: skipn (S k) (buffer s))
        with ([g1] ++ g2 :: skipn (S k) (buffer s)).
      rewrite app_assoc. apply nth_error_middle.
      rewrite length_app, firstn_length_lt by lia. simpl. lia. }
  pose proof (zlen_nonneg (GapBuffer.to_string g2)).
  replace (Z.max 0 (Z.min 0 (zlen (GapBuffer.to_string g2)))) with 0 by lia.
  reflexivity.
Qed.

Lemma document_set_buffer b s : document (set_buffer b s) = map GapBuffer.to_string b.
Proof. reflexivity. Qed.

(** X16. Enter, with no selection active, on a line satisfying the gap
    buffer invariant (any Unicode text): the line is split at the cursor
    into the text before it and the text after it, the other lines are
    untouched, the cursor moves to column 0 of the new next line and the
    document is marked dirty. *)
Theorem X16_enter_splits_line h s char ks g :
  is_selecting s = false ->
  0 <= cursor_y s ->
  nth_error (buffer s) (Z.to_nat (cursor_y s)) = Some g ->
  gap_wf g -> 0 <= cursor_x s <= GapBuffer.len g ->
  exists s',
    handle_keypress h s ENTER char ks = Some (s', ks)
    /\ document s'
       = firstn (Z.to_nat (cursor_y s)) (document s)
         ++ [firstn (Z.to_nat (cursor_x s)) (GapBuffer.to_string g);
             skipn (Z.to_nat (cursor_x s)) (GapBuffer.to_string g)]
         ++ skipn (S (Z.to_nat (cursor_y s))) (document s)
    /\ cursor_y s' = cursor_y s + 1 /\ cursor_x s' = 0
    /\ is_dirty s' = true.
Proof.
  intros Hsel Hy Hg Hwf Hx.
  destruct (enter_splits_line h s char ks g Hsel Hy Hg Hwf Hx)
    as (g1 & g2 & Hk & _ & Hs1 & _ & Hs2 & _).
  eexists. split; [exact Hk|]. split; [|repeat split].
  unfold document. cbn [buffer set_cursor_x set_cursor_y set_buffer].
  rewrite map_app. cbn [map app]. rewrite Hs1, Hs2.
  now rewrite firstn_map, skipn_map.
Qed.

Lemma abc_line_wf : gap_wf abc_line.
Proof. unfold gap_wf. vm_compute. repeat split; congruence. Qed.

Lemma X16_enter_splits_line_witness :
  exists s',
    handle_keypress unix_host dirty_state ENTER None [] = Some (s', [])
    /\ document s'
       = firstn (Z.to_nat (cursor_y dirty_state)) (document dirty_state)
         ++ [firstn (Z.to_nat (cursor_x dirty_state))
               (GapBuffer.to_string abc_line);
             skipn (Z.to_nat (cursor_x dirty_state))
               (GapBuffer.to_string abc_line)]
         ++ skipn (S (Z.to_nat (cursor_y dirty_state))) (document dirty_state)
    /\ cursor_y s' = cursor_y dirty_state + 1 /\ cursor_x s' = 0
    /\ is_dirty s' = true.
Proof.
  apply (X16_enter_splits_line unix_host dirty_state None [] abc_line).
  - reflexivity.
  - vm_compute. congruence.
  - reflexivity.
  - exact abc_line_wf.
  - vm_compute. split; congruence.
Defined.

(** Backspace at the start of a line that has a line before it. *)
Lemma backspace_joins_lines h s char ks ga gb enc :
  is_selecting s = false ->
  cursor_x s = 0 -> 0 < cursor_y s ->
  nth_error (buffer s) (Z.to_nat (cursor_y s - 1)) = Some ga ->
  nth_error (buffer s) (Z.to_nat (cursor_y s)) = Some gb ->
  gap_wf ga ->
  utf8_encode (GapBuffer.to_string gb) = Some enc ->
  (zlen enc <= gap_size ga
   \/ zlen (GapBuffer.content ga) + zlen enc
      <= GapBuffer.len ga
         + Z.max (Z.max GapBuffer.MIN_GAP_SIZE (zlen enc))
             (GapBuffer.len ga / 2)) ->
  exists g',
    handle_keypress h s BACKSPACE char ks
    = Some (set_buffer
              (firstn (Z.to_nat (cursor_y s - 1)) (buffer s)
               ++ g' :: skipn (S (Z.to_nat (cursor_y s))) (buffer s))
              (set_cursor_x (GapBuffer.len ga)
                 (set_cursor_y (cursor_y s - 1)
                    (set_is_dirty true
                       (set_status_message HELP_STATUS s)))), ks)
    /\ gap_wf g'
    /\ GapBuffer.to_string g'
       = GapBuffer.to_string ga ++ GapBuffer.to_string gb.
Proof.
  intros Hsel Hx0 Hy Hga Hgb Hwfa Henc Hfit.
  assert (Hrange : 0 <= cursor_y s < zlen (buffer s))
    by (apply (nth_error_zlen _ _ gb); [lia | exact Hgb]).
  destruct (insert_spec ga _ (GapBuffer.to_string gb) enc _
              (GapBuffer.len ga) Hwfa eq_refl Henc eq_refl Hfit)
    as (g' & Hins & Hwf' & Hs').
  assert (Hs'' : GapBuffer.to_string g'
                 = GapBuffer.to_string ga ++ GapBuffer.to_string gb).
  { rewrite Hs'. unfold GapBuffer.len.
    pose proof (zlen_nonneg (GapBuffer.to_string ga)).
    rewrite adjust_index_nonneg, Z.min_id by lia.
    unfold zlen. rewrite Nat2Z.id, firstn_all, skipn_all.
    now rewrite app_nil_r. }
  exists g'. split; [|split; [exact Hwf'|exact Hs'']].
  set (k := Z.to_nat (cursor_y s - 1)).
  assert (Hk : Z.to_nat (cursor_y s) = S k) by lia.
  assert (Hklen : (S k < length (buffer s))%nat)
    by (unfold zlen in Hrange; lia).
  set (b1 := firstn (S k) (buffer s) ++ skipn (S (S k)) (buffer s)).
  assert (Hb1 : nth_error b1 k = Some ga).
  { unfold b1. rewrite nth_error_app1 by (rewrite length_firstn; lia).
    rewrite nth_error_firstn.
    destruct (Nat.ltb_spec k (S k)); [exact Hga|lia]. }
  assert (Hb1len : zlen b1 = zlen (buffer s) - 1).
  { unfold b1. rewrite zlen_app. unfold zlen.
    rewrite length_firstn, length_skipn. lia. }
  rewrite handle_keypress_unfold. cbv zeta.
  change (action_map BACKSPACE) with (Some delete_back).
  change (after_selection_keys s BACKSPACE)
    with (set_status_message HELP_STATUS s).
  cbn [is_selecting set_status_message]. rewrite Hsel. cbn [andb].
  cbn [do_action buffer cursor_x cursor_y set_is_dirty set_status_message].
  rewrite Hx0. change (0 <? 0) with false. cbv iota.
  destruct (Z.ltb_spec 0 (cursor_y s)); [|lia].
  rewrite (py_pop_nonneg _ _ gb) by (lia || exact Hgb).
  rewrite Hk. fold b1.
  unfold line_str.
  cbn [buffer cursor_x cursor_y set_cursor_x set_cursor_y set_buffer
       set_is_dirty set_status_message].
  rewrite (py_get_nonneg b1 (cursor_y s - 1) ga) by (lia || exact Hb1).
  fold (GapBuffer.len ga). rewrite Hins.
  rewrite py_set_nonneg by lia. fold k.
  assert (Hf : firstn k b1 = firstn k (buffer s)).
  { unfold b1. rewrite firstn_app, firstn_firstn.
    replace (Nat.min k (S k)) with k by lia.
    replace (k - length (firstn (S k) (buffer s)))%nat with 0%nat
      by (rewrite length_firstn; lia).
    cbn [firstn]. apply app_nil_r. }
  assert (Hsk : skipn (S k) b1 = skipn (S (S k)) (buffer s)).
  { unfold b1. rewrite skipn_app.
    rewrite (skipn_all2 (n := S k)) by (rewrite length_firstn; lia).
    replace (S k - length (firstn (S k) (buffer s)))%nat with 0%nat
      by (rewrite length_firstn; lia).
    reflexivity. }
  rewrite Hf, Hsk.
  set (b2 := firstn k (buffer s) ++ g' :: skipn (S (S k)) (buffer s)).
  unfold clamp_cursor, line_str. cbv zeta.
  cbn [cursor_x cursor_y buffer set_cursor_x set_cursor_y set_buffer].
  assert (Hb2len : zlen b2 = zlen (buffer s) - 1).
  { unfold b2. rewrite zlen_app, zlen_cons. unfold zlen.
    rewrite length_firstn, length_skipn. lia. }
  replace (Z.max 0 (Z.min (cursor_y s - 1) (zlen b2 - 1)))
    with (cursor_y s - 1) by lia.
  rewrite (py_get_nonneg b2 (cursor_y s - 1) g').
  2:{ lia. }
  2:{ unfold b2. fold k. apply nth_error_middle.
      rewrite length_firstn. lia. }
  rewrite Hs'', zlen_app.
  pose proof (zlen_nonneg (GapBuffer.to_string ga)).
  pose proof (zlen_nonneg (GapBuffer.to_string gb)).
  unfold GapBuffer.len.
  replace (Z.max 0 (Z.min (zlen (GapBuffer.to_string ga))
                      (zlen (GapBuffer.to_string ga)
                       + zlen (GapBuffer.to_string gb))))
    with (zlen (GapBuffer.to_string ga)) by lia.
  destruct s. reflexivity.
Qed.

Lemma nth_error_decompose {A} (l : list A) k x :
  nth_error l k = Some x -> l = firstn k l ++ x :: skipn (S k) l.
Proof.
  revert k. induction l as [|y l IH]; intros [|k] H; try discriminate.
  - injection H as ->. reflexivity.
  - cbn [firstn skipn app]. f_equal. now apply IH.
Qed.

(** X17. Enter then Backspace is the identity on the document when no
    selection is active and the cursor is within a line whose buffer
    satisfies the gap buffer invariant, whatever the byte width of its
    characters: both key presses complete, the document and the cursor are
    as before, and the document is marked dirty.  (The text cut off by
    Enter always fits the gap it left.) *)
Theorem X17_enter_then_backspace h s char1 char2 ks g :
  is_selecting s = false ->
  0 <= cursor_y s ->
  nth_error (buffer s) (Z.to_nat (cursor_y s)) = Some g ->
  gap_wf g -> 0 <= cursor_x s <= GapBuffer.len g ->
  exists s1 s2,
    handle_keypress h s ENTER char1 ks = Some (s1, ks)
    /\ handle_keypress h s1 BACKSPACE char2 ks = Some (s2, ks)
    /\ document s2 = document s
    /\ cursor_y s2 = cursor_y s /\ cursor_x s2 = cursor_x s
    /\ is_dirty s2 = true.
Proof.
  intros Hsel Hy Hg Hwf Hx.
  destruct (enter_splits_line h s char1 ks g Hsel Hy Hg Hwf Hx)
    as (g1 & g2 & Hk1 & Hwf1 & Hs1 & Hwf2 & Hs2 & Hroom).
  set (k := Z.to_nat (cursor_y s)) in *.
  assert (Hklen : (k < length (buffer s))%nat).
  { apply nth_error_Some. congruence. }
  set (s1 := set_cursor_x 0 _) in Hk1.
  assert (Hlenk : length (firstn k (buffer s)) = k)
    by (apply firstn_length_lt; exact Hklen).
  destruct (backspace_joins_lines h s1 char2 ks g1 g2 (GapBuffer.content g2))
    as (g' & Hk2 & Hwf' & Hs').
  - exact Hsel.
  - reflexivity.
  - unfold s1. cbn [cursor_y set_cursor_x set_cursor_y]. lia.
  - unfold s1. cbn [cursor_y buffer set_cursor_x set_cursor_y set_buffer].
    replace (Z.to_nat (cursor_y s + 1 - 1)) with k by lia.
    now apply nth_error_middle.
  - unfold s1. cbn [cursor_y buffer set_cursor_x set_cursor_y set_buffer].
    replace (Z.to_nat (cursor_y s + 1)) with (S k) by lia.
    change (g1 :: g2 :: skipn (S k) (buffer s))
      with ([g1] ++ g2 :: skipn (S k) (buffer s)).
    rewrite app_assoc. apply nth_error_middle.
    rewrite length_app, Hlenk. simpl. lia.
  - exact Hwf1.
  - apply Hwf2.
  - left. apply Hroom. apply Hwf2.
  - exists s1. eexists. split; [exact Hk1|]. split; [exact Hk2|].
    unfold s1.
    cbn [cursor_x cursor_y buffer is_dirty set_buffer set_cursor_x
         set_cursor_y set_is_dirty set_status_message].
    split; [|split; [lia|split; [|reflexivity]]].
    + unfold document. cbn [buffer set_buffer].
      replace (Z.to_nat (cursor_y s + 1 - 1)) with k by lia.
      replace (Z.to_nat (cursor_y s + 1)) with (S k) by lia.
      rewrite firstn_app, Hlenk, Nat.sub_diag, firstn_all2 by lia.
      cbn [firstn]. rewrite app_nil_r.
      replace (skipn (S (S k)) (firstn k (buffer s) ++ g1 :: g2
                                :: skipn (S k) (buffer s)))
        with (skipn (S k) (buffer s)).
      2:{ change (g1 :: g2 :: skipn (S k) (buffer s))
            with ([g1; g2] ++ skipn (S k) (buffer s)).
          rewrite app_assoc. symmetry. apply skipn_length_app.
          rewrite length_app, Hlenk. simpl. lia. }
      rewrite map_app. cbn [map]. rewrite Hs', Hs1, Hs2, firstn_skipn.
      rewrite (nth_error_decompose (buffer s) k g Hg) at 3.
      now rewrite map_app.
    + unfold GapBuffer.len. rewrite Hs1. unfold zlen.
      rewrite length_firstn. unfold GapBuffer.len, zlen in Hx. lia.
Qed.

Lemma X17_enter_then_backspace_witness :
  exists s1 s2,
    handle_keypress unix_host selection_state_off ENTER None []
    = Some (s1, [])
    /\ handle_keypress unix_host s1 BACKSPACE None [] = Some (s2, [])
    /\ document s2 = document selection_state_off
    /\ cursor_y s2 = cursor_y selection_state_off
    /\ cursor_x s2 = cursor_x selection_state_off
    /\ is_dirty s2 = true.
Proof.
  destruct (init_spec (py "mnopqr")) as (g & Hi & Hwf & _).
  { repeat constructor. }
  apply (X17_enter_then_backspace unix_host selection_state_off None None []
           g).
  - reflexivity.
  - vm_compute. congruence.
  - vm_compute in Hi. injection Hi as <-. reflexivity.
  - exact Hwf.
  - vm_compute in Hi. injection Hi as <-. vm_compute. split; congruence.
Defined.

(** X18. Backspace at the start of a line other than the first joins it to
    the line before: with no selection active, the buffer of the previous
    line satisfying the gap buffer invariant, and the bytes of the current
    line fitting the previous line's gap or the previous line being
    one-byte text, the two lines become one, the cursor lands where they
    meet, and the document is marked dirty. *)
Theorem X18_backspace_joins_lines h s char ks ga gb enc :
  is_selecting s = false ->
  cursor_x s = 0 -> 0 < cursor_y s ->
  nth_error (buffer s) (Z.to_nat (cursor_y s - 1)) = Some ga ->
  nth_error (buffer s) (Z.to_nat (cursor_y s)) = Some gb ->
  gap_wf ga ->
  utf8_encode (GapBuffer.to_string gb) = Some enc ->
  zlen enc <= gap_size ga \/ single_byte (GapBuffer.to_string ga) ->
  exists s',
    handle_keypress h s BACKSPACE char ks = Some (s', ks)
    /\ document s'
       = firstn (Z.to_nat (cursor_y s - 1)) (document s)
         ++ [GapBuffer.to_string ga ++ GapBuffer.to_string gb]
         ++ skipn (S (Z.to_nat (cursor_y s))) (document s)
    /\ cursor_y s' = cursor_y s - 1
    /\ cursor_x s' = GapBuffer.len ga
    /\ is_dirty s' = true.
Proof.
  intros Hsel Hx0 Hy Hga Hgb Hwfa Henc Hfit.
  destruct (backspace_joins_lines h s char ks ga gb enc Hsel Hx0 Hy Hga Hgb
              Hwfa Henc) as (g' & Hk & _ & Hs').
  { destruct Hfit as [Hfit|Hsb]; [now left|right].
    rewrite (single_byte_content ga Hwfa Hsb).
    unfold GapBuffer.len, GapBuffer.MIN_GAP_SIZE. lia. }
  eexists. split; [exact Hk|]. split; [|repeat split].
  unfold document. cbn [buffer set_buffer].
  rewrite map_app. cbn [map app]. rewrite Hs'.
  now rewrite firstn_map, skipn_map.
Qed.

Lemma X18_backspace_joins_lines_witness :
  exists s',
    handle_keypress unix_host
      (editor_at [abc_line; e_acute_line] 1 0 []) BACKSPACE None []
    = Some (s', [])
    /\ document s'
       = firstn (Z.to_nat (1 - 1)) (document (editor_at [abc_line; e_acute_line] 1 0 []))
         ++ [GapBuffer.to_string abc_line ++ GapBuffer.to_string e_acute_line]
         ++ skipn (S (Z.to_nat 1))
              (document (editor_at [abc_line; e_acute_line] 1 0 []))
    /\ cursor_y s' = 1 - 1
    /\ cursor_x s' = GapBuffer.len abc_line
    /\ is_dirty s' = true.
Proof.
  apply (X18_backspace_joins_lines unix_host
           (editor_at [abc_line; e_acute_line] 1 0 []) None []
           abc_line e_acute_line [0xC3; 0xA9]).
  - reflexivity.
  - reflexivity.
  - reflexivity.
  - reflexivity.
  - reflexivity.
  - exact abc_line_wf.
  - reflexivity.
  - left. vm_compute. congruence.
Defined.

(** Replacing the cursor's line in place and moving the cursor within the
    new line: what the final [clamp_cursor] leaves. *)
Lemma clamp_after_line_edit s b x g' :
  0 <= cursor_y s ->
  nth_error b (Z.to_nat (cursor_y s)) = Some g' ->
  0 <= x <= GapBuffer.len g' ->
  clamp_cursor (set_cursor_x x (set_buffer b s))
  = Some (set_cursor_x x (set_buffer b s)).
Proof.
  intros Hy Hg Hx.
  assert (Hr : 0 <= cursor_y s < zlen b)
    by (apply (nth_error_zlen _ _ g'); [lia | exact Hg]).
  unfold clamp_cursor, line_str. cbv zeta.
  cbn [cursor_x cursor_y buffer set_cursor_x set_cursor_y set_buffer].
  replace (Z.max 0 (Z.min (cursor_y s) (zlen b - 1))) with (cursor_y s) by lia.
  rewrite (py_get_nonneg b (cursor_y s) g') by (lia || exact Hg).
  unfold GapBuffer.len in Hx.
  replace (Z.max 0 (Z.min x (zlen (GapBuffer.to_string g')))) with x by lia.
  destruct s. reflexivity.
Qed.

(** X19. Backspace and Delete inside a line remove exactly one character,
    whatever its size in bytes, when no selection is active, the cursor is
    within its line and the buffer of that line satisfies the gap buffer
    invariant: Backspace with the cursor after a character removes the
    character before the cursor and moves the cursor back by one; Delete
    with the cursor before a character removes that character and leaves
    the cursor; the other lines are untouched and the document is marked
    dirty. *)
Theorem X19_delete_one_character h s char ks g :
  is_selecting s = false ->
  0 <= cursor_y s ->
  nth_error (buffer s) (Z.to_nat (cursor_y s)) = Some g ->
  gap_wf g -> 0 <= cursor_x s <= GapBuffer.len g ->
  (0 < cursor_x s ->
   exists s',
     handle_keypress h s BACKSPACE char ks = Some (s', ks)
     /\ document s'
        = firstn (Z.to_nat (cursor_y s)) (document s)
          ++ [firstn (Z.to_nat (cursor_x s - 1)) (GapBuffer.to_string g)
              ++ skipn (Z.to_nat (cursor_x s)) (GapBuffer.to_string g)]
          ++ skipn (S (Z.to_nat (cursor_y s))) (document s)
     /\ cursor_y s' = cursor_y s /\ cursor_x s' = cursor_x s - 1
     /\ is_dirty s' = true)
  /\ (cursor_x s < GapBuffer.len g ->
      exists s',
        handle_keypress h s DELETE char ks = Some (s', ks)
        /\ document s'
           = firstn (Z.to_nat (cursor_y s)) (document s)
             ++ [firstn (Z.to_nat (cursor_x s)) (GapBuffer.to_string g)
                 ++ skipn (Z.to_nat (cursor_x s + 1)) (GapBuffer.to_string g)]
             ++ skipn (S (Z.to_nat (cursor_y s))) (document s)
        /\ cursor_y s' = cursor_y s /\ cursor_x s' = cursor_x s
        /\ is_dirty s' = true).
Proof.
  intros Hsel Hy Hg Hwf Hx.
  assert (Hrange : 0 <= cursor_y s < zlen (buffer s))
    by (apply (nth_error_zlen _ _ g); [lia | exact Hg]).
  set (k := Z.to_nat (cursor_y s)).
  assert (Hklen : (k < length (buffer s))%nat)
    by (unfold zlen in Hrange; lia).
  assert (Hdoc : forall g',
             map GapBuffer.to_string
               (firstn k (buffer s) ++ g' :: skipn (S k) (buffer s))
             = firstn k (document s) ++ [GapBuffer.to_string g']
               ++ skipn (S k) (document s)).
  { intros g'. unfold document. rewrite map_app. cbn [map app].
    now rewrite firstn_map, skipn_map. }
  assert (Hlen : zlen (GapBuffer.to_string g) = GapBuffer.len g)
    by reflexivity.
  split.
  - intros Hpos.
    destruct (delete_spec g _ (cursor_x s - 1) 1 Hwf eq_refl
                ltac:(lia) ltac:(lia)) as (g' & Hd & Hwf' & Hs' & _).
    replace (cursor_x s - 1 + 1) with (cursor_x s) in Hs' by lia.
    exists (set_cursor_x (cursor_x s - 1)
              (set_buffer (firstn k (buffer s) ++ g' :: skipn (S k) (buffer s))
                 (set_is_dirty true (set_status_message HELP_STATUS s)))).
    split; [|split; [|repeat split]].
    + rewrite handle_keypress_unfold. cbv zeta.
      change (action_map BACKSPACE) with (Some delete_back).
      change (after_selection_keys s BACKSPACE)
        with (set_status_message HELP_STATUS s).
      cbn [is_selecting set_status_message]. rewrite Hsel. cbn [andb].
      cbn [do_action buffer cursor_x cursor_y set_is_dirty
           set_status_message].
      destruct (Z.ltb_spec 0 (cursor_x s)); [|lia].
      rewrite (py_get_nonneg _ _ g Hy Hg), Hd.
      rewrite py_set_nonneg by exact Hrange. fold k.
      rewrite (clamp_after_line_edit _ _ _ g'); [reflexivity|exact Hy| |].
      * cbn [cursor_y set_is_dirty set_status_message]. fold k.
        apply nth_error_middle. now rewrite firstn_length_lt.
      * unfold GapBuffer.len in *. rewrite Hs', zlen_app. unfold zlen in *.
        rewrite length_firstn, length_skipn. lia.
    + cbn [buffer set_cursor_x set_buffer document]. unfold document at 1.
      cbn [buffer set_cursor_x set_buffer]. rewrite Hdoc, Hs'. reflexivity.
  - intros Hlt.
    destruct (delete_spec g _ (cursor_x s) 1 Hwf eq_refl
                ltac:(lia) ltac:(lia)) as (g' & Hd & Hwf' & Hs' & _).
    exists (set_cursor_x (cursor_x s)
              (set_buffer (firstn k (buffer s) ++ g' :: skipn (S k) (buffer s))
                 (set_is_dirty true (set_status_message HELP_STATUS s)))).
    split; [|split; [|repeat split]].
    + rewrite handle_keypress_unfold. cbv zeta.
      change (action_map DELETE) with (Some delete_forward).
      change (after_selection_keys s DELETE)
        with (set_status_message HELP_STATUS s).
      cbn [is_selecting set_status_message]. rewrite Hsel. cbn [andb].
      cbn [do_action buffer cursor_x cursor_y set_is_dirty
           set_status_message].
      unfold line_str.
      cbn [buffer cursor_x cursor_y set_is_dirty set_status_message].
      rewrite (py_get_nonneg _ _ g Hy Hg).
      destruct (Z.ltb_spec (cursor_x s) (zlen (GapBuffer.to_string g)));
        [|unfold GapBuffer.len in Hlt; lia].
      rewrite Hd. rewrite py_set_nonneg by exact Hrange. fold k.
      replace (set_buffer (firstn k (buffer s) ++ g' :: skipn (S k) (buffer s))
                 (set_is_dirty true (set_status_message HELP_STATUS s)))
        with (set_cursor_x (cursor_x s)
                (set_buffer
                   (firstn k (buffer s) ++ g' :: skipn (S k) (buffer s))
                   (set_is_dirty true (set_status_message HELP_STATUS s))))
        by (destruct s; reflexivity).
      rewrite (clamp_after_line_edit _ _ _ g'); [reflexivity|exact Hy| |].
      * cbn [cursor_y set_is_dirty set_status_message]. fold k.
        apply nth_error_middle. now rewrite firstn_length_lt.
      * unfold GapBuffer.len in *. rewrite Hs', zlen_app. unfold zlen in *.
        rewrite length_firstn, length_skipn. lia.
    + unfold document at 1.
      cbn [buffer set_cursor_x set_buffer]. rewrite Hdoc, Hs'. reflexivity.
Qed.

Lemma X19_delete_one_character_witness :
  (exists s',
     handle_keypress unix_host (editor_at [six_emoji_line] 0 3 []) BACKSPACE
       None [] = Some (s', [])
     /\ document s'
        = firstn (Z.to_nat 0) (document (editor_at [six_emoji_line] 0 3 []))
          ++ [firstn (Z.to_nat (3 - 1)) (GapBuffer.to_string six_emoji_line)
              ++ skipn (Z.to_nat 3) (GapBuffer.to_string six_emoji_line)]
          ++ skipn (S (Z.to_nat 0))
               (document (editor_at [six_emoji_line] 0 3 []))
     /\ cursor_y s' = 0 /\ cursor_x s' = 3 - 1
     /\ is_dirty s' = true)
  /\ (exists s',
        handle_keypress unix_host (editor_at [six_emoji_line] 0 3 []) DELETE
          None [] = Some (s', [])
        /\ document s'
           = firstn (Z.to_nat 0)
               (document (editor_at [six_emoji_line] 0 3 []))
             ++ [firstn (Z.to_nat 3) (GapBuffer.to_string six_emoji_line)
                 ++ skipn (Z.to_nat (3 + 1))
                      (GapBuffer.to_string six_emoji_line)]
             ++ skipn (S (Z.to_nat 0))
                  (document (editor_at [six_emoji_line] 0 3 []))
        /\ cursor_y s' = 0 /\ cursor_x s' = 3
        /\ is_dirty s' = true).
Proof.
  destruct (X19_delete_one_character unix_host
              (editor_at [six_emoji_line] 0 3 []) None [] six_emoji_line)
    as [Hback Hfwd].
  - reflexivity.
  - vm_compute. congruence.
  - reflexivity.
  - exact six_emoji_line_wf.
  - vm_compute. split; congruence.
  - split.
    + apply Hback. reflexivity.
    + apply Hfwd. reflexivity.
Defined.

(** X20. Typing inserts the text at the cursor: with no selection active,
    the cursor within its line, the buffer of that line satisfying the gap
    buffer invariant, the typed text encodable, and its bytes fitting the
    line's gap or the line being one-byte text, the text is inserted at
    the cursor, the cursor moves past it, the other lines are untouched and
    the document is marked dirty. *)
Theorem X20_typing_inserts_text h s c enc ks g :
  is_selecting s = false ->
  0 <= cursor_y s ->
  nth_error (buffer s) (Z.to_nat (cursor_y s)) = Some g ->
  gap_wf g -> 0 <= cursor_x s <= GapBuffer.len g ->
  utf8_encode c = Some enc ->
  zlen enc <= gap_size g \/ single_byte (GapBuffer.to_string g) ->
  exists s',
    handle_keypress h s CHAR (Some c) ks = Some (s', ks)
    /\ document s'
       = firstn (Z.to_nat (cursor_y s)) (document s)
         ++ [firstn (Z.to_nat (cursor_x s)) (GapBuffer.to_string g) ++ c
             ++ skipn (Z.to_nat (cursor_x s)) (GapBuffer.to_string g)]
         ++ skipn (S (Z.to_nat (cursor_y s))) (document s)
    /\ cursor_y s' = cursor_y s /\ cursor_x s' = cursor_x s + zlen c
    /\ is_dirty s' = true.
Proof.
  intros Hsel Hy Hg Hwf Hx Henc Hfit.
  assert (Hrange : 0 <= cursor_y s < zlen (buffer s))
    by (apply (nth_error_zlen _ _ g); [lia | exact Hg]).
  set (k := Z.to_nat (cursor_y s)).
  assert (Hklen : (k < length (buffer s))%nat)
    by (unfold zlen in Hrange; lia).
  destruct (insert_spec g _ c enc (Z.to_nat (cursor_x s)) (cursor_x s)
              Hwf eq_refl Henc) as (g' & Hi & Hwf' & Hs').
  { rewrite adjust_index_nonneg by lia. unfold GapBuffer.len in Hx.
    f_equal. lia. }
  { destruct Hfit as [Hfit|Hsb]; [now left|right].
    rewrite (single_byte_content g Hwf Hsb).
    unfold GapBuffer.MIN_GAP_SIZE. lia. }
  exists (set_cursor_x (cursor_x s + zlen c)
            (set_buffer (firstn k (buffer s) ++ g' :: skipn (S k) (buffer s))
               (set_is_dirty true (set_status_message HELP_STATUS s)))).
  split; [|split; [|repeat split]].
  - rewrite handle_keypress_unfold. cbv zeta.
    change (action_map CHAR) with (Some insert_char).
    change (after_selection_keys s CHAR)
      with (set_status_message HELP_STATUS s).
    cbn [is_selecting set_status_message]. rewrite Hsel. cbn [andb].
    cbn [do_action buffer cursor_x cursor_y set_is_dirty set_status_message].
    rewrite (py_get_nonneg _ _ g Hy Hg), Hi.
    rewrite py_set_nonneg by exact Hrange. fold k.
    rewrite (clamp_after_line_edit _ _ _ g'); [reflexivity|exact Hy| |].
    + cbn [cursor_y set_is_dirty set_status_message]. fold k.
      apply nth_error_middle. now rewrite firstn_length_lt.
    + unfold GapBuffer.len in *. rewrite Hs', !zlen_app.
      pose proof (zlen_nonneg c). unfold zlen in *.
      rewrite length_firstn, length_skipn. lia.
  - unfold document at 1. cbn [buffer set_cursor_x set_buffer].
    rewrite map_app. cbn [map app]. rewrite Hs'.
    unfold document. now rewrite firstn_map, skipn_map.
Qed.

Lemma X20_typing_inserts_text_witness :
  exists s',
    handle_keypress unix_host (editor_at [six_emoji_line] 0 3 []) CHAR
      (Some e_acute) [] = Some (s', [])
    /\ document s'
       = firstn (Z.to_nat 0) (document (editor_at [six_emoji_line] 0 3 []))
         ++ [firstn (Z.to_nat 3) (GapBuffer.to_string six_emoji_line)
             ++ e_acute
             ++ skipn (Z.to_nat 3) (GapBuffer.to_string six_emoji_line)]
         ++ skipn (S (Z.to_nat 0))
              (document (editor_at [six_emoji_line] 0 3 []))
    /\ cursor_y s' = 0 /\ cursor_x s' = 3 + zlen e_acute
    /\ is_dirty s' = true.
Proof.
  apply (X20_typing_inserts_text unix_host
           (editor_at [six_emoji_line] 0 3 []) e_acute [0xC3; 0xA9] []
           six_emoji_line).
  - reflexivity.
  - vm_compute. congruence.
  - reflexivity.
  - exact six_emoji_line_wf.
  - vm_compute. split; congruence.
  - reflexivity.
  - left. vm_compute. congruence.
Defined.

(** On a state that satisfies the cursor invariant [clamp_cursor] changes
    nothing. *)
Lemma clamp_cursor_id s : cursor_invariant s -> clamp_cursor s = Some s.
Proof.
  intros (_ & Hy & g & Hg & Hx).
  unfold clamp_cursor, line_str. cbv zeta.
  cbn [cursor_x cursor_y buffer set_cursor_x set_cursor_y].
  replace (Z.max 0 (Z.min (cursor_y s) (zlen (buffer s) - 1)))
    with (cursor_y s) by lia.
  rewrite (py_get_nonneg _ _ g) by (lia || exact Hg).
  unfold GapBuffer.len in Hx.
  replace (Z.max 0 (Z.min (cursor_x s) (zlen (GapBuffer.to_string g))))
    with (cursor_x s) by lia.
  destruct s. reflexivity.
Qed.

Lemma cursor_invariant_dirty_status s :
  cursor_invariant s ->
  cursor_invariant (set_is_dirty true (set_status_message HELP_STATUS s)).
Proof. destruct s. exact (fun H => H). Qed.

(** X21. At the edges of the document Backspace and Delete remove nothing,
    yet mark the document dirty: with no selection active and the cursor
    invariant holding, Backspace at the start of the first line and Delete
    at the end of the last line leave every line and the cursor as they
    are and set the dirty flag. *)
Theorem X21_delete_at_document_edge h s char ks g :
  is_selecting s = false ->
  cursor_invariant s ->
  nth_error (buffer s) (Z.to_nat (cursor_y s)) = Some g ->
  (cursor_x s = 0 -> cursor_y s = 0 ->
   handle_keypress h s BACKSPACE char ks
   = Some (set_is_dirty true (set_status_message HELP_STATUS s), ks))
  /\ (cursor_x s = GapBuffer.len g -> cursor_y s = zlen (buffer s) - 1 ->
      handle_keypress h s DELETE char ks
      = Some (set_is_dirty true (set_status_message HELP_STATUS s), ks)).
Proof.
  intros Hsel Hinv Hg.
  pose proof (cursor_invariant_dirty_status s Hinv) as Hinv'.
  destruct Hinv as (_ & Hy & _).
  split.
  - intros Hx0 Hy0.
    rewrite handle_keypress_unfold. cbv zeta.
    change (action_map BACKSPACE) with (Some delete_back).
    change (after_selection_keys s BACKSPACE)
      with (set_status_message HELP_STATUS s).
    cbn [is_selecting set_status_message]. rewrite Hsel. cbn [andb].
    cbn [do_action buffer cursor_x cursor_y set_is_dirty set_status_message].
    rewrite Hx0, Hy0. cbn [Z.ltb Z.compare].
    now rewrite (clamp_cursor_id _ Hinv').
  - intros Hxe Hye.
    rewrite handle_keypress_unfold. cbv zeta.
    change (action_map DELETE) with (Some delete_forward).
    change (after_selection_keys s DELETE)
      with (set_status_message HELP_STATUS s).
    cbn [is_selecting set_status_message]. rewrite Hsel. cbn [andb].
    cbn [do_action buffer cursor_x cursor_y set_is_dirty set_status_message].
    unfold line_str.
    cbn [buffer cursor_x cursor_y set_is_dirty set_status_message].
    rewrite (py_get_nonneg _ _ g) by (lia || exact Hg).
    unfold GapBuffer.len in Hxe.
    destruct (Z.ltb_spec (cursor_x s) (zlen (GapBuffer.to_string g)));
      [lia|].
    destruct (Z.ltb_spec (cursor_y s) (zlen (buffer s) - 1)); [lia|].
    now rewrite (clamp_cursor_id _ Hinv').
Qed.

Lemma X21_delete_at_document_edge_witness :
  handle_keypress unix_host blank_state BACKSPACE None []
  = Some (set_is_dirty true (set_status_message HELP_STATUS blank_state), [])
  /\ handle_keypress unix_host blank_state DELETE None []
     = Some (set_is_dirty true (set_status_message HELP_STATUS blank_state),
             []).
Proof.
  destruct (X21_delete_at_document_edge unix_host blank_state None []
              empty_line) as [Hback Hfwd].
  - reflexivity.
  - exact blank_state_invariant.
  - reflexivity.
  - split.
    + apply Hback; reflexivity.
    + apply Hfwd; reflexivity.
Defined.

Lemma unbound_key_not_movement key :
  action_map key = None ->
  key_in key _plain_movement_keys = false
  /\ key_in key _shift_movement_keys = false.
Proof.
  destruct key; intros H; vm_compute in H; try discriminate H;
    split; vm_compute; reflexivity.
Qed.

(** X22. A key with no binding is ignored: on a state satisfying the
    cursor invariant, a key that no action is bound to changes nothing but
    the status line, which goes back to the help text, and consumes no
    further key. *)
Theorem X22_unbound_key_ignored h s key char ks :
  action_map key = None ->
  cursor_invariant s ->
  handle_keypress h s key char ks
  = Some (set_status_message HELP_STATUS s, ks).
Proof.
  intros Hact Hinv.
  destruct (unbound_key_not_movement key Hact) as [Hp Hs].
  rewrite handle_keypress_unfold. cbv zeta.
  unfold after_selection_keys. cbv zeta. rewrite Hp, Hs, Hact.
  cbn [andb action_in do_action]. rewrite andb_false_r.
  rewrite clamp_cursor_id; [reflexivity|].
  destruct s. exact Hinv.
Qed.

Lemma X22_unbound_key_ignored_witness :
  handle_keypress unix_host blank_state TAB None []
  = Some (set_status_message HELP_STATUS blank_state, []).
Proof.
  apply (X22_unbound_key_ignored unix_host blank_state TAB None []).
  - reflexivity.
  - exact blank_state_invariant.
Defined.

(** ** The prompt *)

Lemma set_status_twice m m' s :
  set_status_message m (set_status_message m' s) = set_status_message m s.
Proof. destruct s. reflexivity. Qed.

(** The prompt overwrites the status line before anything reads it. *)
Lemma prompt_status ks s m msg u :
  prompt (set_status_message m s) msg u ks = prompt s msg u ks.
Proof.
  destruct ks as [|[key char] ks]; [reflexivity|].
  cbn [prompt]. now rewrite set_status_twice.
Qed.

Lemma render_status s m :
  0 <= cursor_y s < zlen (buffer s) ->
  render (set_status_message m s) = Some (set_status_message m s).
Proof.
  intros Hy. unfold render.
  destruct (line_str_in_range (set_status_message m s) (cursor_y s))
    as [line Hl]; [destruct s; exact Hy|].
  replace (cursor_y (set_status_message m s)) with (cursor_y s)
    by (destruct s; reflexivity).
  now rewrite Hl.
Qed.

Lemma prompt_typed s msg rest :
  0 <= cursor_y s < zlen (buffer s) ->
  forall cs u,
    prompt s msg u (typed cs ++ rest) = prompt s msg (u ++ concat cs) rest.
Proof.
  intros Hy. induction cs as [|c cs IH]; intros u.
  - cbn [typed map app concat]. now rewrite app_nil_r.
  - cbn [typed map app concat prompt]. rewrite render_status by exact Hy.
    rewrite prompt_status. fold (typed cs).
    rewrite IH. now rewrite app_assoc.
Qed.

Lemma slice_drop_last {A} (t : list A) :
  py_slice t None (Some (-1)) = removelast t.
Proof.
  unfold py_slice, slice_bound, adjust_index. cbv zeta.
  change (-1 <? 0) with true. cbv iota. cbn [skipn Z.to_nat].
  rewrite removelast_firstn_len. f_equal. unfold zlen. lia.
Qed.

(** X23. The prompt returns what was typed: with the cursor on a line of
    the document, after a text typed piece by piece Enter returns the text
    (nothing for an empty text), Escape returns nothing, and Backspace then
    Enter returns the text without its last character; in each case the
    status line is cleared, nothing else of the editor changes, and the
    keys after the closing key are left unread. *)
Theorem X23_prompt_returns_typed_text s msg cs c ks :
  0 <= cursor_y s < zlen (buffer s) ->
  prompt s msg [] (typed cs ++ (ENTER, c) :: ks)
  = Some (set_status_message [] s, answer (concat cs), ks)
  /\ prompt s msg [] (typed cs ++ (ESCAPE, c) :: ks)
     = Some (set_status_message [] s, None, ks)
  /\ prompt s msg [] (typed cs ++ (BACKSPACE, c) :: (ENTER, c) :: ks)
     = Some (set_status_message [] s, answer (removelast (concat cs)), ks).
Proof.
  intros Hy. rewrite !prompt_typed by exact Hy. cbn [app prompt].
  rewrite !render_status by exact Hy.
  rewrite !set_status_twice, slice_drop_last.
  repeat split.
Qed.

Lemma X23_prompt_returns_typed_text_witness :
  prompt blank_state (py "Save as: ") []
    (typed [py "a"; e_acute] ++ (ENTER, None) :: [])
  = Some (set_status_message [] blank_state,
          answer (concat [py "a"; e_acute]), [])
  /\ prompt blank_state (py "Save as: ") []
       (typed [py "a"; e_acute] ++ (ESCAPE, None) :: [])
     = Some (set_status_message [] blank_state, None, [])
  /\ prompt blank_state (py "Save as: ") []
       (typed [py "a"; e_acute] ++ (BACKSPACE, None) :: (ENTER, None) :: [])
     = Some (set_status_message [] blank_state,
             answer (removelast (concat [py "a"; e_acute])), []).
Proof.
  apply (X23_prompt_returns_typed_text blank_state (py "Save as: ")
           [py "a"; e_acute] None []).
  vm_compute. split; congruence.
Defined.

(** ** The key decoder *)

Lemma dict_get_value {V} (P : V -> Prop) (d : list (pystr * V)) k v :
  Forall (fun kv => P (snd kv)) d -> dict_get d k = Some v -> P v.
Proof.
  induction d as [|[k0 v0] d IH]; intros HF H; [discriminate|].
  inversion HF as [|? ? H0 HF']; subst. cbn [dict_get] in H.
  destruct (dict_get d k) as [v1|] eqn:E.
  - injection H as <-. now apply IH.
  - destruct (pystr_eqb k0 k); [|discriminate]. injection H as <-.
    exact H0.
Qed.

Lemma single_char_map_no_CHAR char k :
  dict_get KeyDecoder.single_char_map char = Some k -> k <> CHAR.
Proof.
  apply (dict_get_value (fun k => k <> CHAR)).
  unfold KeyDecoder.single_char_map.
  repeat (apply Forall_cons; [discriminate|]). apply Forall_nil.
Qed.

Lemma key_map_no_CHAR seq k :
  dict_get KeyDecoder.key_map seq = Some k -> k <> CHAR.
Proof.
  apply (dict_get_value (fun k => k <> CHAR)).
  unfold KeyDecoder.key_map.
  repeat (apply Forall_cons; [discriminate|]). apply Forall_nil.
Qed.

(** X24. The Unix key decoder hands over a character exactly with the key
    [CHAR]: whatever was read, the decoded key is [CHAR] if and only if a
    payload comes with it, and the payload is then the character read, a
    printable one. *)
Theorem X24_payload_only_with_CHAR isprintable char ahead :
  (fst (KeyDecoder._get_key_unix isprintable char ahead) = CHAR
   <-> snd (KeyDecoder._get_key_unix isprintable char ahead) <> None)
  /\ (forall c,
        snd (KeyDecoder._get_key_unix isprintable char ahead) = Some c ->
        c = char /\ isprintable char = true).
Proof.
  unfold KeyDecoder._get_key_unix, KeyDecoder._map_single_char.
  destruct (pystr_eqb char [KeyDecoder.ESC]); cbn [negb].
  - match goal with
    | |- context [if pystr_eqb ?seq [KeyDecoder.ESC] then _ else _] =>
        destruct (pystr_eqb seq [KeyDecoder.ESC]);
        [|destruct (dict_get KeyDecoder.key_map seq) as [k|] eqn:E]
    end; cbn [fst snd].
    + split; [split; [discriminate|congruence]|discriminate].
    + apply key_map_no_CHAR in E.
      split; [split; [contradiction|congruence]|discriminate].
    + split; [split; [discriminate|congruence]|discriminate].
  - destruct (dict_get KeyDecoder.single_char_map char) as [k|] eqn:E.
    + apply single_char_map_no_CHAR in E. cbn [fst snd].
      split; [split; [contradiction|congruence]|discriminate].
    + destruct (isprintable char) eqn:Ep; cbn [fst snd].
      * split; [split; [discriminate|reflexivity]|].
        intros c [= <-]. now split.
      * split; [split; [discriminate|congruence]|discriminate].
Qed.

(** ** Saving and quitting *)

Lemma prompt_consumes : forall ks s msg input s' r ks',
  prompt s msg input ks = Some (s', r, ks') ->
  (length ks' < length ks)%nat.
Proof.
  induction ks as [|[key char] ks IH]; intros s msg input s' r ks' H;
    [discriminate|].
  cbn [prompt] in H. unfold render in H.
  destruct (line_str _ _); [|discriminate]. cbn [length].
  destruct key; try (apply IH in H; lia).
  - injection H as _ _ <-. lia.
  - injection H as _ _ <-. lia.
  - destruct char; [|discriminate]. apply IH in H. lia.
Qed.

Lemma save_ask_name_flags s ks s' p ks' :
  save_ask_name s ks = Some (s', p, ks') ->
  is_dirty s' = is_dirty s /\ running s' = running s
  /\ (length ks' <= length ks)%nat.
Proof.
  unfold save_ask_name. intros H.
  destruct (filename s) as [[|c f]|] eqn:Ef.
  2:{ injection H as <- <- <-. repeat split. lia. }
  all: destruct (prompt s (py "Save as: ") [] ks) as [[[s0 nf] ks0]|] eqn:E0;
    [|discriminate];
    pose proof (prompt_consumes _ _ _ _ _ _ _ E0);
    apply prompt_state in E0; subst s0;
    destruct nf; injection H as <- <- <-;
    repeat split; lia.
Qed.

Lemma save_confirm_flags h s fname ks s' p ks' :
  save_confirm h s fname ks = Some (s', p, ks') ->
  is_dirty s' = is_dirty s /\ running s' = running s
  /\ filename s' = filename s
  /\ (length ks' <= length ks)%nat.
Proof.
  unfold save_confirm. destruct (path_exists h fname).
  - destruct (prompt s (overwrite_prompt fname) [] ks)
      as [[[s2 o] ks2]|] eqn:E2; [|discriminate].
    pose proof (prompt_consumes _ _ _ _ _ _ _ E2).
    apply prompt_state in E2. subst s2.
    destruct o as [o|]; [destruct (lower_startswith_y o)|];
      intros [= <- _ <-]; repeat split; lia.
  - intros [= <- _ <-]. repeat split; lia.
Qed.

(** What [save_file] leaves of the flags, the keys and the file. *)
Lemma save_file_outcome h s ks s' ok ks' :
  save_file h s ks = Some (s', ok, ks') ->
  is_dirty s' = (if ok then false else is_dirty s)
  /\ running s' = running s
  /\ (length ks' <= length ks)%nat
  /\ (ok = true -> in_memory s = false ->
      exists f, filename s' = Some f
                /\ write_file h f (document_text s) = Written).
Proof.
  unfold save_file. destruct (in_memory s) eqn:Em.
  { intros [= <- <- <-]. repeat split; [lia|discriminate]. }
  destruct (save_ask_name s ks) as [[[s1 p1] ks1]|] eqn:E1; [|discriminate].
  pose proof (save_ask_name_same_document _ _ _ _ _ E1) as (Hb1 & _).
  apply save_ask_name_flags in E1. destruct E1 as (Hd1 & Hr1 & Hk1).
  destruct p1; cbn [negb];
    [|intros [= <- <- <-]; repeat split; [assumption..|discriminate]].
  destruct (filename s1) as [fname|] eqn:Ef; [|discriminate].
  destruct (save_confirm h s1 fname ks1) as [[[s2 p2] ks2]|] eqn:E2;
    [|discriminate].
  pose proof (save_confirm_same_document _ _ _ _ _ _ _ E2) as (Hb2 & _).
  apply save_confirm_flags in E2. destruct E2 as (Hd2 & Hr2 & Hf2 & Hk2).
  destruct p2; cbn [negb];
    [|intros [= <- <- <-]; repeat split; [congruence|congruence|lia|
                                          discriminate]].
  unfold save_write.
  destruct (write_file h fname (document_text s2)) eqn:Ew; try discriminate;
    intros [= <- <- <-].
  - split; [reflexivity|]. split; [|split; [lia|]].
    + cbn [running set_status_message set_is_dirty]. congruence.
    + intros _ _. exists fname.
      split; [cbn [filename set_status_message set_is_dirty]; congruence|].
      replace (document_text s) with (document_text s2); [exact Ew|].
      unfold document_text. congruence.
  - split; [cbn [is_dirty set_status_message]; congruence|].
    split; [cbn [running set_status_message]; congruence|].
    split; [lia|discriminate].
Qed.

(** X25. Saving reports what happened to the file: whenever [save_file]
    returns, the lines and the cursor are as before; when it reports
    success the dirty flag is cleared and, outside in-memory mode, the file
    named by the editor was written with the lines joined by newlines;
    when it reports failure the dirty flag keeps its value. *)
Theorem X25_save_reports_the_write h s ks s' ok ks' :
  save_file h s ks = Some (s', ok, ks') ->
  same_document s s'
  /\ is_dirty s' = (if ok then false else is_dirty s)
  /\ (ok = true -> in_memory s = false ->
      exists f, filename s' = Some f
                /\ write_file h f (document_text s) = Written).
Proof.
  intros H. split; [exact (save_file_same_document _ _ _ _ _ _ H)|].
  destruct (save_file_outcome _ _ _ _ _ _ H) as (Hd & _ & _ & Hw).
  now split.
Qed.

Lemma X25_save_reports_the_write_witness :
  same_document dirty_state
    (set_status_message
       (py "Saved 1 lines to " ++ [QUOTE] ++ py "notes.txt" ++ [QUOTE]
        ++ py ".")
       (set_is_dirty false dirty_state))
  /\ is_dirty
       (set_status_message
          (py "Saved 1 lines to " ++ [QUOTE] ++ py "notes.txt" ++ [QUOTE]
           ++ py ".")
          (set_is_dirty false dirty_state)) = false
  /\ exists f,
       filename
         (set_status_message
            (py "Saved 1 lines to " ++ [QUOTE] ++ py "notes.txt" ++ [QUOTE]
             ++ py ".")
            (set_is_dirty false dirty_state)) = Some f
       /\ write_file unix_host f (document_text dirty_state) = Written.
Proof.
  destruct (X25_save_reports_the_write unix_host dirty_state []
              (set_status_message
                 (py "Saved 1 lines to " ++ [QUOTE] ++ py "notes.txt"
                  ++ [QUOTE] ++ py ".")
                 (set_is_dirty false dirty_state)) true [])
    as (Hdoc & Hdirty & Hfile).
  - vm_compute. reflexivity.
  - split; [exact Hdoc|]. split; [exact Hdirty|].
    apply Hfile; reflexivity.
Defined.

(** X26. Quitting never drops unsaved changes unasked: when the document
    is dirty and not in memory, [quit] reads at least one key of the
    answer, and the editor stops only if the document was saved on the
    way or the answer was ["n"]; in every other case it keeps running. *)
Theorem X26_quit_asks_before_discarding h s ks s' ks' :
  do_quit h s ks = Some (s', ks') ->
  is_dirty s = true -> in_memory s = false ->
  (length ks' < length ks)%nat
  /\ (running s' = running s
      \/ is_dirty s' = false
      \/ exists st r,
           prompt s (py "Save changes before quitting? (y/n): ") [] ks
           = Some (st, Some r, ks')
           /\ lower_is_n r = true).
Proof.
  unfold do_quit. intros H Hd Hm. rewrite Hd, Hm in H. cbn [andb negb] in H.
  destruct (prompt s _ [] ks) as [[[s1 r] ks1]|] eqn:E1; [|discriminate].
  pose proof (prompt_consumes _ _ _ _ _ _ _ E1) as Hk.
  pose proof (prompt_state _ _ _ _ _ _ _ E1) as Hs1.
  destruct r as [r|].
  2:{ injection H as <- <-. split; [exact Hk|left]. subst s1.
      reflexivity. }
  destruct (lower_is_y r).
  - destruct (save_file h s1 ks1) as [[[s2 saved] ks2]|] eqn:E2;
      [|discriminate].
    destruct (save_file_outcome _ _ _ _ _ _ E2) as (Hd2 & Hr2 & Hk2 & _).
    injection H as <- <-. split; [lia|].
    destruct saved.
    + right. left. exact Hd2.
    + left. rewrite Hr2. subst s1. reflexivity.
  - destruct (lower_is_n r) eqn:En; injection H as <- <-;
      (split; [exact Hk|]).
    + right. right. exists s1, r. now split.
    + left. subst s1. reflexivity.
Qed.

Lemma X26_quit_asks_before_discarding_witness :
  (length (@nil (Key * option pystr))
   < length (typed [py "n"] ++ [(ENTER, None)]))%nat
  /\ (running (set_running false (set_status_message [] dirty_state))
      = running dirty_state
      \/ is_dirty (set_running false (set_status_message [] dirty_state))
         = false
      \/ exists st r,
           prompt dirty_state (py "Save changes before quitting? (y/n): ")
             [] (typed [py "n"] ++ [(ENTER, None)])
           = Some (st, Some r, [])
           /\ lower_is_n r = true).
Proof.
  apply (X26_quit_asks_before_discarding unix_host dirty_state
           (typed [py "n"] ++ [(ENTER, None)])
           (set_running false (set_status_message [] dirty_state)) []).
  - vm_compute. reflexivity.
  - reflexivity.
  - reflexivity.
Defined.

(** ** Opening a file *)

Lemma rstrip_rev_Forall (P : Z -> Prop) c r :
  Forall P r -> Forall P (rstrip_rev c r).
Proof.
  induction 1 as [|x r Hx Hr IH]; cbn [rstrip_rev]; [constructor|].
  destruct (x =? c); [exact IH|now constructor].
Qed.

Lemma encodable_rstrip c l : encodable l -> encodable (py_rstrip c l).
Proof.
  intros H. unfold py_rstrip, encodable.
  apply Forall_rev, rstrip_rev_Forall, Forall_rev, H.
Qed.

Lemma map_opt_init (f : pystr -> pystr) ls :
  Forall (fun l => encodable (f l)) ls ->
  exists gs,
    map_opt (fun l => GapBuffer.init (f l)) ls = Some gs
    /\ Forall gap_wf gs
    /\ map GapBuffer.to_string gs = map f ls.
Proof.
  induction 1 as [|l ls Hl Hls (gs & Hm & Hwf & Hs)].
  - exists []. repeat split. constructor.
  - destruct (init_spec (f l) Hl) as (g & Hi & Hg & Ht).
    exists (g :: gs). cbn [map_opt map]. rewrite Hi, Hm.
    repeat split; [now constructor|congruence].
Qed.

(** X27. Opening an existing file loads its lines: when the named file
    exists, is read outside in-memory mode and its lines are encodable
    text, the editor starts with one line per line of the file, each
    without its trailing newlines (one empty line for an empty file),
    every line buffer satisfies the gap buffer invariant, the cursor is at
    the start of the first line and the document is clean with nothing
    selected. *)
Theorem X27_open_existing_file h f ls :
  f <> [] ->
  path_exists h f = true ->
  read_lines h f = Some ls ->
  Forall encodable ls ->
  exists s,
    init h (Some f) false = Some s
    /\ document s
       = match ls with
         | [] => [[]]
         | _ => map (py_rstrip NEWLINE) ls
         end
    /\ Forall gap_wf (buffer s)
    /\ cursor_invariant s
    /\ cursor_y s = 0 /\ cursor_x s = 0
    /\ is_dirty s = false /\ is_selecting s = false.
Proof.
  intros Hf He Hr Henc.
  destruct (map_opt_init (py_rstrip NEWLINE) ls) as (gs & Hm & Hwf & Hs).
  { eapply Forall_impl; [|exact Henc]. intros l. apply encodable_rstrip. }
  unfold init. destruct f as [|c f]; [contradiction|].
  rewrite He, Hr. cbn [andb negb]. rewrite Hm.
  destruct gs as [|g gs].
  - destruct ls; [|discriminate Hs].
    destruct (init_spec [] (Forall_nil _)) as (g & Hi & Hg & Ht).
    rewrite Hi. eexists. split; [reflexivity|].
    unfold document, cursor_invariant.
    cbn [buffer cursor_x cursor_y is_dirty is_selecting map].
    rewrite Ht. split; [reflexivity|]. split; [now constructor|].
    split; [|repeat split].
    change (zlen [g]) with 1. split; [lia|]. split; [lia|].
    exists g. split; [reflexivity|]. unfold GapBuffer.len. rewrite Ht.
    change (zlen (@nil Z)) with 0. lia.
  - eexists. split; [reflexivity|].
    unfold document, cursor_invariant.
    cbn [buffer cursor_x cursor_y is_dirty is_selecting].
    destruct ls as [|l ls]; [discriminate Hs|].
    split; [exact Hs|]. split; [exact Hwf|].
    split; [|repeat split].
    rewrite zlen_cons. pose proof (zlen_nonneg gs).
    split; [lia|]. split; [lia|].
    exists g. split; [reflexivity|].
    pose proof (zlen_nonneg (GapBuffer.to_string g)).
    unfold GapBuffer.len. lia.
Qed.

Lemma X27_open_existing_file_witness :
  exists s,
    init (notes_host [py "abc" ++ [NEWLINE]; e_acute]) (Some (py "notes.txt"))
      false = Some s
    /\ document s = map (py_rstrip NEWLINE) [py "abc" ++ [NEWLINE]; e_acute]
    /\ Forall gap_wf (buffer s)
    /\ cursor_invariant s
    /\ cursor_y s = 0 /\ cursor_x s = 0
    /\ is_dirty s = false /\ is_selecting s = false.
Proof.
  apply (X27_open_existing_file
           (notes_host [py "abc" ++ [NEWLINE]; e_acute]) (py "notes.txt")
           [py "abc" ++ [NEWLINE]; e_acute]).
  - discriminate.
  - reflexivity.
  - reflexivity.
  - repeat constructor.
Defined.

(** ** Cut and paste within a line *)

(** Deleting a range of characters frees exactly the bytes they took. *)
Lemma delete_range g lo hi :
  gap_wf g -> 0 <= lo <= hi -> hi <= GapBuffer.len g ->
  exists g1 d,
    GapBuffer.delete g lo (hi - lo) = Some g1
    /\ gap_wf g1
    /\ GapBuffer.to_string g1
       = firstn (Z.to_nat lo) (GapBuffer.to_string g)
         ++ skipn (Z.to_nat hi) (GapBuffer.to_string g)
    /\ utf8_encode (firstn (Z.to_nat (hi - lo))
                      (skipn (Z.to_nat lo) (GapBuffer.to_string g)))
       = Some d
    /\ zlen d <= gap_size g1.
Proof.
  intros Hwf Hlo Hhi.
  assert (Hgap : 0 <= gap_size g) by (unfold gap_size; destruct Hwf; lia).
  destruct (Z.eq_dec hi lo) as [->|Hne].
  - exists g, []. rewrite delete_nonpositive by lia.
    split; [reflexivity|]. split; [exact Hwf|].
    split; [now rewrite firstn_skipn|].
    rewrite Z.sub_diag. cbn [Z.to_nat firstn]. split; [reflexivity|].
    exact Hgap.
  - destruct (delete_spec g _ lo (hi - lo) Hwf eq_refl
                ltac:(lia) ltac:(lia)) as (g1 & Hd & Hwf1 & Hs1 & _).
    replace (lo + (hi - lo)) with hi in Hs1 by lia.
    destruct (wf_split_bytes g (Z.to_nat lo) Hwf)
      as (e1 & e2 & H1 & H2 & Hc).
    destruct (encode_split _ _ (Z.to_nat (hi - lo)) H2)
      as (d & e3 & Hd' & H3 & Hsplit).
    rewrite skipn_skipn in H3.
    replace (Z.to_nat (hi - lo) + Z.to_nat lo)%nat with (Z.to_nat hi) in H3
      by lia.
    exists g1, d. split; [exact Hd|]. split; [exact Hwf1|].
    split; [exact Hs1|]. split; [exact Hd'|].
    pose proof (delete_keeps_buffer_size g _ _ g1 Hwf Hd) as Hlen.
    pose proof (wf_content_length _ Hwf) as Hcg.
    pose proof (wf_content_length _ Hwf1) as Hcg1.
    destruct Hwf1 as (_ & _ & Henc1).
    rewrite Hs1, encode_app, H1, H3 in Henc1.
    injection Henc1 as Henc1. rewrite <- Henc1 in Hcg1.
    rewrite Hc, Hsplit, !zlen_app in Hcg. rewrite zlen_app in Hcg1. lia.
Qed.

Lemma split_acc_no_sep sep : forall s cur,
  ~ In sep s -> split_acc sep cur s = [rev cur ++ s].
Proof.
  induction s as [|c r IH]; intros cur Hn; cbn [split_acc].
  - now rewrite app_nil_r.
  - destruct (Z.eqb_spec c sep) as [->|Hc].
    + exfalso. apply Hn. now left.
    + rewrite IH by (intros Hin; apply Hn; now right).
      cbn [rev]. now rewrite <- app_assoc.
Qed.

Lemma split_no_newline s : ~ In NEWLINE s -> py_split NEWLINE s = [s].
Proof. intros H. unfold py_split. now rewrite split_acc_no_sep. Qed.

Lemma cursor_invariant_intro s g :
  0 <= cursor_y s ->
  nth_error (buffer s) (Z.to_nat (cursor_y s)) = Some g ->
  0 <= cursor_x s <= GapBuffer.len g ->
  cursor_invariant s.
Proof.
  intros Hy Hg Hx.
  pose proof (nth_error_zlen _ _ g Hy Hg) as Hr.
  split; [lia|]. split; [exact Hr|]. exists g. now split.
Qed.

(** The selection within the cursor's line, ordered. *)
Lemma get_selection_line s :
  is_selecting s = true -> selection_start_y s = cursor_y s ->
  0 <= cursor_y s ->
  get_selection s
  = Some (cursor_y s, Z.min (selection_start_x s) (cursor_x s),
          cursor_y s, Z.max (selection_start_x s) (cursor_x s)).
Proof.
  intros Hsel Hsy Hy. unfold get_selection. rewrite Hsel, Hsy.
  cbn [negb orb]. destruct (Z.eqb_spec (cursor_y s) (-1)); [lia|].
  rewrite Z.eqb_refl, Z.min_id, Z.max_id. reflexivity.
Qed.

Lemma copy_selection_line h s g :
  IS_UNIX h = true ->
  is_selecting s = true -> selection_start_y s = cursor_y s ->
  0 <= cursor_y s ->
  nth_error (buffer s) (Z.to_nat (cursor_y s)) = Some g ->
  copy_selection h s
  = Some (set_status_message (py "Copied to clipboard.")
            (set_clipboard
               (GapBuffer.get_slice g
                  (Some (Z.min (selection_start_x s) (cursor_x s)))
                  (Some (Z.max (selection_start_x s) (cursor_x s)))) s)).
Proof.
  intros Hu Hsel Hsy Hy Hg. unfold copy_selection.
  rewrite (get_selection_line s Hsel Hsy Hy), Z.eqb_refl.
  rewrite (py_get_nonneg _ _ g Hy Hg), Hu. reflexivity.
Qed.

Lemma delete_selection_line s g g1 :
  is_selecting s = true -> selection_start_y s = cursor_y s ->
  0 <= cursor_y s ->
  nth_error (buffer s) (Z.to_nat (cursor_y s)) = Some g ->
  GapBuffer.delete g (Z.min (selection_start_x s) (cursor_x s))
    (Z.max (selection_start_x s) (cursor_x s)
     - Z.min (selection_start_x s) (cursor_x s)) = Some g1 ->
  delete_selection s
  = Some (set_is_selecting false
            (set_is_dirty true
               (set_cursor_y (cursor_y s)
                  (set_cursor_x (Z.min (selection_start_x s) (cursor_x s))
                     (set_buffer
                        (firstn (Z.to_nat (cursor_y s)) (buffer s)
                         ++ g1 :: skipn (S (Z.to_nat (cursor_y s)))
                                    (buffer s)) s))))).
Proof.
  intros Hsel Hsy Hy Hg Hd. unfold delete_selection.
  rewrite (get_selection_line s Hsel Hsy Hy), Z.eqb_refl.
  rewrite (py_get_nonneg _ _ g Hy Hg), Hd.
  rewrite py_set_nonneg by (apply (nth_error_zlen _ _ g); assumption).
  reflexivity.
Qed.

(** X28. Cut then paste within a line gives the line back: on a Unix host,
    with a selection whose two ends lie within the cursor's line, the
    buffer of that line satisfying the gap buffer invariant and the line
    holding no newline, Ctrl-X puts the selected text on the clipboard,
    removes it from the line and leaves the cursor where the selection
    began with nothing selected; Ctrl-V right after restores every line of
    the document, with the cursor after the pasted text.  Under these
    conditions this holds for characters of any byte width. *)
Theorem X28_cut_then_paste h s char1 char2 ks g :
  IS_UNIX h = true ->
  is_selecting s = true ->
  selection_start_y s = cursor_y s -> 0 <= cursor_y s ->
  nth_error (buffer s) (Z.to_nat (cursor_y s)) = Some g ->
  gap_wf g ->
  0 <= selection_start_x s <= GapBuffer.len g ->
  0 <= cursor_x s <= GapBuffer.len g ->
  ~ In NEWLINE (GapBuffer.to_string g) ->
  exists s1 s2,
    handle_keypress h s CTRL_X char1 ks = Some (s1, ks)
    /\ clipboard s1
       = GapBuffer.get_slice g
           (Some (Z.min (selection_start_x s) (cursor_x s)))
           (Some (Z.max (selection_start_x s) (cursor_x s)))
    /\ document s1
       = firstn (Z.to_nat (cursor_y s)) (document s)
         ++ [firstn (Z.to_nat (Z.min (selection_start_x s) (cursor_x s)))
               (GapBuffer.to_string g)
             ++ skipn (Z.to_nat (Z.max (selection_start_x s) (cursor_x s)))
                  (GapBuffer.to_string g)]
         ++ skipn (S (Z.to_nat (cursor_y s))) (document s)
    /\ cursor_x s1 = Z.min (selection_start_x s) (cursor_x s)
    /\ cursor_y s1 = cursor_y s
    /\ is_selecting s1 = false
    /\ handle_keypress h s1 CTRL_V char2 ks = Some (s2, ks)
    /\ document s2 = document s
    /\ cursor_x s2 = Z.max (selection_start_x s) (cursor_x s)
    /\ cursor_y s2 = cursor_y s.
Proof.
  intros Hu Hsel Hsy Hy Hg Hwf Ha Hb Hnl.
  set (lo := Z.min (selection_start_x s) (cursor_x s)).
  set (hi := Z.max (selection_start_x s) (cursor_x s)).
  set (k := Z.to_nat (cursor_y s)).
  set (line := GapBuffer.to_string g).
  assert (Hlo : 0 <= lo <= hi) by (unfold lo, hi; lia).
  assert (Hhi : hi <= GapBuffer.len g) by (unfold hi; lia).
  assert (Hrange : 0 <= cursor_y s < zlen (buffer s))
    by (apply (nth_error_zlen _ _ g); [lia | exact Hg]).
  assert (Hklen : (k < length (buffer s))%nat)
    by (unfold zlen in Hrange; unfold k; lia).
  assert (Hlenk : length (firstn k (buffer s)) = k)
    by (apply firstn_length_lt; exact Hklen).
  destruct (delete_range g lo hi Hwf Hlo Hhi)
    as (g1 & d & Hd & Hwf1 & Hs1 & Henc & Hroom).
  fold line in Hs1, Henc.
  set (text := firstn (Z.to_nat (hi - lo)) (skipn (Z.to_nat lo) line))
    in Henc.
  assert (Hslice : GapBuffer.get_slice g (Some lo) (Some hi) = text).
  { unfold GapBuffer.get_slice. rewrite slice_between by lia. reflexivity. }
  assert (Hlen_line : zlen line = GapBuffer.len g) by reflexivity.
  assert (Hlen_text : zlen text = hi - lo).
  { unfold text, zlen in *. rewrite length_firstn, length_skipn. lia. }
  assert (Hlen1 : GapBuffer.len g1 = GapBuffer.len g - (hi - lo)).
  { unfold GapBuffer.len. rewrite Hs1, zlen_app. fold line.
    unfold zlen in *. rewrite length_firstn, length_skipn. lia. }
  (* the state after Ctrl-X *)
  set (s0 := set_status_message HELP_STATUS s).
  set (b1 := firstn k (buffer s) ++ g1 :: skipn (S k) (buffer s)).
  set (s1 := set_is_selecting false
               (set_is_dirty true
                  (set_cursor_y (cursor_y s)
                     (set_cursor_x lo
                        (set_buffer b1
                           (set_status_message (py "Copied to clipboard.")
                              (set_clipboard text s0))))))).
  assert (Hg1 : nth_error b1 k = Some g1)
    by (apply nth_error_middle; now rewrite Hlenk).
  assert (Hcut : handle_keypress h s CTRL_X char1 ks = Some (s1, ks)).
  { rewrite handle_keypress_unfold. cbv zeta.
    change (action_map CTRL_X) with (Some cut).
    change (after_selection_keys s CTRL_X) with s0.
    change (action_in (Some cut) editing_actions) with false.
    rewrite andb_false_r. cbn [do_action].
    rewrite (copy_selection_line h s0 g Hu Hsel Hsy Hy Hg).
    change (selection_start_x s0) with (selection_start_x s).
    change (cursor_x s0) with (cursor_x s). fold lo hi. rewrite Hslice.
    rewrite (delete_selection_line
               (set_status_message (py "Copied to clipboard.")
                  (set_clipboard text s0)) g g1 Hsel Hsy Hy Hg Hd).
    match goal with
    | |- (s' <- clamp_cursor ?x ;; Some (s', ks)) = _ => change x with s1
    end. rewrite clamp_cursor_id; [reflexivity|].
    apply (cursor_invariant_intro s1 g1); [exact Hy|exact Hg1|].
    change (cursor_x s1) with lo. lia. }
  (* the state after Ctrl-V *)
  destruct (insert_spec g1 _ text d (Z.to_nat lo) lo Hwf1 eq_refl Henc)
    as (g2 & Hi & Hwf2 & Hs2).
  { rewrite adjust_index_nonneg by lia. f_equal.
    unfold GapBuffer.len in *. lia. }
  { now left. }
  assert (Hline2 : GapBuffer.to_string g2 = line).
  { rewrite Hs2, Hs1.
    assert (Hl : length (firstn (Z.to_nat lo) line) = Z.to_nat lo).
    { rewrite length_firstn. unfold zlen in *. lia. }
    rewrite firstn_app, Hl, Nat.sub_diag, firstn_firstn, Nat.min_id.
    cbn [firstn]. rewrite app_nil_r.
    rewrite skipn_app, Hl, Nat.sub_diag.
    rewrite skipn_all2 by (rewrite Hl; lia). cbn [skipn app].
    unfold text.
    rewrite <- (firstn_skipn (Z.to_nat lo) line) at 4. f_equal.
    rewrite <- (firstn_skipn (Z.to_nat (hi - lo))
                  (skipn (Z.to_nat lo) line)) at 2.
    f_equal. rewrite skipn_skipn. f_equal. lia. }
  set (b2 := firstn k b1 ++ g2 :: skipn (S k) b1).
  set (s2 := set_is_dirty true
               (set_cursor_x (lo + zlen text)
                  (set_buffer b2 (set_status_message HELP_STATUS s1)))).
  assert (Hlenb1 : (k < length b1)%nat).
  { apply nth_error_Some. congruence. }
  assert (Hg2 : nth_error b2 k = Some g2).
  { apply nth_error_middle. now rewrite firstn_length_lt. }
  assert (Hb2 : b2 = firstn k (buffer s) ++ g2 :: skipn (S k) (buffer s)).
  { unfold b2, b1.
    rewrite firstn_app, Hlenk, Nat.sub_diag, firstn_all2 by lia.
    cbn [firstn]. rewrite app_nil_r. do 2 f_equal.
    change (g1 :: skipn (S k) (buffer s))
      with ([g1] ++ skipn (S k) (buffer s)).
    rewrite app_assoc. apply skipn_length_app.
    rewrite length_app, Hlenk. simpl. lia. }
  assert (Hpaste : handle_keypress h s1 CTRL_V char2 ks = Some (s2, ks)).
  { rewrite handle_keypress_unfold. cbv zeta.
    change (action_map CTRL_V) with (Some paste).
    change (after_selection_keys s1 CTRL_V)
      with (set_status_message HELP_STATUS s1).
    change (action_in (Some paste) editing_actions) with false.
    rewrite andb_false_r. cbn [do_action]. unfold do_paste.
    rewrite Hu. cbn [negb].
    change (is_selecting (set_status_message HELP_STATUS s1)) with false.
    cbv iota.
    change (clipboard (set_status_message HELP_STATUS s1)) with text.
    rewrite split_no_newline.
    2:{ intros Hin. apply Hnl. fold line. unfold text in Hin.
        rewrite <- (firstn_skipn (Z.to_nat lo) line).
        apply in_or_app. right.
        rewrite <- (firstn_skipn (Z.to_nat (hi - lo))
                      (skipn (Z.to_nat lo) line)).
        apply in_or_app. now left. }
    change (buffer (set_status_message HELP_STATUS s1)) with b1.
    change (cursor_y (set_status_message HELP_STATUS s1)) with (cursor_y s).
    change (cursor_x (set_status_message HELP_STATUS s1)) with lo.
    rewrite (py_get_nonneg b1 _ g1 Hy Hg1), Hi.
    rewrite py_set_nonneg
      by (apply (nth_error_zlen _ _ g1); [exact Hy|exact Hg1]).
    fold k b2 s2. rewrite clamp_cursor_id; [reflexivity|].
    apply (cursor_invariant_intro s2 g2); [exact Hy|exact Hg2|].
    change (cursor_x s2) with (lo + zlen text).
    unfold GapBuffer.len. rewrite Hline2. lia. }
  exists s1, s2.
  split; [exact Hcut|]. split; [symmetry; exact Hslice|]. split.
  { unfold document. change (buffer s1) with b1. unfold b1.
    rewrite map_app. cbn [map app]. rewrite Hs1.
    now rewrite firstn_map, skipn_map. }
  split; [reflexivity|]. split; [reflexivity|]. split; [reflexivity|].
  split; [exact Hpaste|]. split.
  { unfold document. change (buffer s2) with b2. rewrite Hb2.
    rewrite map_app. cbn [map]. rewrite Hline2.
    rewrite (nth_error_decompose (buffer s) k g Hg) at 3.
    now rewrite map_app. }
  split; [|reflexivity].
  change (cursor_x s2) with (lo + zlen text). lia.
Qed.

Lemma X28_cut_then_paste_witness :
  exists s1 s2,
    handle_keypress unix_host selection_in_line CTRL_X None []
    = Some (s1, [])
    /\ clipboard s1
       = GapBuffer.get_slice six_emoji_line (Some (Z.min 1 4))
           (Some (Z.max 1 4))
    /\ document s1
       = firstn (Z.to_nat 0) (document selection_in_line)
         ++ [firstn (Z.to_nat (Z.min 1 4))
               (GapBuffer.to_string six_emoji_line)
             ++ skipn (Z.to_nat (Z.max 1 4))
                  (GapBuffer.to_string six_emoji_line)]
         ++ skipn (S (Z.to_nat 0)) (document selection_in_line)
    /\ cursor_x s1 = Z.min 1 4
    /\ cursor_y s1 = 0
    /\ is_selecting s1 = false
    /\ handle_keypress unix_host s1 CTRL_V None [] = Some (s2, [])
    /\ document s2 = document selection_in_line
    /\ cursor_x s2 = Z.max 1 4
    /\ cursor_y s2 = 0.
Proof.
  apply (X28_cut_then_paste unix_host selection_in_line None None []
           six_emoji_line).
  - reflexivity.
  - reflexivity.
  - reflexivity.
  - vm_compute. congruence.
  - reflexivity.
  - exact six_emoji_line_wf.
  - vm_compute. split; congruence.
  - vm_compute. split; congruence.
  - vm_compute. intros H.
    repeat (destruct H as [H|H]; [discriminate H|]). exact H.
Defined.

(** ** The fallback editor *)

Lemma map_opt_total {A B} (f : A -> option B) l :
  Forall (fun x => exists y, f x = Some y) l ->
  exists r, map_opt f l = Some r.
Proof.
  induction 1 as [|x l [y Hy] _ [r Hr]]; cbn [map_opt].
  - now exists [].
  - rewrite Hy, Hr. now eexists.
Qed.

Lemma py_range_bounds a b x : In x (py_range a b) -> a <= x < b.
Proof.
  unfold py_range. rewrite in_map_iff. intros (k & <- & Hk).
  apply in_seq in Hk. lia.
Qed.

Lemma splice_firstn {A} (l : list A) i x :
  (i <= length l)%nat ->
  firstn (S i) (firstn i l ++ x :: skipn (S i) l) = firstn i l ++ [x].
Proof.
  intros H.
  change (x :: skipn (S i) l) with ([x] ++ skipn (S i) l).
  rewrite app_assoc. apply firstn_length_app.
  rewrite length_app, length_firstn. simpl. lia.
Qed.

Lemma splice_skipn {A} (l : list A) i x m :
  (i <= length l)%nat ->
  skipn (S i + m) (firstn i l ++ x :: skipn (S i) l) = skipn (S i + m) l.
Proof.
  intros H.
  change (x :: skipn (S i) l) with ([x] ++ skipn (S i) l).
  rewrite app_assoc, skipn_app.
  rewrite skipn_all2 by (rewrite length_app, length_firstn; simpl; lia).
  rewrite length_app, length_firstn. cbn [app length].
  replace (S i + m - (Nat.min i (length l) + 1))%nat with m by lia.
  rewrite skipn_skipn. f_equal. lia.
Qed.

(** Writing line [idx] in the typewriter loop, the list being extended by
    one line when [idx] is just past its end. *)
Lemma typewriter_write (ls : list pystr) i x :
  (i <= length ls)%nat ->
  (if Z.of_nat i <? zlen ls then py_set ls (Z.of_nat i) x
   else
     py_set
       (ls ++ repeat [NEWLINE] (Z.to_nat (Z.of_nat i + 1 - zlen ls)))
       (Z.of_nat i) x)
  = Some (firstn i ls ++ x :: skipn (S i) ls).
Proof.
  intros Hi. destruct (Z.ltb_spec (Z.of_nat i) (zlen ls)) as [Hlt|Hge].
  - rewrite py_set_nonneg by lia. now rewrite Nat2Z.id.
  - assert (i = length ls) by (unfold zlen in Hge; lia). subst i.
    replace (Z.to_nat (Z.of_nat (length ls) + 1 - zlen ls)) with 1%nat
      by (unfold zlen; lia).
    cbn [repeat]. rewrite py_set_nonneg by (rewrite zlen_app; unfold zlen;
                                            simpl; lia).
    rewrite Nat2Z.id.
    rewrite firstn_length_app by reflexivity.
    rewrite skipn_all2 by (rewrite length_app; simpl; lia).
    rewrite firstn_all, skipn_all2 by lia. reflexivity.
Qed.

Lemma typewriter_print (ls : list pystr) idx :
  0 <= idx ->
  exists x, (if idx <? zlen ls then py_get ls idx else Some []) = Some x.
Proof.
  intros H. destruct (Z.ltb_spec idx (zlen ls)); [|now eexists].
  apply py_get_in_range. lia.
Qed.

Lemma typewriter_loop_typed rest : forall ts ls i,
  (i <= length ls)%nat ->
  Forall (fun t => t <> []) ts ->
  FallbackEditor.typewriter_loop (ts ++ [] :: [] :: rest) ls (Z.of_nat i) 0
  = Some (firstn i ls
          ++ map (fun t => t ++ [NEWLINE]) ts
          ++ [NEWLINE] :: skipn (i + length ts + 1) ls,
          Z.of_nat (i + length ts + 1), rest).
Proof.
  induction ts as [|t ts IH]; intros ls i Hi Hts.
  - cbn [app FallbackEditor.typewriter_loop map length].
    destruct (typewriter_print ls (Z.of_nat i)) as [x ->]; [lia|].
    cbn [pystr_eqb]. change (2 <=? 0 + 1) with false. cbn [andb app].
    rewrite typewriter_write by exact Hi.
    cbn [FallbackEditor.typewriter_loop].
    match goal with
    | |- context [py_get ?l (Z.of_nat i + 1)] =>
        destruct (typewriter_print l (Z.of_nat i + 1)) as [y ->]; [lia|]
    end.
    cbn [pystr_eqb]. change (2 <=? 0 + 1 + 1) with true. cbn [andb].
    replace (i + 0 + 1)%nat with (S i) by lia.
    replace (Z.of_nat (S i)) with (Z.of_nat i + 1) by lia. reflexivity.
  - inversion Hts as [|? ? Ht Hts']; subst.
    cbn [app FallbackEditor.typewriter_loop map length].
    destruct (typewriter_print ls (Z.of_nat i)) as [x ->]; [lia|].
    destruct t as [|c t]; [contradiction|]. cbn [pystr_eqb andb].
    rewrite typewriter_write by exact Hi.
    replace (Z.of_nat i + 1) with (Z.of_nat (S i)) by lia.
    rewrite IH; [|rewrite length_app, length_firstn; simpl; lia|exact Hts'].
    rewrite splice_firstn by exact Hi.
    replace (S i + length ts + 1)%nat with (S i + (length ts + 1))%nat by lia.
    rewrite splice_skipn by exact Hi.
    replace (i + S (length ts) + 1)%nat with (S i + (length ts + 1))%nat
      by lia.
    rewrite <- app_assoc. reflexivity.
Qed.

(** X29. Typewriter mode overwrites the lines from the selector on: with
    the selector on a line, typing non-empty lines and then two empty ones
    replaces one line per line typed, starting at the selector and
    appending past the end of the file; the first empty line is written
    as an empty line too, the second ends the mode with the selector on
    the last line written, and the lines before the selector and after the
    last line written are kept. *)
Theorem X29_typewriter_overwrites_lines st ts rest :
  0 <= FallbackEditor.selector st < zlen (FallbackEditor.lines st) ->
  Forall (fun t => t <> []) ts ->
  exists st',
    FallbackEditor._typewriter st (ts ++ [] :: [] :: rest) = Some (st', rest)
    /\ FallbackEditor.lines st'
       = firstn (Z.to_nat (FallbackEditor.selector st))
           (FallbackEditor.lines st)
         ++ map (fun t => t ++ [NEWLINE]) ts
         ++ [NEWLINE]
            :: skipn (Z.to_nat (FallbackEditor.selector st) + length ts + 1)
                 (FallbackEditor.lines st)
    /\ FallbackEditor.selector st' = FallbackEditor.selector st + zlen ts
    /\ FallbackEditor.undo st' = FallbackEditor.undo st
    /\ FallbackEditor.dirty st' = FallbackEditor.dirty st.
Proof.
  intros Hsel Hts. unfold FallbackEditor._typewriter. cbv zeta.
  destruct (map_opt_total (py_get (FallbackEditor.lines st))
              (py_range (Z.max 0 (FallbackEditor.selector st - 5))
                 (FallbackEditor.selector st))) as [r ->].
  { apply Forall_forall. intros x Hx. apply py_range_bounds in Hx.
    apply py_get_in_range. lia. }
  assert (Hi : (Z.to_nat (FallbackEditor.selector st)
                <= length (FallbackEditor.lines st))%nat)
    by (unfold zlen in Hsel; lia).
  pose proof (typewriter_loop_typed rest ts (FallbackEditor.lines st)
                (Z.to_nat (FallbackEditor.selector st)) Hi Hts) as Hloop.
  rewrite Z2Nat.id in Hloop by lia. rewrite Hloop.
  eexists. split; [reflexivity|].
  cbn [FallbackEditor.lines FallbackEditor.selector FallbackEditor.undo
       FallbackEditor.dirty].
  repeat split. unfold zlen. lia.
Qed.

Lemma X29_typewriter_overwrites_lines_witness :
  exists st',
    FallbackEditor._typewriter three_lines
      ([py "uno"; e_acute] ++ [] :: [] :: [])
    = Some (st', [])
    /\ FallbackEditor.lines st'
       = firstn (Z.to_nat (FallbackEditor.selector three_lines))
           (FallbackEditor.lines three_lines)
         ++ map (fun t => t ++ [NEWLINE]) [py "uno"; e_acute]
         ++ [NEWLINE]
            :: skipn (Z.to_nat (FallbackEditor.selector three_lines)
                      + length [py "uno"; e_acute] + 1)
                 (FallbackEditor.lines three_lines)
    /\ FallbackEditor.selector st'
       = FallbackEditor.selector three_lines + zlen [py "uno"; e_acute]
    /\ FallbackEditor.undo st' = FallbackEditor.undo three_lines
    /\ FallbackEditor.dirty st' = FallbackEditor.dirty three_lines.
Proof.
  apply (X29_typewriter_overwrites_lines three_lines [py "uno"; e_acute] []).
  - vm_compute. split; congruence.
  - repeat constructor; discriminate.
Defined.

Lemma edit_line_keeps_undo st ins st' ins' :
  FallbackEditor._edit_line st ins = Some (st', ins') ->
  FallbackEditor.undo st' = FallbackEditor.undo st
  /\ FallbackEditor.dirty st' = FallbackEditor.dirty st.
Proof.
  unfold FallbackEditor._edit_line. cbv zeta.
  destruct (py_get _ _); [|discriminate].
  destruct ins as [|new ins]; [discriminate|].
  destruct (py_set _ _ _); [|discriminate].
  intros [= <- _]. now split.
Qed.

Lemma delete_line_keeps_undo st st' :
  FallbackEditor._delete_line st = Some st' ->
  FallbackEditor.undo st' = FallbackEditor.undo st
  /\ FallbackEditor.dirty st' = FallbackEditor.dirty st.
Proof.
  unfold FallbackEditor._delete_line.
  destruct (py_pop _ _) as [[x ls]|]; [|discriminate].
  intros [= <-]. now split.
Qed.

Lemma add_line_keeps_undo st ins st' ins' :
  FallbackEditor._add_line st ins = Some (st', ins') ->
  FallbackEditor.undo st' = FallbackEditor.undo st
  /\ FallbackEditor.dirty st' = FallbackEditor.dirty st.
Proof.
  unfold FallbackEditor._add_line. destruct ins as [|text ins];
    [discriminate|].
  intros [= <- _]. now split.
Qed.

Lemma typewriter_keeps_undo st ins st' ins' :
  FallbackEditor._typewriter st ins = Some (st', ins') ->
  FallbackEditor.undo st' = FallbackEditor.undo st
  /\ FallbackEditor.dirty st' = FallbackEditor.dirty st.
Proof.
  unfold FallbackEditor._typewriter. cbv zeta.
  destruct (map_opt _ _); [|discriminate].
  destruct (FallbackEditor.typewriter_loop _ _ _ _) as [[[ls idx] ins1]|];
    [|discriminate].
  intros [= <- _]. now split.
Qed.

(** X30. Undo takes back an editing command of the fallback editor:
    whichever of the commands e, d, a and t was carried out, and whatever
    it did to the lines, the command z right after puts back the lines as
    they were before it and leaves the undo stack as it was; the document
    stays marked as modified. *)
Theorem X30_undo_restores_lines action st ins st1 ins1 :
  In action FallbackEditor.edit_commands ->
  FallbackEditor.run_edit_or_undo action st ins = Some (st1, ins1) ->
  exists st2,
    FallbackEditor.run_edit_or_undo (py "z") st1 ins1 = Some (st2, ins1)
    /\ FallbackEditor.lines st2 = FallbackEditor.lines st
    /\ FallbackEditor.undo st2 = FallbackEditor.undo st
    /\ FallbackEditor.selector st2 = FallbackEditor.selector st1
    /\ FallbackEditor.dirty st1 = true
    /\ FallbackEditor.dirty st2 = true.
Proof.
  intros Hin Hrun.
  set (st0 := FallbackEditor.mk (FallbackEditor.lines st)
                (FallbackEditor.undo st ++ [FallbackEditor.lines st]) true
                (FallbackEditor.selector st)).
  assert (Hkeep : FallbackEditor.undo st1 = FallbackEditor.undo st0
                  /\ FallbackEditor.dirty st1 = FallbackEditor.dirty st0).
  { unfold FallbackEditor.run_edit_or_undo in Hrun.
    assert (He : existsb (pystr_eqb action) FallbackEditor.edit_commands
                 = true).
    { apply existsb_exists. exists action. split; [exact Hin|].
      now apply pystr_eqb_eq. }
    rewrite He in Hrun. cbv zeta in Hrun. fold st0 in Hrun.
    destruct (pystr_eqb action (py "e") && _).
    { now apply edit_line_keeps_undo in Hrun. }
    destruct (pystr_eqb action (py "d") && _).
    { destruct (FallbackEditor._delete_line st0) as [st'|] eqn:Ed;
        [|discriminate].
      injection Hrun as <- _. now apply delete_line_keeps_undo in Ed. }
    destruct (pystr_eqb action (py "a")).
    { now apply add_line_keeps_undo in Hrun. }
    destruct (pystr_eqb action (py "t")).
    { now apply typewriter_keeps_undo in Hrun. }
    injection Hrun as <- _. now split. }
  destruct Hkeep as [Hu Hd]. cbn [FallbackEditor.undo FallbackEditor.dirty st0]
    in Hu, Hd.
  unfold FallbackEditor.run_edit_or_undo.
  change (existsb (pystr_eqb (py "z")) FallbackEditor.edit_commands)
    with false.
  change (pystr_eqb (py "z") (py "z")) with true. cbv iota. rewrite Hu.
  destruct (FallbackEditor.undo st ++ [FallbackEditor.lines st]) eqn:E.
  { destruct (FallbackEditor.undo st); discriminate E. }
  rewrite <- E. cbn [negb andb]. eexists. split; [reflexivity|].
  cbn [FallbackEditor.lines FallbackEditor.undo FallbackEditor.selector
       FallbackEditor.dirty].
  rewrite last_last, removelast_last. repeat split. exact Hd.
Qed.

Lemma X30_undo_restores_lines_witness :
  exists st2,
    FallbackEditor.run_edit_or_undo (py "z")
      (FallbackEditor.mk
         [py "one" ++ [NEWLINE]; py "three" ++ [NEWLINE]]
         [FallbackEditor.lines three_lines] true 1) []
    = Some (st2, [])
    /\ FallbackEditor.lines st2 = FallbackEditor.lines three_lines
    /\ FallbackEditor.undo st2 = FallbackEditor.undo three_lines
    /\ FallbackEditor.selector st2 = 1
    /\ true = true
    /\ FallbackEditor.dirty st2 = true.
Proof.
  apply (X30_undo_restores_lines (py "d") three_lines []
           (FallbackEditor.mk
              [py "one" ++ [NEWLINE]; py "three" ++ [NEWLINE]]
              [FallbackEditor.lines three_lines] true 1) []).
  - right. left. reflexivity.
  - vm_compute. reflexivity.
Defined.
